(** * LedgerLens front end: upload-and-poll controller, result mapping,
      passcode entry and lockout countdown

    A shallow embedding of the TypeScript sources

    - [App.tsx] (the polling version of the main view):
      [mapAccountInfo], [mapMonthlyStats], [clearPolling], [onDrop],
      [pollForResults];
    - [components/PasscodeInput.tsx]: [handleChange], [handleKeyDown],
      [handlePaste];
    - [components/LoginPage.tsx]: [handlePasscodeComplete],
      [getRemainingTime];

    followed by the properties the specification states about them.

    Conventions.  JavaScript numbers are modelled by exact rationals
    ([Q]): every finite JSON number is one, and copying, comparing with
    zero and [Math.abs] are exact on doubles as well; the rounding of a
    sum is not modelled.  Strings are byte strings.  The event loop is
    modelled by an explicit state and one transition per run-to-completion
    segment of the code (from a resumption point to the next [await] or
    [return]). *)

From Stdlib Require Import ZArith QArith Qabs Qround String Ascii List DecimalString Lia.
From Stdlib Require DecimalN.
From stdpp Require Import base option list gmap strings.

Local Open Scope string_scope.
Set Warnings "-register-all".

(* ===================================================================== *)
(** * JavaScript values                                                    *)
(* ===================================================================== *)

Module Js.

(** Values as [JSON.parse] builds them, plus [undefined].  An object lists
    its own properties in the order [Object.entries] enumerates them, with
    distinct keys. *)
Inductive JsVal : Type :=
| JUndefined
| JNull
| JBool (b : bool)
| JNum (q : Q)
| JStr (s : string)
| JArr (items : list JsVal)
| JObj (fields : list (string * JsVal)).

(** Completion of an expression: a value, or a thrown [Error] with its
    [message].  Everything thrown or rejected in this program is an
    [Error] instance (the code reads [e.message] behind an
    [instanceof Error] test). *)
Inductive Completion (A : Type) : Type :=
| Normal (a : A)
| Throw (message : string).
Arguments Normal {A} a.
Arguments Throw {A} message.

#[export] Instance completion_ret : MRet Completion := fun _ a => Normal a.
#[export] Instance completion_bind : MBind Completion := fun _ _ f m =>
  match m with
  | Normal a => f a
  | Throw e => Throw e
  end.

(** ToBoolean. *)
Definition truthy (v : JsVal) : bool :=
  match v with
  | JUndefined | JNull => false
  | JBool b => b
  | JNum q => negb (Qeq_bool q 0)
  | JStr s => negb (String.eqb s "")
  | JArr _ | JObj _ => true
  end.

(** [a || b] *)
Definition js_or (a b : JsVal) : JsVal := if truthy a then a else b.

(** [a ?? b] *)
Definition nullish (a b : JsVal) : JsVal :=
  match a with
  | JUndefined | JNull => b
  | _ => a
  end.

Fixpoint own (k : string) (fields : list (string * JsVal)) : option JsVal :=
  match fields with
  | [] => None
  | (k', v) :: rest => if String.eqb k k' then Some v else own k rest
  end.

(** Message of the TypeError raised by a property read on [null] or
    [undefined] (V8's wording; no property below depends on the text). *)
Definition cannot_read (what k : string) : string :=
  "Cannot read properties of " +:+ what +:+ " (reading '" +:+ k +:+ "')".

(** [v.k], for the property names this program reads ([id], [error],
    [status], [account_info], [customer_name], ...): none of them is an
    inherited property, so on a primitive or an array the read gives
    [undefined]. *)
Definition get (v : JsVal) (k : string) : Completion JsVal :=
  match v with
  | JUndefined => Throw (cannot_read "undefined" k)
  | JNull => Throw (cannot_read "null" k)
  | JObj fields => Normal (default JUndefined (own k fields))
  | _ => Normal JUndefined
  end.

(** [v?.k] *)
Definition opt_get (v : JsVal) (k : string) : Completion JsVal :=
  match v with
  | JUndefined | JNull => Normal JUndefined
  | _ => get v k
  end.

(** [v === 'text'] *)
Definition is_string (v : JsVal) (text : string) : bool :=
  match v with
  | JStr s => String.eqb s text
  | _ => false
  end.

(** Decimal rendering of a natural number, as in a template literal or an
    array index key. *)
Definition decimal (n : N) : string := NilZero.string_of_uint (N.to_uint n).

(** [Object.entries(v)]: own enumerable string-keyed properties. *)
Definition Object_entries (v : JsVal) : Completion (list (string * JsVal)) :=
  match v with
  | JUndefined | JNull => Throw "Cannot convert undefined or null to object"
  | JObj fields => Normal fields
  | JArr items => Normal (imap (fun i x => (decimal (N.of_nat i), x)) items)
  | JStr s =>
      Normal (imap (fun i c => (decimal (N.of_nat i), JStr (String c EmptyString)))
                   (list_ascii_of_string s))
  | JBool _ | JNum _ => Normal []
  end.

(** Value of an arithmetic primitive.  On number operands it is computed;
    when an operand is not a number JavaScript first coerces it (ToNumber,
    or string concatenation for [+]) and the application is kept
    unevaluated. *)
Inductive Arith : Type :=
| Num (q : Q)
| AbsOf (v : JsVal)
| PlusOf (a b : JsVal).

(** [Math.abs(v)] *)
Definition Math_abs (v : JsVal) : Arith :=
  match v with
  | JNum q => Num (Qabs q)
  | _ => AbsOf v
  end.

(** [a + b] *)
Definition js_plus (a b : JsVal) : Arith :=
  match a, b with
  | JNum x, JNum y => Num (x + y)
  | _, _ => PlusOf a b
  end.

End Js.
Export Js.

(* ===================================================================== *)
(** * Mapping a "completed" payload to the display model                   *)
(* ===================================================================== *)

Module Account.
Record t : Type := {
  customerName : JsVal;
  accountNumber : JsVal;
  ibanNumber : JsVal;
  openingBalance : JsVal;
  closingBalance : JsVal;
  financialPeriod : JsVal;
  pagesProcessed : JsVal;
  totalTransactions : JsVal;
}.
End Account.

Module Monthly.
Record t : Type := {
  month : string;
  openingBalance : JsVal;
  closingBalance : JsVal;
  inflows : JsVal;
  outflows : Arith;
  netChange : JsVal;
  fluctuation : JsVal;
  foreignTxns : Arith;
  foreignAmount : Arith;
  minBalance : JsVal;
}.
End Monthly.

Module Analytics.
Record t : Type := {
  averageFluctuation : JsVal;
  netCashFlowStability : JsVal;
  totalForeignTransactions : JsVal;
  totalForeignAmount : JsVal;
  overdraftFrequency : JsVal;
  overdraftTotalDays : JsVal;
  sum_total_inflow : JsVal;
  sum_total_outflow : JsVal;
  avg_total_inflow : JsVal;
  avg_total_outflow : JsVal;
}.
End Analytics.

Definition zero : JsVal := JNum 0.
Definition empty : JsVal := JStr "".

(** [function mapAccountInfo(accountInfo)] *)
Definition mapAccountInfo (accountInfo : JsVal) : Completion Account.t :=
  customer_name ← get accountInfo "customer_name";
  account_number ← get accountInfo "account_number";
  iban_number ← get accountInfo "iban_number";
  opening_balance ← get accountInfo "opening_balance";
  closing_balance ← get accountInfo "closing_balance";
  financial_period ← get accountInfo "financial_period";
  pages_processed ← get accountInfo "pages_processed";
  total_transactions ← get accountInfo "total_transactions";
  mret {|
    Account.customerName := js_or customer_name empty;
    Account.accountNumber := js_or account_number empty;
    Account.ibanNumber := js_or iban_number empty;
    Account.openingBalance := js_or opening_balance zero;
    Account.closingBalance := js_or closing_balance zero;
    Account.financialPeriod := js_or financial_period empty;
    Account.pagesProcessed := js_or pages_processed zero;
    Account.totalTransactions := js_or total_transactions zero;
  |}.

(** [function mapMonthlyStats(month, stats)] *)
Definition mapMonthlyStats (month : string) (stats : JsVal) : Completion Monthly.t :=
  opening_balance ← get stats "opening_balance";
  closing_balance ← get stats "closing_balance";
  total_credit ← get stats "total_credit";
  total_debit ← get stats "total_debit";
  net_change ← get stats "net_change";
  fluctuation ← get stats "fluctuation";
  international_inward_count ← get stats "international_inward_count";
  international_outward_count ← get stats "international_outward_count";
  international_inward_total ← get stats "international_inward_total";
  international_outward_total ← get stats "international_outward_total";
  minimum_balance ← get stats "minimum_balance";
  mret {|
    Monthly.month := month;
    Monthly.openingBalance := nullish opening_balance zero;
    Monthly.closingBalance := nullish closing_balance zero;
    Monthly.inflows := nullish total_credit zero;
    Monthly.outflows := Math_abs (nullish total_debit zero);
    Monthly.netChange := nullish net_change zero;
    Monthly.fluctuation := nullish fluctuation zero;
    Monthly.foreignTxns :=
      js_plus (nullish international_inward_count zero)
              (nullish international_outward_count zero);
    Monthly.foreignAmount :=
      js_plus (nullish international_inward_total zero)
              (nullish international_outward_total zero);
    Monthly.minBalance := nullish minimum_balance zero;
  |}.

(** The account-info stage of the "completed" branch:
    [mapAccountInfo(resultsData.account_info || {})] inside its own
    [try], any fault rethrown under a fixed message. *)
Definition account_stage (resultsData : JsVal) : Completion Account.t :=
  match (account_info ← get resultsData "account_info";
         mapAccountInfo (js_or account_info (JObj []))) with
  | Normal info => Normal info
  | Throw _ => Throw "Error processing account information"
  end.

Fixpoint map_entries (entries : list (string * JsVal)) : Completion (list Monthly.t) :=
  match entries with
  | [] => Normal []
  | (month, stats) :: rest =>
      match mapMonthlyStats month stats with
      | Normal row => rows ← map_entries rest; mret (row :: rows)
      | Throw _ => Throw ("Error processing month " +:+ month)
      end
  end.

(** The monthly stage:
    [resultsData.monthly_analysis ? Object.entries(...).map(...) : []],
    any fault (also the per-month one) rethrown under a fixed message. *)
Definition monthly_stage (resultsData : JsVal) : Completion (list Monthly.t) :=
  match (monthly_analysis ← get resultsData "monthly_analysis";
         if truthy monthly_analysis
         then entries ← Object_entries monthly_analysis; map_entries entries
         else mret []) with
  | Normal rows => Normal rows
  | Throw _ => Throw "Error processing monthly data"
  end.

(** [resultsData.analytics?.k] *)
Definition analytics_field (resultsData : JsVal) (k : string) : Completion JsVal :=
  analytics ← get resultsData "analytics"; opt_get analytics k.

(** The [mappedAnalytics] object literal. *)
Definition analytics_stage (resultsData : JsVal) : Completion Analytics.t :=
  average_fluctuation ← analytics_field resultsData "average_fluctuation";
  net_cash_flow_stability ← analytics_field resultsData "net_cash_flow_stability";
  total_foreign_transactions ← analytics_field resultsData "total_foreign_transactions";
  total_foreign_amount ← analytics_field resultsData "total_foreign_amount";
  overdraft_frequency ← analytics_field resultsData "overdraft_frequency";
  overdraft_total_days ← analytics_field resultsData "overdraft_total_days";
  sum_total_inflow ← analytics_field resultsData "sum_total_inflow";
  sum_total_outflow ← analytics_field resultsData "sum_total_outflow";
  avg_total_inflow ← analytics_field resultsData "avg_total_inflow";
  avg_total_outflow ← analytics_field resultsData "avg_total_outflow";
  mret {|
    Analytics.averageFluctuation := average_fluctuation;
    Analytics.netCashFlowStability := net_cash_flow_stability;
    Analytics.totalForeignTransactions := total_foreign_transactions;
    Analytics.totalForeignAmount := total_foreign_amount;
    Analytics.overdraftFrequency := overdraft_frequency;
    Analytics.overdraftTotalDays := overdraft_total_days;
    Analytics.sum_total_inflow := sum_total_inflow;
    Analytics.sum_total_outflow := sum_total_outflow;
    Analytics.avg_total_inflow := avg_total_inflow;
    Analytics.avg_total_outflow := avg_total_outflow;
  |}.

(** What the code reads of a fetch [Response]. *)
Module Http.
Record Response : Type := { status : N; statusText : string }.

(** [response.ok] *)
Definition ok (r : Response) : bool :=
  ((200 <=? status r) && (status r <=? 299))%N.
End Http.
Export Http.

(* ===================================================================== *)
(** * The upload-and-poll controller ([App], [onDrop], [pollForResults])   *)
(* ===================================================================== *)

Module Upload.

(** An accepted file; the view reads only its name. *)
Record File : Type := { name : string }.

(** A job identifier as held in [pdfId] and in [currentPdfIdRef.current]:
    a truthy primitive, or an object or array, which [!==] compares by
    reference; [alloc] names the upload whose body produced it. *)
Inductive Ident : Type :=
| Prim (v : JsVal)
| Ref (alloc : nat).

Definition ident_of (alloc : nat) (v : JsVal) : Ident :=
  match v with
  | JArr _ | JObj _ => Ref alloc
  | _ => Prim v
  end.

(** [a === b] on identifiers. *)
Definition strict_eq (a b : Ident) : bool :=
  match a, b with
  | Prim (JBool x), Prim (JBool y) => Bool.eqb x y
  | Prim (JNum x), Prim (JNum y) => Qeq_bool x y
  | Prim (JStr x), Prim (JStr y) => String.eqb x y
  | Ref m, Ref n => Nat.eqb m n
  | _, _ => false
  end.

Definition initialPollInterval : Z := 60000.
Definition backoffMultiplier : Q := 3 # 2.
Definition maxPollTime : Z := 10800000.

(** The variables one [onDrop] call closes over once its upload has
    succeeded: [pdfId], [pollInterval], [totalPollTime].  A call has at most
    one live continuation (a pending timer or a suspended
    [pollForResults]), so the variables travel with it.  [sid] says which
    [onDrop] call the closure belongs to; the code never reads it. *)
Record Session : Type := {
  sid : nat;
  pdfId : Ident;
  pollInterval : Z;
  totalPollTime : Z;
}.

(** [totalPollTime += pollInterval] *)
Definition accumulate (c : Session) : Session :=
  {| sid := sid c; pdfId := pdfId c; pollInterval := pollInterval c;
     totalPollTime := totalPollTime c + pollInterval c |}.

(** [pollInterval = Math.floor(pollInterval * backoffMultiplier)] *)
Definition grow (c : Session) : Session :=
  {| sid := sid c; pdfId := pdfId c;
     pollInterval := Qfloor (inject_Z (pollInterval c) * backoffMultiplier);
     totalPollTime := totalPollTime c |}.

(** The React state of [App]. *)
Record View : Type := {
  uploadedFile : option File;
  isAnalyzing : bool;
  showResults : bool;
  accountInfo : option Account.t;
  monthlyData : list Monthly.t;
  analytics : option Analytics.t;
  error : JsVal;
}.

Inductive Request : Type :=
| PostUpload (file : File)
| GetResults (id : Ident)
| PostStop (id : Ident).

(** A suspended async call, named after the [await] it waits at. *)
Inductive Cont : Type :=
| UploadFetch                      (* onDrop: await fetch(uploadUrl, ...) *)
| UploadErrorBody (r : Response)   (* onDrop: await response.json() *)
| UploadText                       (* onDrop: await response.text() *)
| PollFetch (c : Session)          (* pollForResults: await fetch(resultsUrl) *)
| PollBody (c : Session)           (* pollForResults: await resultsResponse.json() *)
| PollStop (c : Session).          (* pollForResults: await fetch(stopUrl, ...) *)

Record State : Type := {
  view : View;
  pollTimeoutRef : option positive;
  currentPdfIdRef : option Ident;
  timers : gmap positive (Z * Session);  (* pending timeouts: delay, closure *)
  tasks : gmap nat Cont;                 (* suspended async calls *)
  nextTimer : positive;
  nextTask : nat;
  requests : list Request;               (* requests issued, latest first *)
}.

Definition initial : State := {|
  view := {| uploadedFile := None; isAnalyzing := false; showResults := false;
             accountInfo := None; monthlyData := []; analytics := None;
             error := JNull |};
  pollTimeoutRef := None;
  currentPdfIdRef := None;
  timers := ∅;
  tasks := ∅;
  nextTimer := 1;
  nextTask := 0;
  requests := [];
|}.

(** ** State updates *)

Definition with_view (f : View -> View) (s : State) : State :=
  {| view := f (view s); pollTimeoutRef := pollTimeoutRef s;
     currentPdfIdRef := currentPdfIdRef s; timers := timers s; tasks := tasks s;
     nextTimer := nextTimer s; nextTask := nextTask s; requests := requests s |}.

Definition setUploadedFile (x : option File) : State -> State :=
  with_view (fun v =>
    {| uploadedFile := x; isAnalyzing := isAnalyzing v; showResults := showResults v;
       accountInfo := accountInfo v; monthlyData := monthlyData v;
       analytics := analytics v; error := error v |}).

Definition setIsAnalyzing (x : bool) : State -> State :=
  with_view (fun v =>
    {| uploadedFile := uploadedFile v; isAnalyzing := x; showResults := showResults v;
       accountInfo := accountInfo v; monthlyData := monthlyData v;
       analytics := analytics v; error := error v |}).

Definition setShowResults (x : bool) : State -> State :=
  with_view (fun v =>
    {| uploadedFile := uploadedFile v; isAnalyzing := isAnalyzing v; showResults := x;
       accountInfo := accountInfo v; monthlyData := monthlyData v;
       analytics := analytics v; error := error v |}).

Definition setAccountInfo (x : option Account.t) : State -> State :=
  with_view (fun v =>
    {| uploadedFile := uploadedFile v; isAnalyzing := isAnalyzing v;
       showResults := showResults v; accountInfo := x; monthlyData := monthlyData v;
       analytics := analytics v; error := error v |}).

Definition setMonthlyData (x : list Monthly.t) : State -> State :=
  with_view (fun v =>
    {| uploadedFile := uploadedFile v; isAnalyzing := isAnalyzing v;
       showResults := showResults v; accountInfo := accountInfo v; monthlyData := x;
       analytics := analytics v; error := error v |}).

Definition setAnalytics (x : option Analytics.t) : State -> State :=
  with_view (fun v =>
    {| uploadedFile := uploadedFile v; isAnalyzing := isAnalyzing v;
       showResults := showResults v; accountInfo := accountInfo v;
       monthlyData := monthlyData v; analytics := x; error := error v |}).

Definition setError (x : JsVal) : State -> State :=
  with_view (fun v =>
    {| uploadedFile := uploadedFile v; isAnalyzing := isAnalyzing v;
       showResults := showResults v; accountInfo := accountInfo v;
       monthlyData := monthlyData v; analytics := analytics v; error := x |}).

Definition set_pollTimeoutRef (x : option positive) (s : State) : State :=
  {| view := view s; pollTimeoutRef := x; currentPdfIdRef := currentPdfIdRef s;
     timers := timers s; tasks := tasks s; nextTimer := nextTimer s;
     nextTask := nextTask s; requests := requests s |}.

Definition set_currentPdfIdRef (x : option Ident) (s : State) : State :=
  {| view := view s; pollTimeoutRef := pollTimeoutRef s; currentPdfIdRef := x;
     timers := timers s; tasks := tasks s; nextTimer := nextTimer s;
     nextTask := nextTask s; requests := requests s |}.

Definition with_timers (f : gmap positive (Z * Session) -> gmap positive (Z * Session))
    (s : State) : State :=
  {| view := view s; pollTimeoutRef := pollTimeoutRef s;
     currentPdfIdRef := currentPdfIdRef s; timers := f (timers s); tasks := tasks s;
     nextTimer := nextTimer s; nextTask := nextTask s; requests := requests s |}.

Definition with_tasks (f : gmap nat Cont -> gmap nat Cont) (s : State) : State :=
  {| view := view s; pollTimeoutRef := pollTimeoutRef s;
     currentPdfIdRef := currentPdfIdRef s; timers := timers s; tasks := f (tasks s);
     nextTimer := nextTimer s; nextTask := nextTask s; requests := requests s |}.

(** ** Browser primitives *)

(** [clearTimeout(h)] *)
Definition clearTimeout (h : positive) : State -> State := with_timers (delete h).

(** [setTimeout(pollForResults, delay)]: the handle is [nextTimer]. *)
Definition setTimeout (delay : Z) (c : Session) (s : State) : State :=
  {| view := view s; pollTimeoutRef := pollTimeoutRef s;
     currentPdfIdRef := currentPdfIdRef s;
     timers := <[nextTimer s := (delay, c)]> (timers s); tasks := tasks s;
     nextTimer := Pos.succ (nextTimer s); nextTask := nextTask s;
     requests := requests s |}.

(** [fetch(...)]: the request leaves. *)
Definition fetch (r : Request) (s : State) : State :=
  {| view := view s; pollTimeoutRef := pollTimeoutRef s;
     currentPdfIdRef := currentPdfIdRef s; timers := timers s; tasks := tasks s;
     nextTimer := nextTimer s; nextTask := nextTask s; requests := r :: requests s |}.

(** A new async call suspends at its first [await]. *)
Definition suspend (k : Cont) (s : State) : State :=
  {| view := view s; pollTimeoutRef := pollTimeoutRef s;
     currentPdfIdRef := currentPdfIdRef s; timers := timers s;
     tasks := <[nextTask s := k]> (tasks s);
     nextTimer := nextTimer s; nextTask := S (nextTask s); requests := requests s |}.

(** The running call [t] suspends at a further [await]. *)
Definition await (t : nat) (k : Cont) : State -> State := with_tasks <[t := k]>.

(** ** The code *)

(** [const clearPolling = () => { ... }] *)
Definition clearPolling (s : State) : State :=
  let s :=
    match pollTimeoutRef s with
    | Some h => set_pollTimeoutRef None (clearTimeout h s)
    | None => s
    end in
  set_currentPdfIdRef None s.

(** [currentPdfIdRef.current !== pdfId], negated. *)
Definition is_current (c : Session) (s : State) : bool :=
  match currentPdfIdRef s with
  | Some id => strict_eq id (pdfId c)
  | None => false
  end.

(** [pollTimeoutRef.current = setTimeout(pollForResults, delay)], the
    callback closing over [c]. *)
Definition schedule (delay : Z) (c : Session) (s : State) : State :=
  set_pollTimeoutRef (Some (nextTimer s)) (setTimeout delay c s).

(** [onDrop], up to its first [await]. *)
Definition onDrop (acceptedFiles : list File) (s : State) : State :=
  match acceptedFiles with
  | [] => s
  | file :: _ =>
      let s := clearPolling s in
      let s := setUploadedFile (Some file) s in
      let s := setIsAnalyzing true s in
      let s := setError JNull s in
      let s := setShowResults false s in
      suspend UploadFetch (fetch (PostUpload file) s)
  end.

(** The outer [catch (e)] of [onDrop]. *)
Definition upload_catch (message : string) (s : State) : State :=
  let s := setError (JStr ("Network or server error: " +:+ message)) s in
  let s := setIsAnalyzing false s in
  clearPolling s.

(** [onDrop] after the error body [err] is known:
    [setError(err.error || 'Failed to upload PDF'); setIsAnalyzing(false); return]. *)
Definition upload_failed (err : JsVal) (s : State) : State :=
  match get err "error" with
  | Throw e => upload_catch e s
  | Normal m =>
      let s := setError (js_or m (JStr "Failed to upload PDF")) s in
      setIsAnalyzing false s
  end.

(** [{ error: `Server error: ${response.status} ${response.statusText}` }] *)
Definition server_error (r : Response) : JsVal :=
  JObj [("error",
         JStr ("Server error: " +:+ decimal (status r) +:+ " " +:+ statusText r))].

(** [onDrop] after the upload body decoded to [uploadData]. *)
Definition upload_succeeded (t : nat) (uploadData : JsVal) (s : State) : State :=
  match get uploadData "id" with
  | Throw e => upload_catch e s
  | Normal pdfId =>
      if negb (truthy pdfId) then upload_catch "No PDF ID returned from server" s
      else
        let id := ident_of t pdfId in
        let s := set_currentPdfIdRef (Some id) s in
        schedule initialPollInterval
          {| sid := t; pdfId := id; pollInterval := initialPollInterval;
             totalPollTime := 0 |} s
  end.

(** The [catch (pollError)] of [pollForResults]. *)
Definition poll_catch (c : Session) (message : string) (s : State) : State :=
  if negb (is_current c s) then s
  else
    let s := setError (JStr ("Error checking processing status: " +:+ message)) s in
    let s := setIsAnalyzing false s in
    clearPolling s.

(** [pollForResults], the [status === 'completed'] branch. *)
Definition completed (c : Session) (resultsData : JsVal) (s : State) : State :=
  if negb (is_current c s) then s
  else
    match account_stage resultsData with
    | Throw e => poll_catch c e s
    | Normal mappedAccountInfo =>
        let s := setAccountInfo (Some mappedAccountInfo) s in
        match monthly_stage resultsData with
        | Throw e => poll_catch c e s
        | Normal mappedMonthlyData =>
            let s := setMonthlyData mappedMonthlyData s in
            match analytics_stage resultsData with
            | Throw e => poll_catch c e s
            | Normal mappedAnalytics =>
                let s := setAnalytics (Some mappedAnalytics) s in
                let s := setIsAnalyzing false s in
                let s := setShowResults true s in
                clearPolling s
            end
        end
    end.

(** [pollForResults] after [resultsData] decoded, for the call [t]. *)
Definition poll_body (t : nat) (c : Session) (resultsData : JsVal) (s : State) : State :=
  if negb (is_current c s) then s
  else
    match get resultsData "status" with
    | Throw e => poll_catch c e s
    | Normal status =>
        if is_string status "error" then
          match get resultsData "error" with
          | Throw e => poll_catch c e s
          | Normal err =>
              let s := setError (js_or err (JStr "Error processing PDF")) s in
              let s := setIsAnalyzing false s in
              clearPolling s
          end
        else if is_string status "processing" then
          let c := accumulate c in
          if (maxPollTime <=? totalPollTime c)%Z
          then await t (PollStop c) (fetch (PostStop (pdfId c)) s)
          else schedule (pollInterval c) (grow c) s
        else if is_string status "completed" then completed c resultsData s
        else s
    end.

(** [pollForResults], from the timer to its first [await]. *)
Definition pollForResults (c : Session) (s : State) : State :=
  if negb (is_current c s) then s
  else suspend (PollFetch c) (fetch (GetResults (pdfId c)) s).

(** How an awaited promise settles.  [GotText] carries what [JSON.parse]
    makes of the text that arrived. *)
Inductive Settled : Type :=
| Rejected (message : string)
| GotResponse (r : Response)
| GotJson (v : JsVal)
| GotText (parsed : Completion JsVal).

(** The call [t], suspended at [k], resumes with [o]; [None] when [o] is
    not a settlement of the promise [k] waits for. *)
Definition resume (t : nat) (k : Cont) (o : Settled) (s : State) : option State :=
  match k, o with
  | UploadFetch, Rejected e => Some (upload_catch e s)
  | UploadFetch, GotResponse r =>
      Some (if negb (ok r) then await t (UploadErrorBody r) s else await t UploadText s)
  | UploadErrorBody r, Rejected _ => Some (upload_failed (server_error r) s)
  | UploadErrorBody r, GotJson err => Some (upload_failed err s)
  | UploadText, (Rejected e | GotText (Throw e)) =>
      Some (upload_catch ("Failed to parse upload response: " +:+ e) s)
  | UploadText, GotText (Normal uploadData) => Some (upload_succeeded t uploadData s)
  | PollFetch c, Rejected e => Some (poll_catch c e s)
  | PollFetch c, GotResponse r =>
      Some (if negb (ok r) then poll_catch c "Failed to fetch processing status" s
            else await t (PollBody c) s)
  | PollBody c, Rejected e => Some (poll_catch c e s)
  | PollBody c, GotJson resultsData => Some (poll_body t c resultsData s)
  | PollStop c, (Rejected _ | GotResponse _) =>
      Some (poll_catch c "Processing timeout. Please try again later." s)
  | _, _ => None
  end.

Inductive Event : Type :=
| Drop (acceptedFiles : list File)   (* the dropzone calls onDrop *)
| Fire (h : positive)                (* the timeout [h] elapses *)
| Settle (t : nat) (o : Settled)     (* the promise call [t] awaits settles *)
| PageHide                           (* beforeunload / pagehide *)
| UploadNew.                         (* the "Upload New PDF" button *)

Definition step (s : State) (e : Event) : State :=
  match e with
  | Drop acceptedFiles => onDrop acceptedFiles s
  | Fire h =>
      match timers s !! h with
      | Some (_, c) => pollForResults c (with_timers (delete h) s)
      | None => s
      end
  | Settle t o =>
      match tasks s !! t with
      | Some k => default s (resume t k o (with_tasks (delete t) s))
      | None => s
      end
  | PageHide => clearPolling s
  | UploadNew => setShowResults false s
  end.

Definition run (s : State) (trace : list Event) : State := foldl step s trace.

(** States the application can be in. *)
Definition reachable (s : State) : Prop := exists trace, s = run initial trace.

End Upload.

(* ===================================================================== *)
(** * Passcode entry ([PasscodeInput])                                     *)
(* ===================================================================== *)

Module Passcode.

(** [\d] *)
Definition is_digit (c : ascii) : bool :=
  (48 <=? nat_of_ascii c)%nat && (nat_of_ascii c <=? 57)%nat.

Fixpoint all_digits (s : string) : bool :=
  match s with
  | EmptyString => true
  | String c rest => is_digit c && all_digits rest
  end.

(** [/^\d$/.test(value)] *)
Definition one_digit (value : string) : bool :=
  match value with
  | String c EmptyString => is_digit c
  | _ => false
  end.

(** [/^\d+$/.test(text)] *)
Definition digits_only (text : string) : bool :=
  negb (String.eqb text "") && all_digits text.

(** The [values] array.  A cell is a string, or [None] where the array has
    no string: a hole left by a write beyond the end, which reads as
    [undefined] (the operations below treat both alike). *)
Abbreviation Cells := (list (option string)).

(** [a[index] = value] on a copy: JavaScript extends the array when
    [index] is beyond its end. *)
Definition array_set (index : nat) (value : string) (a : Cells) : Cells :=
  if decide (index < List.length a)
  then <[index := Some value]> a
  else (a ++ replicate (index - List.length a) None ++ [Some value])%list.

(** [v !== ''] *)
Definition filled (cell : option string) : bool :=
  match cell with
  | Some s => negb (String.eqb s "")
  | None => true
  end.

(** Truthiness of [values[index]]. *)
Definition holds_text (a : Cells) (index : nat) : bool :=
  match a !! index with
  | Some (Some s) => negb (String.eqb s "")
  | _ => false
  end.

(** [a.join('')] *)
Definition join (a : Cells) : string :=
  foldr (fun cell acc => default "" cell +:+ acc) "" a.

(** [text.split('')] *)
Definition split (text : string) : Cells :=
  map (fun c => Some (String c EmptyString)) (list_ascii_of_string text).

Section Component.

(** The props: [length] (6 unless the parent says otherwise) and
    [disabled]. *)
Variable length : nat.
Variable disabled : bool.

(** [useState(Array(length).fill(''))] *)
Definition initial : Cells := replicate length (Some "").

(** Each handler returns the new [values] and the argument of the
    [onComplete] call it makes, if any. *)
Definition handleChange (values : Cells) (index : nat) (value : string)
    : Cells * option string :=
  if disabled then (values, None)
  else if negb (String.eqb value "") && negb (one_digit value) then (values, None)
  else
    let newValues := array_set index value values in
    if forallb filled newValues && (String.length (join newValues) =? length)%nat
    then (newValues, Some (join newValues))
    else (newValues, None).

Definition handleKeyDown (values : Cells) (index : nat) (key : string)
    : Cells * option string :=
  if disabled then (values, None)
  else if String.eqb key "Backspace" then
    if holds_text values index then (array_set index "" values, None)
    else if (0 <? index)%nat then (array_set (index - 1) "" values, None)
    else (values, None)
  else (values, None).

Definition handlePaste (values : Cells) (text : string) : Cells * option string :=
  if disabled then (values, None)
  else
    let pastedData := substring 0 length text in
    if digits_only pastedData then
      let newValues :=
        (split pastedData
           ++ replicate (length - String.length pastedData) (Some ""))%list in
      if (String.length pastedData =? length)%nat
      then (newValues, Some pastedData)
      else (newValues, None)
    else (values, None).

End Component.

(** What the rendered inputs can send: [onChange] and [onKeyDown] of the
    input at [index], and [onPaste]. *)
Inductive Interaction : Type :=
| Change (index : nat) (value : string)
| KeyDown (index : nat) (key : string)
| Paste (text : string).

Definition handle (length : nat) (disabled : bool) (values : Cells) (i : Interaction)
    : Cells * option string :=
  match i with
  | Change index value => handleChange length disabled values index value
  | KeyDown index key => handleKeyDown disabled values index key
  | Paste text => handlePaste length disabled values text
  end.

(** The inputs are rendered for [index] in [0 .. length - 1]. *)
Definition rendered (length : nat) (i : Interaction) : Prop :=
  match i with
  | Change index _ | KeyDown index _ => index < length
  | Paste _ => True
  end.

(** A session: each interaction comes with the value of [disabled] at that
    moment; the result is the final [values] and the [onComplete] calls in
    order. *)
Fixpoint interact (length : nat) (values : Cells) (script : list (bool * Interaction))
    : Cells * list string :=
  match script with
  | [] => (values, [])
  | (disabled, i) :: rest =>
      let '(values', call) := handle length disabled values i in
      let '(final, calls) := interact length values' rest in
      (final, match call with Some code => code :: calls | None => calls end)
  end.

(** A cell as the invariant wants it: [''] or one decimal digit. *)
Definition cell_ok (cell : option string) : Prop :=
  exists s, cell = Some s /\ (s = "" \/ one_digit s = true).

End Passcode.

(* ===================================================================== *)
(** * Lockout countdown ([LoginPage])                                      *)
(* ===================================================================== *)

Module Login.

(** A [Date]: a time value in milliseconds, or an invalid date. *)
Inductive Date : Type :=
| Valid (ms : Z)
| InvalidDate.

(** [new Date(t)] *)
Definition new_Date (t : Z) : Date :=
  if (Z.abs t <=? 8640000000000000)%Z then Valid t else InvalidDate.

(** [\s], on bytes. *)
Definition is_space (c : ascii) : bool :=
  let n := nat_of_ascii c in
  ((9 <=? n)%nat && (n <=? 13)%nat) || (n =? 32)%nat.

Fixpoint take_while (p : ascii -> bool) (s : string) : string :=
  match s with
  | EmptyString => EmptyString
  | String c rest => if p c then String c (take_while p rest) else EmptyString
  end.

Fixpoint drop_while (p : ascii -> bool) (s : string) : string :=
  match s with
  | EmptyString => EmptyString
  | String c rest => if p c then drop_while p rest else s
  end.

(** [/(\d+)\s+word/] tried at the start of [s]; the result is group 1.
    Both repetitions are greedy, and giving characters back never helps:
    after fewer digits comes a digit, not a space, and after fewer spaces
    comes a space, not the first letter of [word]. *)
Definition match_here (word s : string) : option string :=
  let digits := take_while Passcode.is_digit s in
  let after_digits := drop_while Passcode.is_digit s in
  let after_spaces := drop_while is_space after_digits in
  if negb (String.eqb digits "")
     && (String.length after_spaces <? String.length after_digits)%nat
     && String.prefix word after_spaces
  then Some digits else None.

(** [text.match(/(\d+)\s+word/)]: group 1 of the leftmost match. *)
Fixpoint first_match (word text : string) : option string :=
  match match_here word text with
  | Some digits => Some digits
  | None =>
      match text with
      | EmptyString => None
      | String _ rest => first_match word rest
      end
  end.

(** [text.includes(needle)] *)
Fixpoint includes (needle text : string) : bool :=
  String.prefix needle text ||
  match text with
  | EmptyString => false
  | String _ rest => includes needle rest
  end.

(** [parseInt(digits)] on a run of decimal digits. *)
Definition parseInt (digits : string) : Z :=
  fold_left (fun acc c => acc * 10 + (Z.of_nat (nat_of_ascii c) - 48))%Z
            (list_ascii_of_string digits) 0%Z.

(** [v?.match(/(\d+)\s+word/)] *)
Definition opt_match (word : string) (v : JsVal) : Completion (option string) :=
  match v with
  | JUndefined | JNull => Normal None
  | JStr text => Normal (first_match word text)
  | _ => Throw "data.error?.match is not a function"
  end.

(** [v?.includes(needle)], as a condition. *)
Definition opt_includes (needle : string) (v : JsVal) : Completion bool :=
  match v with
  | JUndefined | JNull => Normal false
  | JStr text => Normal (includes needle text)
  | JArr items => Normal (existsb (fun x => is_string x needle) items)
  | _ => Throw "data.error?.includes is not a function"
  end.

(** The React state of [LoginPage] that the handlers below touch. *)
Record State : Type := {
  error : JsVal;
  loading : bool;
  lockoutUntil : option Date;
  remainingAttempts : option Z;
}.

Definition initial : State :=
  {| error := JStr ""; loading := false; lockoutUntil := None;
     remainingAttempts := None |}.

Definition setError (x : JsVal) (s : State) : State :=
  {| error := x; loading := loading s; lockoutUntil := lockoutUntil s;
     remainingAttempts := remainingAttempts s |}.

Definition setLoading (x : bool) (s : State) : State :=
  {| error := error s; loading := x; lockoutUntil := lockoutUntil s;
     remainingAttempts := remainingAttempts s |}.

Definition setLockoutUntil (x : option Date) (s : State) : State :=
  {| error := error s; loading := loading s; lockoutUntil := x;
     remainingAttempts := remainingAttempts s |}.

Definition setRemainingAttempts (x : option Z) (s : State) : State :=
  {| error := error s; loading := loading s; lockoutUntil := lockoutUntil s;
     remainingAttempts := x |}.

(** [handlePasscodeComplete], up to [await fetch(...)]. *)
Definition submit (s : State) : State := setLoading true (setError (JStr "") s).

(** The [if (response.status === 429) ... else if ...] statement.  It can
    only throw before it has set anything. *)
Definition read_limits (now : Z) (r : Response) (data : JsVal) (s : State)
    : Completion State :=
  if (status r =? 429)%N then
    err ← get data "error";
    m ← opt_match "minutes" err;
    match m with
    | Some digits =>
        let minutes := parseInt digits in
        let until := new_Date (now + minutes * 60 * 1000) in
        mret (setLockoutUntil (Some until) s)
    | None => mret s
    end
  else
    err ← get data "error";
    hit ← opt_includes "attempts remaining" err;
    if (hit : bool) then
      m ← opt_match "attempts" err;
      match m with
      | Some digits => mret (setRemainingAttempts (Some (parseInt digits)) s)
      | None => mret s
      end
    else mret s.

(** [handlePasscodeComplete] once the response [r] has arrived and its
    body has decoded to [data], at time [now = Date.now()]; with the state
    comes whether [onLoginSuccess] was called. *)
Definition respond (now : Z) (r : Response) (data : JsVal) (s : State) : State * bool :=
  if negb (ok r) then
    match (s ← read_limits now r data s;
           err ← get data "error";
           mret (setLoading false (setError (js_or err (JStr "Invalid passcode")) s))) with
    | Normal s => (setLoading false s, false)
    | Throw _ => (setLoading false (setError (JStr "Network error. Please try again.") s), false)
    end
  else (setLoading false s, true).

(** [handlePasscodeComplete] when [fetch] or [response.json()] rejects. *)
Definition fail (s : State) : State :=
  setLoading false (setError (JStr "Network error. Please try again.") s).

(** What [getRemainingTime] returns: [null], a number of minutes, or NaN. *)
Inductive Remaining : Type :=
| RNull
| RMinutes (m : Z)
| RNaN.

(** [!!remainingMinutes] *)
Definition positive_countdown (r : Remaining) : bool :=
  match r with
  | RMinutes m => negb (m =? 0)%Z
  | RNull | RNaN => false
  end.

(** [getRemainingTime], called while rendering at time [now]; it may clear
    the lockout. *)
Definition getRemainingTime (now : Z) (s : State) : Remaining * State :=
  match lockoutUntil s with
  | None => (RNull, s)
  | Some InvalidDate => (RNaN, s)
  | Some (Valid until) =>
      if (until <=? now)%Z then (RNull, setLockoutUntil None s)
      else (RMinutes (Qceiling (inject_Z (until - now) / 1000 / 60)), s)
  end.

(** The [disabled] prop handed to [PasscodeInput]:
    [loading || !!remainingMinutes]. *)
Definition input_disabled (now : Z) (s : State) : bool :=
  loading s || positive_countdown (fst (getRemainingTime now s)).

(** [checkLockout], run every second by the interval. *)
Definition checkLockout (now : Z) (s : State) : State :=
  match lockoutUntil s with
  | Some (Valid until) => if (until <=? now)%Z then setLockoutUntil None s else s
  | _ => s
  end.

End Login.


(* ===================================================================== *)
(** * Vocabulary of the properties                                         *)
(* ===================================================================== *)

Module Payload.

(** The fields [mapMonthlyStats] reads. *)
Definition expected_fields : list string :=
  [ "opening_balance"; "closing_balance"; "total_credit"; "total_debit";
    "net_change"; "fluctuation"; "international_inward_count";
    "international_outward_count"; "international_inward_total";
    "international_outward_total"; "minimum_balance" ].

(** A statistics record with every expected field, each a number. *)
Definition complete_stats (fields : list (string * JsVal)) : Prop :=
  Forall (fun k => exists q, own k fields = Some (JNum q)) expected_fields.

(** [v.k] is [undefined]. *)
Definition absent (k : string) (v : JsVal) : Prop := get v k = Normal JUndefined.

(** The display value is the value of one source field. *)
Definition copies_a_source_field (fields : list (string * JsVal)) (x : Arith) : Prop :=
  exists k q, own k fields = Some (JNum q) /\ x = Num q.

(** The "Jan" row of the sample data, as the server would send it. *)
Definition january : list (string * JsVal) :=
  [ ("opening_balance", JNum 15750); ("closing_balance", JNum 16200);
    ("total_credit", JNum 8500); ("total_debit", JNum (-8050));
    ("net_change", JNum 450); ("fluctuation", JNum 1200);
    ("international_inward_count", JNum 5);
    ("international_outward_count", JNum 7);
    ("international_inward_total", JNum 1000);
    ("international_outward_total", JNum 1400);
    ("minimum_balance", JNum 14800) ].

End Payload.
Export Payload.

Module PayloadShape.

(** [v] is neither [null] nor [undefined]. *)
Definition present (v : JsVal) : Prop := v <> JUndefined /\ v <> JNull.

(** The monthly analysis of a response, when it has one, is an object
    whose values are objects. *)
Definition months_are_objects (resultsData : JsVal) : Prop :=
  forall monthly_analysis,
    get resultsData "monthly_analysis" = Normal monthly_analysis ->
    truthy monthly_analysis = true ->
    exists entries,
      monthly_analysis = JObj entries
      /\ Forall (fun e : string * JsVal => exists fields, snd e = JObj fields) entries.

(** The account-info fields that default to [''] and to [0] when absent. *)
Definition account_defaults (o : JsVal) (info : Account.t) : Prop :=
  (absent "customer_name" o -> Account.customerName info = empty)
  /\ (absent "account_number" o -> Account.accountNumber info = empty)
  /\ (absent "iban_number" o -> Account.ibanNumber info = empty)
  /\ (absent "financial_period" o -> Account.financialPeriod info = empty)
  /\ (absent "opening_balance" o -> Account.openingBalance info = zero)
  /\ (absent "closing_balance" o -> Account.closingBalance info = zero)
  /\ (absent "pages_processed" o -> Account.pagesProcessed info = zero)
  /\ (absent "total_transactions" o -> Account.totalTransactions info = zero).

(** The per-month fields default to [0]; a sum takes [0] for an absent
    operand. *)
Definition monthly_defaults (stats : JsVal) (row : Monthly.t) : Prop :=
  (absent "opening_balance" stats -> Monthly.openingBalance row = zero)
  /\ (absent "closing_balance" stats -> Monthly.closingBalance row = zero)
  /\ (absent "total_credit" stats -> Monthly.inflows row = zero)
  /\ (absent "total_debit" stats -> Monthly.outflows row = Num 0)
  /\ (absent "net_change" stats -> Monthly.netChange row = zero)
  /\ (absent "fluctuation" stats -> Monthly.fluctuation row = zero)
  /\ (absent "minimum_balance" stats -> Monthly.minBalance row = zero)
  /\ (absent "international_inward_count" stats ->
      absent "international_outward_count" stats ->
      Monthly.foreignTxns row = Num 0)
  /\ (absent "international_inward_total" stats ->
      absent "international_outward_total" stats ->
      Monthly.foreignAmount row = Num 0)
  /\ (absent "international_inward_count" stats ->
      forall v, get stats "international_outward_count" = Normal v ->
      Monthly.foreignTxns row = js_plus zero (nullish v zero))
  /\ (absent "international_outward_count" stats ->
      forall v, get stats "international_inward_count" = Normal v ->
      Monthly.foreignTxns row = js_plus (nullish v zero) zero)
  /\ (absent "international_inward_total" stats ->
      forall v, get stats "international_outward_total" = Normal v ->
      Monthly.foreignAmount row = js_plus zero (nullish v zero))
  /\ (absent "international_outward_total" stats ->
      forall v, get stats "international_inward_total" = Normal v ->
      Monthly.foreignAmount row = js_plus (nullish v zero) zero).

(** [a?.k] is [undefined]. *)
Definition opt_absent (k : string) (a : JsVal) : Prop := opt_get a k = Normal JUndefined.

(** The analytics fields are copied as they are: an absent one stays
    [undefined]. *)
Definition analytics_undefined (a : JsVal) (m : Analytics.t) : Prop :=
  (opt_absent "average_fluctuation" a -> Analytics.averageFluctuation m = JUndefined)
  /\ (opt_absent "net_cash_flow_stability" a -> Analytics.netCashFlowStability m = JUndefined)
  /\ (opt_absent "total_foreign_transactions" a ->
      Analytics.totalForeignTransactions m = JUndefined)
  /\ (opt_absent "total_foreign_amount" a -> Analytics.totalForeignAmount m = JUndefined)
  /\ (opt_absent "overdraft_frequency" a -> Analytics.overdraftFrequency m = JUndefined)
  /\ (opt_absent "overdraft_total_days" a -> Analytics.overdraftTotalDays m = JUndefined)
  /\ (opt_absent "sum_total_inflow" a -> Analytics.sum_total_inflow m = JUndefined)
  /\ (opt_absent "sum_total_outflow" a -> Analytics.sum_total_outflow m = JUndefined)
  /\ (opt_absent "avg_total_inflow" a -> Analytics.avg_total_inflow m = JUndefined)
  /\ (opt_absent "avg_total_outflow" a -> Analytics.avg_total_outflow m = JUndefined).

(** A completed response that carries only its status. *)
Definition bare_completed : JsVal := JObj [("status", JStr "completed")].

End PayloadShape.
Export PayloadShape.

Module PasscodeSpec.
Import Passcode.

(** The array has one cell per input and every cell is [''] or a digit. *)
Definition cells_ok (length : nat) (values : Cells) : Prop :=
  List.length values = length /\ Forall cell_ok values.

(** Every cell holds a character. *)
Definition all_filled (values : Cells) : Prop :=
  Forall (fun cell => exists s, cell = Some s /\ s <> "") values.

(** A string of exactly [length] decimal digits. *)
Definition code_ok (length : nat) (code : string) : Prop :=
  String.length code = length /\ all_digits code = true.

(** Input that the handlers refuse: a change to something other than ['']
    or one digit, or a paste whose text (cut to [length] characters, as
    the handler cuts it) is not a non-empty run of digits. *)
Definition refused (length : nat) (i : Interaction) : Prop :=
  match i with
  | Change _ value => value <> "" /\ one_digit value = false
  | Paste text => digits_only (substring 0 length text) = false
  | KeyDown _ _ => False
  end.

(** An edit the handlers accept: a change to [''] or one digit, or a paste
    of digits. *)
Definition accepted (length : nat) (i : Interaction) : Prop :=
  match i with
  | Change _ value => value = "" \/ one_digit value = true
  | Paste text => digits_only (substring 0 length text) = true
  | KeyDown _ _ => False
  end.

(** What one interaction, handled in the state [values] with result [r]
    (the new cells and the [onComplete] call, if any), guarantees. *)
Definition step_ok (length : nat) (disabled : bool) (i : Interaction) (values : Cells)
    (r : Cells * option string) : Prop :=
  cells_ok length (fst r)
  /\ (disabled = true -> r = (values, None))
  /\ (refused length i -> r = (values, None))
  /\ (forall code, snd r = Some code ->
        code_ok length code /\ code = join (fst r) /\ all_filled (fst r))
  /\ (disabled = false -> accepted length i -> all_filled (fst r) ->
      snd r = Some (join (fst r)))
  /\ (forall index key, i = KeyDown index key -> snd r = None).

End PasscodeSpec.
Export PasscodeSpec.

Module LoginSpec.
Import Login.

(** The error text contains "5 minutes". *)
Definition mentions_five_minutes (text : string) : Prop :=
  includes "5 minutes" text = true.

(** No decimal digit occurs in [text]. *)
Fixpoint digit_free (text : string) : bool :=
  match text with
  | EmptyString => true
  | String c rest => negb (Passcode.is_digit c) && digit_free rest
  end.

(** [Date.now()] is a time value that leaves room for a lockout. *)
Definition clock (now : Z) : Prop := (0 <= now <= 8640000000000000 - 300000)%Z.

Definition too_many_requests : Response :=
  {| status := 429; statusText := "Too Many Requests" |}.

Definition locked_5 : JsVal :=
  JObj [("error", JStr "Too many failed attempts. Please try again in 5 minutes.")].

Definition locked_15 : JsVal :=
  JObj [("error", JStr "Too many failed attempts. Please try again in 15 minutes.")].

End LoginSpec.
Export LoginSpec.

Module Sessions.
Import Upload.

(** The [onDrop] call a suspended call works for: itself while it
    uploads, the call whose closure it carries while it polls. *)
Definition session_of (t : nat) (k : Cont) : nat :=
  match k with
  | UploadFetch | UploadErrorBody _ | UploadText => t
  | PollFetch c | PollBody c | PollStop c => sid c
  end.

(** A live continuation: a pending timeout or a suspended call. *)
Inductive Live : Type :=
| Timer (h : positive)
| Call (t : nat).

(** The session a live continuation belongs to. *)
Definition owner (s : State) (x : Live) : option nat :=
  match x with
  | Timer h => (fun e : Z * Session => sid (snd e)) <$> timers s !! h
  | Call t => session_of t <$> tasks s !! t
  end.

(** Nothing of session [n] is live. *)
Definition vacant (s : State) (n : nat) : Prop := forall x, owner s x <> Some n.

(** No timeout of session [n] is pending. *)
Definition no_pending (s : State) (n : nat) : Prop :=
  forall h d c, timers s !! h = Some (d, c) -> sid c <> n.

(** Well-formed states: sessions are numbered below [nextTask], a session
    has at most one live continuation, and the handles and call numbers
    not yet issued are unused. *)
Record wf (s : State) : Prop := {
  wf_bound : forall x n, owner s x = Some n -> n < nextTask s;
  wf_single : forall x y n, owner s x = Some n -> owner s y = Some n -> x = y;
  wf_timers : forall h, (nextTimer s <= h)%positive -> timers s !! h = None;
  wf_tasks : forall t, nextTask s <= t -> tasks s !! t = None;
}.

(** [s'] differs from [s] by state updates and cleared timeouts only. *)
Definition quiet (s s' : State) : Prop :=
  timers s' ⊆ timers s /\ tasks s' = tasks s
  /\ nextTimer s' = nextTimer s /\ nextTask s' = nextTask s.

End Sessions.
Export Sessions.

Module UploadSpec.
Import Upload.

(** The decoded upload body carries no job identifier: reading [id] fails
    or gives a falsy value. *)
Definition no_job_id (uploadData : JsVal) : Prop :=
  forall v, get uploadData "id" = Normal v -> truthy v = false.

End UploadSpec.
Export UploadSpec.

Module Guard.
Import Upload.

(** The closure a suspended [pollForResults] carries. *)
Definition closure_of (k : Cont) : option Session :=
  match k with
  | PollFetch c | PollBody c | PollStop c => Some c
  | UploadFetch | UploadErrorBody _ | UploadText => None
  end.

(** The live continuation [x] is a poll of the closure [c]. *)
Definition polls (s : State) (x : Live) (c : Session) : Prop :=
  match x with
  | Timer h => exists d, timers s !! h = Some (d, c)
  | Call t => exists k, tasks s !! t = Some k /\ closure_of k = Some c
  end.

(** The settlement [o] of the promise awaited at [k] ends the poll session
    of the closure [c]: poll failure, server-reported error, completion,
    timeout. *)
Inductive terminal : Cont -> Settled -> Session -> Prop :=
| fetch_failed c e : terminal (PollFetch c) (Rejected e) c
| status_not_ok c r : ok r = false -> terminal (PollFetch c) (GotResponse r) c
| body_undecodable c e : terminal (PollBody c) (Rejected e) c
| body_unreadable c d e :
    get d "status" = Throw e -> terminal (PollBody c) (GotJson d) c
| server_error c d :
    get d "status" = Normal (JStr "error") -> terminal (PollBody c) (GotJson d) c
| job_completed c d :
    get d "status" = Normal (JStr "completed") -> terminal (PollBody c) (GotJson d) c
| timed_out_unanswered c e : terminal (PollStop c) (Rejected e) c
| timed_out_answered c r : terminal (PollStop c) (GotResponse r) c.

(** The marker designates the job [id]. *)
Definition marked (s : State) (id : Ident) : bool :=
  match currentPdfIdRef s with
  | Some m => strict_eq m id
  | None => false
  end.

(** The event resumes [pollForResults] for the job [id]: the timeout of
    one of its closures elapses, or the promise one of its calls awaits
    settles. *)
Definition polls_job (s : State) (e : Event) (id : Ident) : Prop :=
  match e with
  | Fire h => exists c, polls s (Timer h) c /\ pdfId c = id
  | Settle t _ => exists c, polls s (Call t) c /\ pdfId c = id
  | _ => False
  end.

(** The event is the arrival of an upload body whose job identifier is
    [id]. *)
Definition delivers (s : State) (e : Event) (id : Ident) : Prop :=
  match e with
  | Settle t (GotText (Normal uploadData)) =>
      tasks s !! t = Some UploadText
      /\ exists v, get uploadData "id" = Normal v /\ truthy v = true
                   /\ strict_eq (ident_of t v) id = true
  | _ => False
  end.

(** Along [trace] from [s], no upload body with the identifier [id]
    arrives. *)
Fixpoint never_delivers (id : Ident) (s : State) (trace : list Event) : Prop :=
  match trace with
  | [] => True
  | e :: rest => ~ delivers s e id /\ never_delivers id (step s e) rest
  end.

(** From [s] to [s'] no observable state changed, no ref changed, nothing
    was scheduled and no request left. *)
Definition inert (s s' : State) : Prop :=
  view s' = view s
  /\ pollTimeoutRef s' = pollTimeoutRef s
  /\ currentPdfIdRef s' = currentPdfIdRef s
  /\ timers s' ⊆ timers s
  /\ requests s' = requests s.

(** The event is an upload call of the session [n] taking over: the
    arrival of the body of a later upload. *)
Definition later_upload (s : State) (e : Event) (n : nat) : Prop :=
  match e with
  | Settle t (GotText _) => tasks s !! t = Some UploadText /\ n < t
  | _ => False
  end.

(** [s'] is [s] after [clearPolling] and state updates. *)
Definition cleared (s s' : State) : Prop :=
  pollTimeoutRef s' = None /\ currentPdfIdRef s' = None
  /\ timers s' = match pollTimeoutRef s with
                 | Some h => delete h (timers s)
                 | None => timers s
                 end
  /\ tasks s' = tasks s.

(** The marker after [s'] is the marker of [s] or [null]. *)
Definition marker_kept (s s' : State) : Prop :=
  currentPdfIdRef s' = currentPdfIdRef s \/ currentPdfIdRef s' = None.

End Guard.
Export Guard.

Module Backoff.
Import Upload.

(** A 2xx answer whose body says the job is still processing. *)
Definition answers_processing (r : Response) (d : JsVal) : Prop :=
  ok r = true /\ get d "status" = Normal (JStr "processing").

(** One poll answered by [r] and [d]: the timeout [h] elapses and the call
    [t] it starts receives the response, then the decoded body. *)
Definition poll_round (r : Response) (d : JsVal) (h : positive) (t : nat) : list Event :=
  [Fire h; Settle t (GotResponse r); Settle t (GotJson d)].

(** [n] such polls in a row: the first on the timeout [h], the following
    ones on the handles the browser issues from [next] on, the calls
    numbered from [t]. *)
Fixpoint poll_rounds (r : Response) (d : JsVal) (n : nat) (h next : positive) (t : nat)
    : list Event :=
  match n with
  | 0 => []
  | S n' => (poll_round r d h t ++ poll_rounds r d n' next (Pos.succ next) (S t))%list
  end.

(** The closure variables after a "processing" answer under the budget. *)
Definition advance (c : Session) : Session := grow (accumulate c).

(** The next "processing" answer leaves the total under the budget. *)
Definition under_budget (c : Session) : bool :=
  negb (maxPollTime <=? totalPollTime (accumulate c))%Z.

(** The state after [n] polls answered "processing" under the budget,
    started in [s] on the timeout [h] of the closure [c]. *)
Definition polled (n : nat) (s : State) (h : positive) (c : Session) : State :=
  match n with
  | 0 => s
  | S m =>
      {| view := view s;
         pollTimeoutRef := Some (Nat.iter m Pos.succ (nextTimer s));
         currentPdfIdRef := currentPdfIdRef s;
         timers :=
           <[Nat.iter m Pos.succ (nextTimer s) :=
               (pollInterval (Nat.iter m advance c), Nat.iter (S m) advance c)]>
             (delete h (timers s));
         tasks := tasks s;
         nextTimer := Nat.iter (S m) Pos.succ (nextTimer s);
         nextTask := S m + nextTask s;
         requests := (replicate (S m) (GetResults (pdfId c)) ++ requests s)%list |}
  end.

(** The closure variables [onDrop] starts a session with. *)
Definition starting (n : nat) (id : Ident) : Session :=
  {| sid := n; pdfId := id; pollInterval := initialPollInterval; totalPollTime := 0 |}.

Definition timeout_message : string :=
  "Error checking processing status: Processing timeout. Please try again later.".

(** The time spent waiting along a trace: the delays of the timeouts that
    elapse. *)
Fixpoint waited (s : State) (trace : list Event) : Z :=
  match trace with
  | [] => 0
  | e :: rest =>
      (match e with
       | Fire h => match timers s !! h with Some (delay, _) => delay | None => 0 end
       | _ => 0
       end + waited (step s e) rest)%Z
  end.

Definition ok200 : Response := {| status := 200; statusText := "OK" |}.

Definition still_processing : JsVal := JObj [("status", JStr "processing")].

Definition statement : File := {| name := "statement.pdf" |}.

Definition job (n : Z) : Ident := Prim (JNum (inject_Z n)).

(** The body of a successful upload: [{ id: n }]. *)
Definition created (n : Z) : Settled :=
  GotText (Normal (JObj [("id", JNum (inject_Z n))])).

(** A first upload has been accepted as job 7 and its first poll is
    scheduled. *)
Definition uploaded : State :=
  run initial [Drop [statement]; Settle 0 (GotResponse ok200); Settle 0 (created 7)].

End Backoff.
Export Backoff.

Module Scenarios.
Import Upload.

Definition other_statement : File := {| name := "other.pdf" |}.

Definition internal_error : Response :=
  {| status := 500; statusText := "Internal Server Error" |}.

(** A completed result with an account name and nothing else. *)
Definition done : JsVal :=
  JObj [("status", JStr "completed");
        ("account_info", JObj [("customer_name", JStr "A. Customer")])].

(** The first upload is still in flight. *)
Definition uploading : State := run initial [Drop [statement]].

(** The upload was answered 200 and its text is awaited. *)
Definition upload_answered : State := run uploading [Settle 0 (GotResponse ok200)].

(** The first poll of job 7 is in flight: its GET has left. *)
Definition first_poll_in_flight : State := run uploaded [Fire 1%positive].

(** ... and has been answered; the body is awaited. *)
Definition first_poll_answered : State :=
  run first_poll_in_flight [Settle 1 (GotResponse ok200)].

(** While that poll is in flight a second file is dropped and accepted
    under the job identifier [n]; then the first job's poll is answered. *)
Definition second_upload (n : Z) : list Event :=
  [Settle 2 (GotResponse ok200); Settle 2 (created n); Settle 1 (GotResponse ok200)].

Abbreviation second_accepted n :=
  (run (step first_poll_in_flight (Drop [other_statement])) (second_upload n)).

(** The body that the first job's poll then receives. *)
Definition first_result : Event := Settle 1 (GotJson done).

(** Two files are dropped one after the other and the second upload is
    accepted (as job 8) before the first (as job 7); then the poll that the
    first upload schedules runs. *)
Definition overtaken : list Event :=
  [Settle 1 (GotResponse ok200); Settle 1 (created 8);
   Settle 0 (GotResponse ok200); Settle 0 (created 7);
   Fire 2%positive; Settle 2 (GotResponse ok200)].

Abbreviation first_accepted_last :=
  (run (step uploading (Drop [other_statement])) overtaken).

Definition late_result : Event := Settle 2 (GotJson done).

(** Two files are dropped one after the other; the first upload is
    accepted (job 7, its poll scheduled on handle 1) and the second is
    answered 200. *)
Definition both_uploading : State :=
  run initial [Drop [statement]; Drop [other_statement];
               Settle 0 (GotResponse ok200); Settle 0 (created 7);
               Settle 1 (GotResponse ok200)].

Definition too_many_uploads : Response :=
  {| status := 429; statusText := "Too Many Requests" |}.

End Scenarios.
Export Scenarios.

Module PasscodeUse.
Import Passcode.

(** The user types the characters of [code], one per input from the input
    [from] rightwards, the component being enabled. *)
Fixpoint typing (from : nat) (code : list ascii) : list (bool * Interaction) :=
  match code with
  | [] => []
  | c :: rest => (false, Change from (String c EmptyString)) :: typing (S from) rest
  end.

(** The cell that holds the character [c]. *)
Definition cell_of (c : ascii) : option string := Some (String c EmptyString).

End PasscodeUse.
Export PasscodeUse.

Module LoginUse.
Import Login.

(** Every character is white space: what [\s+] runs over. *)
Fixpoint all_space (s : string) : bool :=
  match s with
  | EmptyString => true
  | String c rest => is_space c && all_space rest
  end.

(** A count as a server writes it into a message: ["<n> <unit>"]. *)
Definition announced (n : N) (unit : string) : string := decimal n +:+ " " +:+ unit.

(** [Date.now()] is a time value from which [n] minutes can be counted. *)
Definition clock_for (n : N) (now : Z) : Prop :=
  (0 <= now)%Z /\ (now + Z.of_N n * 60000 <= 8640000000000000)%Z.

End LoginUse.
Export LoginUse.

(* ===================================================================== *)
(** * Passcode reset ([ResetPasscodeModal])                                *)
(* ===================================================================== *)

Module Reset.
Import Login.

(** The React state of [ResetPasscodeModal] ([showPassword] only toggles
    the type of an input). *)
Record State : Type := {
  username : string;
  password : string;
  newPasscode : string;
  confirmPasscode : string;
  error : JsVal;
  loading : bool;
  lockoutUntil : option Date;
}.

Definition initial : State :=
  {| username := ""; password := ""; newPasscode := ""; confirmPasscode := "";
     error := JStr ""; loading := false; lockoutUntil := None |}.

Definition setUsername (x : string) (s : State) : State :=
  {| username := x; password := password s; newPasscode := newPasscode s;
     confirmPasscode := confirmPasscode s; error := error s; loading := loading s;
     lockoutUntil := lockoutUntil s |}.

Definition setPassword (x : string) (s : State) : State :=
  {| username := username s; password := x; newPasscode := newPasscode s;
     confirmPasscode := confirmPasscode s; error := error s; loading := loading s;
     lockoutUntil := lockoutUntil s |}.

Definition setNewPasscode (x : string) (s : State) : State :=
  {| username := username s; password := password s; newPasscode := x;
     confirmPasscode := confirmPasscode s; error := error s; loading := loading s;
     lockoutUntil := lockoutUntil s |}.

Definition setConfirmPasscode (x : string) (s : State) : State :=
  {| username := username s; password := password s; newPasscode := newPasscode s;
     confirmPasscode := x; error := error s; loading := loading s;
     lockoutUntil := lockoutUntil s |}.

Definition setError (x : JsVal) (s : State) : State :=
  {| username := username s; password := password s; newPasscode := newPasscode s;
     confirmPasscode := confirmPasscode s; error := x; loading := loading s;
     lockoutUntil := lockoutUntil s |}.

Definition setLoading (x : bool) (s : State) : State :=
  {| username := username s; password := password s; newPasscode := newPasscode s;
     confirmPasscode := confirmPasscode s; error := error s; loading := x;
     lockoutUntil := lockoutUntil s |}.

Definition setLockoutUntil (x : option Date) (s : State) : State :=
  {| username := username s; password := password s; newPasscode := newPasscode s;
     confirmPasscode := confirmPasscode s; error := error s; loading := loading s;
     lockoutUntil := x |}.

(** [value.replace(/\D/g, '')] *)
Fixpoint strip_non_digits (value : string) : string :=
  match value with
  | EmptyString => EmptyString
  | String c rest =>
      if Passcode.is_digit c then String c (strip_non_digits rest)
      else strip_non_digits rest
  end.

(** [e.target.value.replace(/\D/g, '').slice(0, 6)], the value both
    passcode inputs store. *)
Definition passcode_of_input (value : string) : string :=
  substring 0 6 (strip_non_digits value).

(** The [onChange] handlers of the four inputs. *)
Definition changeUsername (value : string) : State -> State := setUsername value.
Definition changePassword (value : string) : State -> State := setPassword value.
Definition changeNewPasscode (value : string) : State -> State :=
  setNewPasscode (passcode_of_input value).
Definition changeConfirmPasscode (value : string) : State -> State :=
  setConfirmPasscode (passcode_of_input value).

(** The JSON body of the reset request. *)
Record Body : Type := {
  body_username : string;
  body_password : string;
  new_passcode : string;
  confirm_passcode : string;
}.

(** [handleSubmit], up to [await fetch(...)]: the new state and the body
    of the request it sends, if it sends one. *)
Definition handleSubmit (s : State) : State * option Body :=
  let s := setError (JStr "") s in
  if String.eqb (username s) "" || String.eqb (password s) "" then
    (setError (JStr "Username and password are required") s, None)
  else if negb (String.length (newPasscode s) =? 6)%nat
          || negb (Passcode.digits_only (newPasscode s)) then
    (setError (JStr "New passcode must be exactly 6 digits") s, None)
  else if negb (String.eqb (newPasscode s) (confirmPasscode s)) then
    (setError (JStr "Passcodes do not match") s, None)
  else
    (setLoading true s,
     Some {| body_username := username s; body_password := password s;
             new_passcode := newPasscode s; confirm_passcode := confirmPasscode s |}).

(** The [if (response.status === 429)] statement. *)
Definition read_lockout (now : Z) (r : Response) (data : JsVal) (s : State)
    : Completion State :=
  if (status r =? 429)%N then
    err ← get data "error";
    m ← opt_match "minutes" err;
    match m with
    | Some digits =>
        mret (setLockoutUntil (Some (new_Date (now + parseInt digits * 60 * 1000))) s)
    | None => mret s
    end
  else mret s.

(** [handleSubmit] once the response [r] has arrived and its body has
    decoded to [data], at time [now = Date.now()]; with the state comes
    whether [onSuccess] (and [onClose], when the parent gave one) was
    called. *)
Definition respond (now : Z) (r : Response) (data : JsVal) (s : State) : State * bool :=
  if negb (ok r) then
    match (s ← read_lockout now r data s;
           err ← get data "error";
           mret (setLoading false
                   (setError (js_or err (JStr "Failed to reset passcode")) s))) with
    | Normal s => (setLoading false s, false)
    | Throw _ =>
        (setLoading false (setError (JStr "Network error. Please try again.") s), false)
    end
  else
    (setLoading false
       (setConfirmPasscode "" (setNewPasscode "" (setPassword "" (setUsername "" s)))),
     true).

(** [handleSubmit] when [fetch] or [response.json()] rejects. *)
Definition fail (s : State) : State :=
  setLoading false (setError (JStr "Network error. Please try again.") s).

(** [getRemainingTime] of the modal, called while rendering at [now]. *)
Definition getRemainingTime (now : Z) (s : State) : Remaining * State :=
  match lockoutUntil s with
  | None => (RNull, s)
  | Some InvalidDate => (RNaN, s)
  | Some (Valid limit) =>
      if (limit <=? now)%Z then (RNull, setLockoutUntil None s)
      else (RMinutes (Qceiling (inject_Z (limit - now) / 1000 / 60)), s)
  end.

(** The [disabled] attribute of the four inputs and of the submit button:
    [loading || !!remainingMinutes]. *)
Definition form_disabled (now : Z) (s : State) : bool :=
  loading s || positive_countdown (fst (getRemainingTime now s)).

(** [new Date(t)] for a time value that need not be whole: it is cut
    towards zero. *)
Definition new_Date_of (t : Q) : Date :=
  if Qle_bool (Qabs t) 8640000000000000 then Valid (Z.quot (Qnum t) (Z.pos (Qden t)))
  else InvalidDate.

(** [checkBackendLockout] once the status body has decoded to [data], at
    time [now]: [data.creds_locked && data.creds_lockout_minutes] guards
    the lockout; a fault is caught and ignored.  [None] when the minutes
    are a truthy value other than a number (a string, [true], an array, an
    object), whose conversion by [*] is not modelled. *)
Definition checkBackendLockout (now : Z) (data : JsVal) (s : State) : option State :=
  match get data "creds_locked" with
  | Throw _ => Some s
  | Normal locked =>
      if negb (truthy locked) then Some s
      else
        match get data "creds_lockout_minutes" with
        | Throw _ => Some s
        | Normal minutes =>
            if negb (truthy minutes) then Some s
            else
              match minutes with
              | JNum q =>
                  Some (setLockoutUntil
                          (Some (new_Date_of (inject_Z now + q * 60 * 1000))) s)
              | _ => None
              end
        end
  end.

End Reset.

Module ResetSpec.

(** What a successful passcode reset does to the login page that opened
    the modal: its [onSuccess] is
    [() => { setError(''); setRemainingAttempts(null) }]. *)
Definition login_onSuccess (page : Login.State) : Login.State :=
  Login.setRemainingAttempts None (Login.setError (JStr "") page).

(** The form as [handleSubmit] accepts it. *)
Definition submittable (s : Reset.State) : Prop :=
  Reset.username s <> "" /\ Reset.password s <> ""
  /\ code_ok 6 (Reset.newPasscode s)
  /\ Reset.newPasscode s = Reset.confirmPasscode s.

End ResetSpec.
Export ResetSpec.

Module ViewSpec.
Import Upload.

(** What [App] can show together: while it is analyzing there are neither
    results nor an error on screen, and results are on screen only once
    the account information and the analytics have been stored. *)
Definition consistent (v : View) : Prop :=
  (isAnalyzing v = true -> showResults v = false /\ error v = JNull)
  /\ (showResults v = true -> is_Some (accountInfo v) /\ is_Some (analytics v)).

End ViewSpec.
Export ViewSpec.

Module Schedule.
Import Upload.

(** [pollInterval] and [totalPollTime] of a session that has had [k]
    "processing" answers under the budget. *)
Definition closure_after (k : nat) : Z * Z :=
  let c := Nat.iter k advance (starting 0 (Prim JNull)) in
  (pollInterval c, totalPollTime c).

(** The closure variables are those of a session after at most eleven
    such answers. *)
Definition on_schedule (c : Session) : Prop :=
  exists k, k < 12 /\ (pollInterval c, totalPollTime c) = closure_after k.

(** A pending timeout: the first one, set by [onDrop] after the initial
    interval, or the one set after the [k+1]-th "processing" answer, whose
    delay is the interval the session had at that answer. *)
Definition timed (d : Z) (c : Session) : Prop :=
  (d = initialPollInterval /\ (pollInterval c, totalPollTime c) = closure_after 0)
  \/ exists k, k < 11 /\ d = fst (closure_after k)
               /\ (pollInterval c, totalPollTime c) = closure_after (S k).

(** A call waiting for the stop request has just had its twelfth
    "processing" answer. *)
Definition stopping (c : Session) : Prop :=
  exists c0, (pollInterval c0, totalPollTime c0) = closure_after 11 /\ c = accumulate c0.

Definition scheduled (s : State) : Prop :=
  (forall h d c, timers s !! h = Some (d, c) -> timed d c)
  /\ (forall t c, tasks s !! t = Some (PollFetch c) \/ tasks s !! t = Some (PollBody c) ->
        on_schedule c)
  /\ (forall t c, tasks s !! t = Some (PollStop c) -> stopping c).

End Schedule.
Export Schedule.

Module Rows.

(** The account information with every field at its default. *)
Definition blank_account : Account.t :=
  {| Account.customerName := empty; Account.accountNumber := empty;
     Account.ibanNumber := empty; Account.openingBalance := zero;
     Account.closingBalance := zero; Account.financialPeriod := empty;
     Account.pagesProcessed := zero; Account.totalTransactions := zero |}.

(** The display fields of the account information with the source field
    and the default of each. *)
Definition account_fields : list (string * (Account.t -> JsVal) * JsVal) :=
  [ ("customer_name", Account.customerName, empty);
    ("account_number", Account.accountNumber, empty);
    ("iban_number", Account.ibanNumber, empty);
    ("opening_balance", Account.openingBalance, zero);
    ("closing_balance", Account.closingBalance, zero);
    ("financial_period", Account.financialPeriod, empty);
    ("pages_processed", Account.pagesProcessed, zero);
    ("total_transactions", Account.totalTransactions, zero) ].

(** The display fields of a monthly row that copy one source field. *)
Definition copied_fields : list (Monthly.t -> JsVal) :=
  [ Monthly.openingBalance; Monthly.closingBalance; Monthly.inflows;
    Monthly.netChange; Monthly.fluctuation; Monthly.minBalance ].

(** An absolute value as [mapMonthlyStats] can produce it: computed and
    not negative, or left to JavaScript's coercion of a value that is
    present but not a number. *)
Definition abs_ok (x : Arith) : Prop :=
  match x with
  | Num q => (0 <= q)%Q
  | AbsOf v => present v /\ forall q, v <> JNum q
  | PlusOf _ _ => False
  end.

(** A sum as [mapMonthlyStats] can produce it: computed, or left to the
    coercion of two present operands that are not both numbers. *)
Definition sum_ok (x : Arith) : Prop :=
  match x with
  | Num _ => True
  | PlusOf a b => present a /\ present b /\ ~ ((exists p, a = JNum p) /\ (exists q, b = JNum q))
  | AbsOf _ => False
  end.

(** The statistics of a month are missing: [null] or [undefined]. *)
Definition no_stats (e : string * JsVal) : Prop := snd e = JNull \/ snd e = JUndefined.

End Rows.
Export Rows.

(* ===================================================================== *)
(** * The earlier, non-polling upload ([App.tsx])                          *)
(* ===================================================================== *)

Module Legacy.
Import Upload.

(** The earlier [App] has the same React state and no refs: the upload
    answer carries the analysis itself. *)
Record State : Type := {
  view : View;
  tasks : gmap nat Cont;     (* suspended [onDrop] calls *)
  nextTask : nat;
  requests : list Request;   (* requests issued, latest first *)
}.

Definition initial : State :=
  {| view := Upload.view Upload.initial; tasks := ∅; nextTask := 0; requests := [] |}.

Definition with_view (f : View -> View) (s : State) : State :=
  {| view := f (view s); tasks := tasks s; nextTask := nextTask s;
     requests := requests s |}.

Definition setUploadedFile (x : option File) : State -> State :=
  with_view (fun v =>
    {| uploadedFile := x; isAnalyzing := isAnalyzing v; showResults := showResults v;
       accountInfo := accountInfo v; monthlyData := monthlyData v;
       analytics := analytics v; error := error v |}).

Definition setIsAnalyzing (x : bool) : State -> State :=
  with_view (fun v =>
    {| uploadedFile := uploadedFile v; isAnalyzing := x; showResults := showResults v;
       accountInfo := accountInfo v; monthlyData := monthlyData v;
       analytics := analytics v; error := error v |}).

Definition setShowResults (x : bool) : State -> State :=
  with_view (fun v =>
    {| uploadedFile := uploadedFile v; isAnalyzing := isAnalyzing v; showResults := x;
       accountInfo := accountInfo v; monthlyData := monthlyData v;
       analytics := analytics v; error := error v |}).

Definition setAccountInfo (x : option Account.t) : State -> State :=
  with_view (fun v =>
    {| uploadedFile := uploadedFile v; isAnalyzing := isAnalyzing v;
       showResults := showResults v; accountInfo := x; monthlyData := monthlyData v;
       analytics := analytics v; error := error v |}).

Definition setMonthlyData (x : list Monthly.t) : State -> State :=
  with_view (fun v =>
    {| uploadedFile := uploadedFile v; isAnalyzing := isAnalyzing v;
       showResults := showResults v; accountInfo := accountInfo v; monthlyData := x;
       analytics := analytics v; error := error v |}).

Definition setAnalytics (x : option Analytics.t) : State -> State :=
  with_view (fun v =>
    {| uploadedFile := uploadedFile v; isAnalyzing := isAnalyzing v;
       showResults := showResults v; accountInfo := accountInfo v;
       monthlyData := monthlyData v; analytics := x; error := error v |}).

Definition setError (x : JsVal) : State -> State :=
  with_view (fun v =>
    {| uploadedFile := uploadedFile v; isAnalyzing := isAnalyzing v;
       showResults := showResults v; accountInfo := accountInfo v;
       monthlyData := monthlyData v; analytics := analytics v; error := x |}).

Definition fetch (r : Request) (s : State) : State :=
  {| view := view s; tasks := tasks s; nextTask := nextTask s;
     requests := r :: requests s |}.

Definition suspend (k : Cont) (s : State) : State :=
  {| view := view s; tasks := <[nextTask s := k]> (tasks s);
     nextTask := S (nextTask s); requests := requests s |}.

Definition await (t : nat) (k : Cont) (s : State) : State :=
  {| view := view s; tasks := <[t := k]> (tasks s); nextTask := nextTask s;
     requests := requests s |}.

Definition resumed (t : nat) (s : State) : State :=
  {| view := view s; tasks := delete t (tasks s); nextTask := nextTask s;
     requests := requests s |}.

(** [onDrop], up to its first [await]. *)
Definition onDrop (acceptedFiles : list File) (s : State) : State :=
  match acceptedFiles with
  | [] => s
  | file :: _ =>
      let s := setUploadedFile (Some file) s in
      let s := setIsAnalyzing true s in
      let s := setError JNull s in
      let s := setShowResults false s in
      suspend UploadFetch (fetch (PostUpload file) s)
  end.

(** The outer [catch (e)]. *)
Definition upload_catch (message : string) (s : State) : State :=
  setIsAnalyzing false (setError (JStr ("Network or server error: " +:+ message)) s).

(** [setError(err.error || 'Failed to process PDF'); setIsAnalyzing(false)] *)
Definition upload_failed (err : JsVal) (s : State) : State :=
  match get err "error" with
  | Throw e => upload_catch e s
  | Normal m => setIsAnalyzing false (setError (js_or m (JStr "Failed to process PDF")) s)
  end.

(** [onDrop] after the body decoded to [data]: the three mapping stages,
    then the results view. *)
Definition uploaded (data : JsVal) (s : State) : State :=
  match account_stage data with
  | Throw e => upload_catch e s
  | Normal mappedAccountInfo =>
      let s := setAccountInfo (Some mappedAccountInfo) s in
      match monthly_stage data with
      | Throw e => upload_catch e s
      | Normal mappedMonthlyData =>
          let s := setMonthlyData mappedMonthlyData s in
          match analytics_stage data with
          | Throw e => upload_catch e s
          | Normal mappedAnalytics =>
              let s := setAnalytics (Some mappedAnalytics) s in
              let s := setIsAnalyzing false s in
              setShowResults true s
          end
      end
  end.

(** The call [t], suspended at [k], resumes with [o]. *)
Definition resume (t : nat) (k : Cont) (o : Settled) (s : State) : option State :=
  match k, o with
  | UploadFetch, Rejected e => Some (upload_catch e s)
  | UploadFetch, GotResponse r =>
      Some (if negb (ok r) then await t (UploadErrorBody r) s else await t UploadText s)
  | UploadErrorBody _, Rejected e => Some (upload_catch e s)
  | UploadErrorBody _, GotJson err => Some (upload_failed err s)
  | UploadText, (Rejected e | GotText (Throw e)) =>
      Some (upload_catch ("Failed to parse response: " +:+ e) s)
  | UploadText, GotText (Normal data) => Some (uploaded data s)
  | _, _ => None
  end.

Definition step (s : State) (e : Event) : State :=
  match e with
  | Drop acceptedFiles => onDrop acceptedFiles s
  | Settle t o =>
      match tasks s !! t with
      | Some k => default s (resume t k o (resumed t s))
      | None => s
      end
  | UploadNew => setShowResults false s
  | Fire _ | PageHide => s
  end.

Definition run (s : State) (trace : list Event) : State := foldl step s trace.

End Legacy.

(* ===================================================================== *)
(** * Fixed-point texts of the results view                                *)
(* ===================================================================== *)

Module Render.
Import Upload.

(** A text the view builds with [toFixed]: the digits are JavaScript's,
    left unevaluated here; or a literal. *)
Inductive Text : Type :=
| Literal (s : string)
| Fixed (q : Q) (digits : nat) (suffix : string).

(** [v.toFixed(digits)]: defined on numbers only; the call faults on
    [null] and [undefined] (no property can be read) and on every other
    value a JSON body can hold (none has a callable [toFixed]). *)
Definition toFixed (v : JsVal) (digits : nat) : Completion Q :=
  match v with
  | JNum q => Normal q
  | JUndefined => Throw (cannot_read "undefined" "toFixed")
  | JNull => Throw (cannot_read "null" "toFixed")
  | _ => Throw "toFixed is not a function"
  end.

(** [x !== undefined] *)
Definition defined (v : JsVal) : bool :=
  match v with
  | JUndefined => false
  | _ => true
  end.

(** The value of the "Average Fluctuation" card:
    [analytics?.averageFluctuation !== undefined
       ? analytics.averageFluctuation.toFixed(2) + '%' : '0.00%'] *)
Definition average_fluctuation_card (analytics : option Analytics.t) : Completion Text :=
  match analytics with
  | None => Normal (Literal "0.00%")
  | Some a =>
      if defined (Analytics.averageFluctuation a)
      then q ← toFixed (Analytics.averageFluctuation a) 2; mret (Fixed q 2 "%")
      else Normal (Literal "0.00%")
  end.

(** The value of the "Cash Flow Stability" card:
    [analytics?.netCashFlowStability !== undefined
       ? analytics.netCashFlowStability.toFixed(4) : '0.0000'] *)
Definition cash_flow_stability_card (analytics : option Analytics.t) : Completion Text :=
  match analytics with
  | None => Normal (Literal "0.0000")
  | Some a =>
      if defined (Analytics.netCashFlowStability a)
      then q ← toFixed (Analytics.netCashFlowStability a) 4; mret (Fixed q 4 "")
      else Normal (Literal "0.0000")
  end.

(** The "Fluctuation" cell of a row of the monthly table:
    [{month.fluctuation.toFixed(2)}%] *)
Definition fluctuation_cell (row : Monthly.t) : Completion Text :=
  q ← toFixed (Monthly.fluctuation row) 2; mret (Fixed q 2 "%").

(** The three kinds of fixed-point text of the results view, in the order
    the view evaluates them; a fault in one leaves the view unrendered. *)
Definition fixed_texts (v : View) : Completion (list Text) :=
  a ← average_fluctuation_card (analytics v);
  b ← cash_flow_stability_card (analytics v);
  cells ← foldr (fun row acc => cell ← fluctuation_cell row; rest ← acc; mret (cell :: rest))
                (mret []) (monthlyData v);
  mret (a :: b :: cells).

End Render.

Module RenderSpec.

(** [undefined] or a number: what [toFixed] behind the view's test
    accepts. *)
Definition absent_or_number (v : JsVal) : Prop := v = JUndefined \/ exists q, v = JNum q.

Definition is_number (v : JsVal) : Prop := exists q, v = JNum q.

End RenderSpec.
Export RenderSpec.

Module PasscodeFocus.
Import Passcode.

(** [values.findLastIndex(v => v !== '')] *)
Fixpoint findLastIndex_filled (values : Cells) : option nat :=
  match values with
  | [] => None
  | cell :: rest =>
      match findLastIndex_filled rest with
      | Some i => Some (S i)
      | None => if filled cell then Some 0 else None
      end
  end.

(** [inputRefs.current[index]?.focus()]: the input that takes the focus,
    if there is one at [index] ([length] inputs are rendered). *)
Definition focus (length index : nat) : option nat :=
  if decide (index < length) then Some index else None.

(** The effect that runs when [error] is set: the input it focuses, the
    last filled one, or the last one when none is filled. *)
Definition focus_on_error (length : nat) (values : Cells) : option nat :=
  match findLastIndex_filled values with
  | Some lastFilledIndex => focus length lastFilledIndex
  | None => if decide (0 < length) then focus length (length - 1) else None
  end.

(** The focus moves of the three handlers, when they make one. *)
Definition focus_after_change (length : nat) (disabled : bool) (index : nat)
    (value : string) : option nat :=
  if disabled then None
  else if negb (String.eqb value "") && negb (one_digit value) then None
  else if negb (String.eqb value "") && (S index <? length)%nat
       then focus length (index + 1) else None.

Definition focus_after_keydown (length : nat) (disabled : bool) (values : Cells)
    (index : nat) (key : string) : option nat :=
  if disabled then None
  else if String.eqb key "Backspace" then
    if holds_text values index then None
    else if (0 <? index)%nat then focus length (index - 1) else None
  else None.

Definition focus_after_paste (length : nat) (disabled : bool) (text : string)
    : option nat :=
  if disabled then None
  else
    let pastedData := substring 0 length text in
    if digits_only pastedData
    then focus length (Nat.min (String.length pastedData - 1) (length - 1))
    else None.

End PasscodeFocus.

(* ===================================================================== *)
(** * Properties of the mapping                                            *)
(* ===================================================================== *)

Section MappingFacts.

Lemma get_own fields k v : own k fields = Some v -> get (JObj fields) k = Normal v.
Proof. intros H. simpl. now rewrite H. Qed.

Lemma get_object fields k : exists v, get (JObj fields) k = Normal v.
Proof. simpl. eauto. Qed.

Lemma absent_nullish k v x : absent k v -> get v k = Normal x -> nullish x zero = zero.
Proof. unfold absent. intros H1 H2. rewrite H1 in H2. now inversion H2. Qed.

Lemma january_complete : complete_stats january.
Proof. unfold complete_stats, expected_fields. repeat constructor; eexists; reflexivity. Qed.

(** The example of the specification, on the two fields it names. *)
Example mapMonthlyStats_example :
  exists row,
    mapMonthlyStats "Jan"
      (JObj [("total_credit", JNum 8500); ("total_debit", JNum (-8050))]) = Normal row
    /\ Monthly.inflows row = JNum 8500
    /\ Monthly.outflows row = Num 8050.
Proof. eexists. split; [reflexivity | split; reflexivity]. Qed.


End MappingFacts.

Section MappingDefaults.



Lemma present_get o k : present o -> exists v, get o k = Normal v.
Proof. intros [H1 H2]. destruct o; simpl; eauto; congruence. Qed.

Lemma js_or_object_present v : present (js_or v (JObj [])).
Proof. unfold js_or, present. destruct v; simpl; try destruct (negb _); try destruct b;
  split; congruence. Qed.

Lemma absent_inv k o v : absent k o -> get o k = Normal v -> v = JUndefined.
Proof. unfold absent. intros H1 H2. rewrite H1 in H2. now inversion H2. Qed.

Lemma mapAccountInfo_defaults o :
  present o -> exists info, mapAccountInfo o = Normal info /\ account_defaults o info.
Proof.
  intros Ho. unfold mapAccountInfo.
  destruct (present_get o "customer_name" Ho) as (v1 & E1).
  destruct (present_get o "account_number" Ho) as (v2 & E2).
  destruct (present_get o "iban_number" Ho) as (v3 & E3).
  destruct (present_get o "opening_balance" Ho) as (v4 & E4).
  destruct (present_get o "closing_balance" Ho) as (v5 & E5).
  destruct (present_get o "financial_period" Ho) as (v6 & E6).
  destruct (present_get o "pages_processed" Ho) as (v7 & E7).
  destruct (present_get o "total_transactions" Ho) as (v8 & E8).
  rewrite E1, E2, E3, E4, E5, E6, E7, E8. cbn.
  eexists. split; [reflexivity|]. unfold account_defaults. cbn.
  repeat split; intros A;
    match goal with
    | E : get o ?k = Normal ?v, A : absent ?k o |- _ =>
        rewrite (absent_inv k o v A E); reflexivity
    end.
Qed.

Lemma mapMonthlyStats_defaults month stats :
  present stats ->
  exists row, mapMonthlyStats month stats = Normal row
              /\ Monthly.month row = month /\ monthly_defaults stats row.
Proof.
  intros Ho. unfold mapMonthlyStats.
  destruct (present_get stats "opening_balance" Ho) as (v1 & E1).
  destruct (present_get stats "closing_balance" Ho) as (v2 & E2).
  destruct (present_get stats "total_credit" Ho) as (v3 & E3).
  destruct (present_get stats "total_debit" Ho) as (v4 & E4).
  destruct (present_get stats "net_change" Ho) as (v5 & E5).
  destruct (present_get stats "fluctuation" Ho) as (v6 & E6).
  destruct (present_get stats "international_inward_count" Ho) as (v7 & E7).
  destruct (present_get stats "international_outward_count" Ho) as (v8 & E8).
  destruct (present_get stats "international_inward_total" Ho) as (v9 & E9).
  destruct (present_get stats "international_outward_total" Ho) as (v10 & E10).
  destruct (present_get stats "minimum_balance" Ho) as (v11 & E11).
  rewrite E1, E2, E3, E4, E5, E6, E7, E8, E9, E10, E11. cbn.
  eexists. split; [reflexivity|]. split; [reflexivity|].
  unfold monthly_defaults. cbn.
  repeat split; intros;
    repeat match goal with
    | E : get stats ?k = Normal ?v, A : absent ?k stats |- _ =>
        rewrite (absent_inv k stats v A E) in *; clear A
    | E : get stats ?k = Normal ?v, E' : get stats ?k = Normal ?w |- _ =>
        rewrite E in E'; inversion E'; subst; clear E'
    end; reflexivity.
Qed.

Lemma map_entries_objects entries :
  Forall (fun e : string * JsVal => exists fields, snd e = JObj fields) entries ->
  exists rows, map_entries entries = Normal rows.
Proof.
  induction 1 as [| [month stats] rest (fields & Hf) _ (rows & IH)]; simpl.
  - eauto.
  - simpl in Hf. subst stats.
    destruct (mapMonthlyStats_defaults month (JObj fields)) as (row & Hrow & _).
    { split; discriminate. }
    rewrite Hrow, IH. cbn. eauto.
Qed.

Lemma analytics_field_object top k :
  exists v, analytics_field (JObj top) k = Normal v
            /\ forall a, get (JObj top) "analytics" = Normal a -> opt_get a k = Normal v.
Proof.
  unfold analytics_field. simpl.
  set (a := default JUndefined (own "analytics" top)).
  assert (exists v, opt_get a k = Normal v) as (v & Hv).
  { destruct a; simpl; eauto. }
  exists v. cbn. rewrite Hv. split; [reflexivity|].
  intros a' Ha'. inversion Ha'. subst a'. exact Hv.
Qed.




End MappingDefaults.

(* ===================================================================== *)
(** * Properties of the passcode entry                                     *)
(* ===================================================================== *)

Section PasscodeFacts.
Import Passcode.

Lemma array_set_in_range index v (a : Cells) :
  index < List.length a -> array_set index v a = <[index := Some v]> a.
Proof. intros H. unfold array_set. destruct (decide _); [reflexivity | lia]. Qed.

Lemma cell_ok_empty : cell_ok (Some "").
Proof. exists "". auto. Qed.

Lemma cell_ok_digit v : one_digit v = true -> cell_ok (Some v).
Proof. exists v. auto. Qed.

Lemma cells_ok_set length (values : Cells) index v :
  cells_ok length values -> index < length -> cell_ok (Some v) ->
  cells_ok length (array_set index v values).
Proof.
  intros [Hlen Hall] Hi Hv. rewrite array_set_in_range by lia. split.
  - now rewrite length_insert.
  - apply Forall_insert; assumption.
Qed.

Lemma cells_ok_initial length : cells_ok length (initial length).
Proof.
  unfold initial. split; [apply length_replicate|].
  apply Forall_replicate, cell_ok_empty.
Qed.

Lemma substring_length n s : String.length (substring 0 n s) <= n.
Proof. revert s. induction n; intros [|c s]; simpl; try lia. specialize (IHn s). lia. Qed.

Lemma split_length p : List.length (split p) = String.length p.
Proof. unfold split. rewrite length_map. induction p; simpl; auto. Qed.

Lemma split_cells_ok p : all_digits p = true -> Forall cell_ok (split p).
Proof.
  unfold split. induction p as [|c p IH]; simpl; intros H; [constructor|].
  apply andb_prop in H as [Hc Hp]. constructor; [|auto].
  apply cell_ok_digit. exact Hc.
Qed.

Lemma join_split p : join (split p) = p.
Proof. unfold split, join. induction p as [|c p IH]; simpl; [reflexivity|]. now rewrite IH. Qed.

Lemma filled_all (values : Cells) :
  Forall cell_ok values -> forallb filled values = true -> all_filled values.
Proof.
  unfold all_filled. induction 1 as [|cell rest (s & -> & Hs) _ IH]; simpl; intros H.
  - constructor.
  - apply andb_prop in H as [H1 H2]. constructor; [|auto].
    exists s. split; [reflexivity|]. intros ->. discriminate H1.
Qed.

Lemma all_filled_forallb (values : Cells) :
  all_filled values -> forallb filled values = true.
Proof.
  induction 1 as [|cell rest (s & -> & Hs) _ IH]; simpl; [reflexivity|].
  rewrite IH, andb_true_r. destruct (String.eqb_spec s ""); [contradiction | reflexivity].
Qed.

Lemma one_digit_inv s : one_digit s = true -> exists c, s = String c "" /\ is_digit c = true.
Proof. destruct s as [|c [|]]; simpl; try discriminate. eauto. Qed.

Lemma join_filled (values : Cells) :
  Forall cell_ok values -> all_filled values ->
  String.length (join values) = List.length values /\ all_digits (join values) = true.
Proof.
  induction 1 as [|cell rest (s & -> & Hs) _ IH]; intros Hf.
  - split; reflexivity.
  - apply Forall_cons_1 in Hf as [(s' & Hs' & Hne) Hf]. inversion Hs'; subst s'.
    destruct Hs as [-> | Hd]; [contradiction|].
    apply one_digit_inv in Hd as (c & -> & Hc).
    destruct (IH Hf) as [IH1 IH2].
    change (join (Some (String c "") :: rest)) with (String c (join rest)).
    simpl. rewrite IH1, Hc, IH2. auto.
Qed.


Lemma step_ok_unchanged length disabled i (values : Cells) :
  cells_ok length values ->
  (disabled = false -> accepted length i -> False) ->
  step_ok length disabled i values (values, None).
Proof.
  intros Hok Hacc. unfold step_ok. simpl.
  repeat split; auto; try apply Hok; try discriminate.
  intros Hd Ha. destruct (Hacc Hd Ha).
Qed.

Lemma all_filled_set_empty (values : Cells) index :
  index < List.length values -> ~ all_filled (<[index := Some ""]> values).
Proof.
  intros Hi Hf. unfold all_filled in Hf. rewrite Forall_lookup in Hf.
  destruct (Hf index (Some "")) as (s & Hs & Hne).
  - now apply list_lookup_insert_eq.
  - inversion Hs. congruence.
Qed.

Ltac split_step := unfold step_ok; simpl fst; simpl snd;
  split; [|split; [|split; [|split; [|split]]]].

Lemma handleChange_ok length disabled (values : Cells) index value :
  cells_ok length values -> index < length ->
  step_ok length disabled (Change index value) values
    (handleChange length disabled values index value).
Proof.
  intros Hok Hi. unfold handleChange. destruct disabled.
  { apply step_ok_unchanged; [assumption | discriminate]. }
  destruct (String.eqb_spec value "") as [Hv | Hv]; simpl negb; simpl andb.
  2: destruct (one_digit value) eqn:Hd; simpl negb; cbv iota.
  3: { apply step_ok_unchanged; [assumption|].
       intros _ [H | H]; [contradiction | congruence]. }
  all: assert (cell_ok (Some value)) as Hcell
         by (first [subst value; apply cell_ok_empty | now apply cell_ok_digit]).
  all: pose proof (cells_ok_set length values index value Hok Hi Hcell) as Hok'.
  all: set (newValues := array_set index value values) in *.
  all: destruct (forallb filled newValues
                 && (String.length (join newValues) =? length)%nat) eqn:Hc;
       split_step.
  all: try exact Hok'; try discriminate.
  all: try (intros [? ?]; congruence).
  all: try (intros code Hcode; inversion Hcode; subst code; clear Hcode;
            apply andb_prop in Hc as [Hc1 Hc2];
            pose proof (filled_all newValues (proj2 Hok') Hc1) as Hf;
            destruct (join_filled newValues (proj2 Hok') Hf) as [J1 J2];
            repeat split; [rewrite J1; apply Hok' | exact J2 | exact Hf]).
  all: try (intros _ _ Hf; exfalso;
            destruct (join_filled newValues (proj2 Hok') Hf) as [J1 J2];
            rewrite (all_filled_forallb _ Hf), J1, (proj1 Hok'), Nat.eqb_refl in Hc;
            discriminate Hc).
  all: try reflexivity.
Qed.

Lemma handleKeyDown_ok length disabled (values : Cells) index key :
  cells_ok length values -> index < length ->
  step_ok length disabled (KeyDown index key) values
    (handleKeyDown disabled values index key).
Proof.
  intros Hok Hi. unfold handleKeyDown.
  assert (forall v, cells_ok length v -> disabled = false ->
                    step_ok length disabled (KeyDown index key) values (v, None))
    as Hnone.
  { intros v Hv Hd. split_step; try discriminate; try reflexivity.
    - exact Hv.
    - congruence.
    - intros [].
    - intros _ []. }
  destruct disabled; [apply step_ok_unchanged; [assumption | intros _ []]|].
  destruct (String.eqb key "Backspace"); [|apply step_ok_unchanged; [assumption | intros _ []]].
  destruct (holds_text values index).
  - apply Hnone; [|reflexivity]. apply cells_ok_set; auto using cell_ok_empty.
  - destruct (Nat.ltb_spec 0 index).
    + apply Hnone; [|reflexivity]. apply cells_ok_set; auto using cell_ok_empty. lia.
    + apply step_ok_unchanged; [assumption | intros _ []].
Qed.

Lemma all_digits_split_filled p : all_filled (split p).
Proof.
  unfold split, all_filled. induction p as [|c p IH]; simpl; constructor; [|exact IH].
  eexists. split; [reflexivity | discriminate].
Qed.

Lemma digits_only_inv p : digits_only p = true -> all_digits p = true.
Proof. unfold digits_only. intros H. apply andb_prop in H. tauto. Qed.

Lemma handlePaste_ok length disabled (values : Cells) text :
  cells_ok length values ->
  step_ok length disabled (Paste text) values (handlePaste length disabled values text).
Proof.
  intros Hok. unfold handlePaste. destruct disabled.
  { apply step_ok_unchanged; [assumption | discriminate]. }
  set (pastedData := substring 0 length text).
  pose proof (substring_length length text) as Hle. fold pastedData in Hle.
  destruct (digits_only pastedData) eqn:Hd.
  2: { apply step_ok_unchanged; [assumption|]. intros _ H. simpl in H.
       fold pastedData in H. congruence. }
  pose proof (digits_only_inv _ Hd) as Hall.
  set (newValues := (split pastedData
           ++ replicate (length - String.length pastedData) (Some ""))%list).
  assert (cells_ok length newValues) as Hok'.
  { split.
    - unfold newValues. rewrite length_app, split_length, length_replicate. lia.
    - unfold newValues. apply Forall_app. split; [now apply split_cells_ok|].
      apply Forall_replicate, cell_ok_empty. }
  destruct (Nat.eqb_spec (String.length pastedData) length) as [Hl | Hl].
  - assert (newValues = split pastedData) as Hnv.
    { unfold newValues. rewrite Hl, Nat.sub_diag. simpl. apply app_nil_r. }
    split_step; try exact Hok'; try discriminate.
    + simpl. fold pastedData. congruence.
    + intros code Hcode. inversion Hcode; subst code; clear Hcode.
      rewrite Hnv, join_split. repeat split; auto. apply all_digits_split_filled.
    + intros _ _ _. now rewrite Hnv, join_split.
  - split_step; try exact Hok'; try discriminate.
    + simpl. fold pastedData. congruence.
    + intros _ _ Hf. exfalso. unfold newValues, all_filled in Hf.
      apply Forall_app in Hf as [_ Hf].
      destruct (length - String.length pastedData) as [|n] eqn:Hn; [lia|].
      simpl in Hf. apply Forall_cons_1 in Hf as [(s & Hs & Hne) _].
      inversion Hs. congruence.
Qed.

Lemma handle_ok length disabled (values : Cells) i :
  cells_ok length values -> rendered length i ->
  step_ok length disabled i values (handle length disabled values i).
Proof.
  intros Hok Hr. destruct i; simpl in *.
  - now apply handleChange_ok.
  - now apply handleKeyDown_ok.
  - now apply handlePaste_ok.
Qed.

Lemma interact_cons length (values : Cells) disabled i rest :
  interact length values ((disabled, i) :: rest)
  = (fst (interact length (fst (handle length disabled values i)) rest),
     match snd (handle length disabled values i) with
     | Some code => code :: snd (interact length (fst (handle length disabled values i)) rest)
     | None => snd (interact length (fst (handle length disabled values i)) rest)
     end).
Proof.
  simpl. destruct (handle length disabled values i) as [values' call]. simpl.
  destruct (interact length values' rest) as [final calls]. reflexivity.
Qed.

Lemma interact_app length (values : Cells) before rest :
  fst (interact length values (before ++ rest))
  = fst (interact length (fst (interact length values before)) rest).
Proof.
  revert values. induction before as [|[disabled i] before IH]; intros values.
  - reflexivity.
  - rewrite <- app_comm_cons, !interact_cons. simpl fst. apply IH.
Qed.

Lemma interact_ok length script : forall values : Cells,
  cells_ok length values ->
  Forall (fun e : bool * Interaction => rendered length (snd e)) script ->
  cells_ok length (fst (interact length values script))
  /\ Forall (code_ok length) (snd (interact length values script)).
Proof.
  induction script as [|[disabled i] rest IH]; intros values Hok Hr.
  - split; [exact Hok | constructor].
  - apply Forall_cons_1 in Hr as [Hi Hr]. simpl in Hi.
    pose proof (handle_ok length disabled values i Hok Hi) as (Hok' & _ & _ & Hcall & _).
    rewrite interact_cons. simpl fst. simpl snd.
    destruct (IH _ Hok' Hr) as [IH1 IH2]. split; [exact IH1|].
    destruct (snd (handle length disabled values i)) as [code|] eqn:Hc; [|exact IH2].
    constructor; [|exact IH2]. now destruct (Hcall code eq_refl).
Qed.

(** C10.  Along every sequence of interactions that the rendered inputs
    can send (change, key press, paste; each with the value of [disabled]
    at that moment), starting from the empty cells: the array keeps one
    cell per input and each cell holds [''] or one decimal digit; every
    [onComplete] call carries exactly [length] decimal digits; and at each
    interaction ([step_ok]) input while disabled and refused input leave
    the cells unchanged and make no call, a call is made only with the
    concatenation of the cells when all of them are filled, an accepted
    edit that leaves all cells filled does make the call, and a key press
    never does.  A paste is judged on its first [length] characters. *)
Theorem passcode_cells_and_completion (length : nat) (script : list (bool * Interaction)) :
  Forall (fun e : bool * Interaction => rendered length (snd e)) script ->
  cells_ok length (fst (interact length (initial length) script))
  /\ Forall (code_ok length) (snd (interact length (initial length) script))
  /\ forall before disabled i after,
       script = (before ++ (disabled, i) :: after)%list ->
       let values := fst (interact length (initial length) before) in
       step_ok length disabled i values (handle length disabled values i).
Proof.
  intros Hr.
  destruct (interact_ok length script (initial length) (cells_ok_initial length) Hr)
    as [H1 H2].
  split; [exact H1|]. split; [exact H2|].
  intros before disabled i after -> values.
  apply Forall_app in Hr as [Hb Hr]. apply Forall_cons_1 in Hr as [Hi _].
  apply handle_ok; [|exact Hi].
  apply (interact_ok length before (initial length) (cells_ok_initial length) Hb).
Qed.

(** Typing 1 2 3, a refused letter, a paste while disabled, then pasting a
    longer text into the six default cells. *)
Lemma passcode_cells_and_completion_witness :
  let script :=
    [ (false, Change 0 "1"); (false, Change 1 "2"); (false, Change 2 "x");
      (false, KeyDown 1 "Backspace"); (true, Paste "000000");
      (false, Paste "4711081599") ] in
  Forall (fun e : bool * Interaction => rendered 6 (snd e)) script
  /\ interact 6 (initial 6) script
     = ([Some "4"; Some "7"; Some "1"; Some "1"; Some "0"; Some "8"], ["471108"])
  /\ Forall (code_ok 6) (snd (interact 6 (initial 6) script)).
Proof.
  intros script.
  assert (Forall (fun e : bool * Interaction => rendered 6 (snd e)) script) as Hr.
  { unfold script. repeat constructor; simpl; lia. }
  split; [exact Hr|]. split; [reflexivity|].
  exact (proj1 (proj2 (passcode_cells_and_completion 6 script Hr))).
Defined.

End PasscodeFacts.

(* ===================================================================== *)
(** * Properties of the lockout countdown                                  *)
(* ===================================================================== *)

Section LoginFacts.
Import Login.

Lemma ceil_minutes (d : Z) :
  Qceiling (inject_Z d / 1000 / 60) = (- ((- d) / 60000))%Z.
Proof.
  unfold Qceiling, Qfloor, Qdiv, Qmult, Qinv, Qopp, inject_Z. simpl.
  now rewrite !Z.mul_1_r.
Qed.

Lemma status_429_not_ok r : status r = 429%N -> ok r = false.
Proof. unfold ok. intros ->. reflexivity. Qed.

Lemma append_cons c s t : String c s +:+ t = String c (s +:+ t).
Proof. reflexivity. Qed.
Lemma append_nil t : "" +:+ t = t.
Proof. reflexivity. Qed.

Lemma match_here_no_digit word c rest :
  Passcode.is_digit c = false -> match_here word (String c rest) = None.
Proof. intros H. unfold match_here. simpl. now rewrite H. Qed.

Lemma first_match_five pre post :
  digit_free pre = true ->
  first_match "minutes" (pre +:+ "5 minutes" +:+ post) = Some "5".
Proof.
  induction pre as [|c pre IH]; intros H.
  - rewrite append_nil, !append_cons, append_nil.
    assert (match_here "minutes" (String "5" (String " " (String "m" (String "i"
              (String "n" (String "u" (String "t" (String "e" (String "s" post)))))))))
            = Some "5") as Hm.
    { unfold match_here. cbn -[Nat.ltb].
      repeat match goal with
             | |- context [Passcode.is_digit (Ascii ?a ?b ?c ?d ?e ?f ?g ?h)] =>
                 let x := constr:(Passcode.is_digit (Ascii a b c d e f g h)) in
                 let v := eval vm_compute in x in
                 change x with v; cbn -[Nat.ltb]
             | |- context [is_space (Ascii ?a ?b ?c ?d ?e ?f ?g ?h)] =>
                 let x := constr:(is_space (Ascii a b c d e f g h)) in
                 let v := eval vm_compute in x in
                 change x with v; cbn -[Nat.ltb]
             end.
      replace (_ <? _)%nat with true; [destruct post; reflexivity|].
      symmetry. apply Nat.ltb_lt. lia. }
    unfold first_match at 1. now rewrite Hm.
  - simpl in H. apply andb_prop in H as [Hc Hpre].
    apply negb_true_iff in Hc. rewrite append_cons.
    simpl first_match. rewrite (match_here_no_digit "minutes" c _ Hc). now apply IH.
Qed.

Lemma respond_locks now r data text digits s :
  status r = 429%N ->
  get data "error" = Normal (JStr text) ->
  first_match "minutes" text = Some digits ->
  respond now r data s
  = (setLoading false (setLoading false (setError (JStr text)
       (setLockoutUntil (Some (new_Date (now + parseInt digits * 60 * 1000))) s))),
     false).
Proof.
  intros Hs He Hm. unfold respond, read_limits.
  rewrite (status_429_not_ok r Hs), Hs, He. cbn. rewrite Hm. cbn.
  unfold js_or. simpl truthy.
  destruct (String.eqb_spec text "") as [-> | _]; [|reflexivity].
  discriminate Hm.
Qed.




End LoginFacts.

(* ===================================================================== *)
(** * Properties of the upload-and-poll controller                         *)
(* ===================================================================== *)

Section UploadFacts.
Import Upload.

Lemma clearPolling_view s : view (clearPolling s) = view s.
Proof. unfold clearPolling. destruct (pollTimeoutRef s); reflexivity. Qed.

Lemma clearPolling_refs s :
  pollTimeoutRef (clearPolling s) = None /\ currentPdfIdRef (clearPolling s) = None.
Proof. unfold clearPolling. destruct (pollTimeoutRef s) eqn:E; simpl; auto. Qed.

Lemma clearPolling_timers s :
  timers (clearPolling s)
  = match pollTimeoutRef s with Some h => delete h (timers s) | None => timers s end.
Proof. unfold clearPolling. destruct (pollTimeoutRef s); reflexivity. Qed.

Lemma clearPolling_rest s :
  tasks (clearPolling s) = tasks s /\ nextTimer (clearPolling s) = nextTimer s
  /\ nextTask (clearPolling s) = nextTask s /\ requests (clearPolling s) = requests s.
Proof. unfold clearPolling. destruct (pollTimeoutRef s); simpl; auto. Qed.


Lemma upload_catch_spec m s :
  error (view (upload_catch m s)) = JStr ("Network or server error: " +:+ m)
  /\ isAnalyzing (view (upload_catch m s)) = false
  /\ pollTimeoutRef (upload_catch m s) = None
  /\ currentPdfIdRef (upload_catch m s) = None
  /\ timers (upload_catch m s)
     = match pollTimeoutRef s with Some h => delete h (timers s) | None => timers s end
  /\ tasks (upload_catch m s) = tasks s
  /\ requests (upload_catch m s) = requests s.
Proof.
  unfold upload_catch. rewrite clearPolling_view, clearPolling_timers.
  destruct (clearPolling_refs
              (setIsAnalyzing false
                 (setError (JStr ("Network or server error: " +:+ m)) s))) as [-> ->].
  destruct (clearPolling_rest
              (setIsAnalyzing false
                 (setError (JStr ("Network or server error: " +:+ m)) s)))
    as (-> & _ & _ & ->).
  repeat split; reflexivity.
Qed.


End UploadFacts.

(** ** Sessions and their continuations *)

Section WellFormed.
Import Upload.

Lemma quiet_refl s : quiet s s.
Proof. repeat split; reflexivity. Qed.

Lemma quiet_trans s1 s2 s3 : quiet s1 s2 -> quiet s2 s3 -> quiet s1 s3.
Proof.
  intros (A1 & A2 & A3 & A4) (B1 & B2 & B3 & B4). repeat split; try congruence.
  etransitivity; eassumption.
Qed.

Ltac quiet_same := repeat split; reflexivity.

Lemma quiet_clearTimeout h s : quiet s (clearTimeout h s).
Proof. repeat split; try reflexivity. apply delete_subseteq. Qed.

Lemma quiet_clearPolling s : quiet s (clearPolling s).
Proof.
  unfold clearPolling. destruct (pollTimeoutRef s) as [h|].
  - apply (quiet_trans _ (clearTimeout h s)); [apply quiet_clearTimeout | quiet_same].
  - quiet_same.
Qed.

Lemma quiet_upload_catch m s : quiet s (upload_catch m s).
Proof.
  unfold upload_catch.
  eapply quiet_trans; [|apply quiet_clearPolling]. quiet_same.
Qed.

Lemma quiet_upload_failed err s : quiet s (upload_failed err s).
Proof.
  unfold upload_failed. destruct (get err "error").
  - quiet_same.
  - apply quiet_upload_catch.
Qed.

Lemma quiet_poll_catch c m s : quiet s (poll_catch c m s).
Proof.
  unfold poll_catch. destruct (negb (is_current c s)); [apply quiet_refl|].
  eapply quiet_trans; [|apply quiet_clearPolling]. quiet_same.
Qed.

Lemma quiet_completed c d s : quiet s (completed c d s).
Proof.
  unfold completed. destruct (negb (is_current c s)); [apply quiet_refl|].
  destruct (account_stage d); [|apply quiet_poll_catch].
  destruct (monthly_stage d).
  2: { eapply quiet_trans; [|apply quiet_poll_catch]. quiet_same. }
  destruct (analytics_stage d).
  2: { eapply quiet_trans; [|apply quiet_poll_catch]. quiet_same. }
  eapply quiet_trans; [|apply quiet_clearPolling]. quiet_same.
Qed.

Lemma owner_quiet s s' x n : quiet s s' -> owner s' x = Some n -> owner s x = Some n.
Proof.
  intros (Ht & Hk & _ & _). destruct x as [h|t]; simpl.
  - destruct (timers s' !! h) as [e|] eqn:E; [|discriminate].
    now rewrite (lookup_weaken _ _ _ _ E Ht).
  - now rewrite Hk.
Qed.

Lemma wf_quiet s s' : wf s -> quiet s s' -> wf s'.
Proof.
  intros [B S T K] Hq. pose proof Hq as (Ht & Hk & Hnt & Hnk). split.
  - intros x n H. rewrite Hnk. eapply B, owner_quiet; eassumption.
  - intros x y n Hx Hy. eapply S; eapply owner_quiet; eassumption.
  - intros h Hh. rewrite Hnt in Hh. specialize (T h Hh).
    destruct (timers s' !! h) eqn:E; [|reflexivity].
    rewrite (lookup_weaken _ _ _ _ E Ht) in T. discriminate.
  - intros t Hle. rewrite Hk. apply K. now rewrite <- Hnk.
Qed.

Lemma vacant_quiet s s' n : vacant s n -> quiet s s' -> vacant s' n.
Proof. intros V Hq x H. eapply V, owner_quiet; eassumption. Qed.

(** Taking a live continuation out leaves its session vacant. *)
Lemma wf_fire s h d c :
  wf s -> timers s !! h = Some (d, c) ->
  let s1 := with_timers (delete h) s in
  wf s1 /\ vacant s1 (sid c) /\ sid c < nextTask s1.
Proof.
  intros W H s1.
  assert (quiet s s1) as Hq by (repeat split; try reflexivity; apply delete_subseteq).
  assert (owner s (Timer h) = Some (sid c)) as Ho by (simpl; now rewrite H).
  split; [eapply wf_quiet; eassumption|]. split.
  - intros x Hx. pose proof (owner_quiet _ _ _ _ Hq Hx) as Hx'.
    pose proof (wf_single s W _ _ _ Hx' Ho) as ->.
    simpl in Hx. rewrite lookup_delete_eq in Hx. discriminate.
  - apply (wf_bound s W _ _ Ho).
Qed.

Lemma wf_resume s t k :
  wf s -> tasks s !! t = Some k ->
  let s1 := with_tasks (delete t) s in
  wf s1 /\ vacant s1 (session_of t k) /\ session_of t k < nextTask s1
  /\ t < nextTask s1 /\ tasks s1 !! t = None.
Proof.
  intros W H s1.
  assert (owner s (Call t) = Some (session_of t k)) as Ho by (simpl; now rewrite H).
  assert (forall x n, owner s1 x = Some n -> owner s x = Some n) as Hsub.
  { intros [h'|t'] n; simpl; [tauto|].
    destruct (decide (t' = t)) as [->|Hne].
    - rewrite lookup_delete_eq. discriminate.
    - now rewrite lookup_delete_ne. }
  split; [|split; [|split; [|split]]].
  - split.
    + intros x n Hx. apply (wf_bound s W x n), Hsub, Hx.
    + intros x y n Hx Hy. apply (wf_single s W x y n); apply Hsub; assumption.
    + apply (wf_timers s W).
    + intros t' Hle. simpl. destruct (decide (t' = t)) as [->|Hne].
      * apply lookup_delete_eq.
      * rewrite lookup_delete_ne by congruence. now apply (wf_tasks s W).
  - intros x Hx. pose proof (wf_single s W _ _ _ (Hsub _ _ Hx) Ho) as ->.
    simpl in Hx. rewrite lookup_delete_eq in Hx. discriminate.
  - apply (wf_bound s W _ _ Ho).
  - simpl. destruct (Nat.lt_ge_cases t (nextTask s)) as [|Hge]; [assumption|].
    rewrite (wf_tasks s W t Hge) in H. discriminate.
  - apply lookup_delete_eq.
Qed.

(** Putting a continuation of a vacant session in. *)
Lemma wf_setTimeout s d c :
  wf s -> vacant s (sid c) -> sid c < nextTask s -> wf (setTimeout d c s).
Proof.
  intros W V B.
  assert (forall x n, owner (setTimeout d c s) x = Some n ->
                      (x = Timer (nextTimer s) /\ n = sid c) \/ owner s x = Some n) as Hcase.
  { intros [h|t] n; simpl; [|tauto].
    destruct (decide (h = nextTimer s)) as [->|Hne].
    - rewrite lookup_insert_eq. simpl. intros H. inversion H. auto.
    - rewrite lookup_insert_ne by congruence. tauto. }
  split.
  - intros x n Hx. simpl. destruct (Hcase x n Hx) as [[_ ->] | Ho]; [exact B|].
    apply (wf_bound s W _ _ Ho).
  - intros x y n Hx Hy.
    destruct (Hcase x n Hx) as [[Ex En] | Hox], (Hcase y n Hy) as [[Ey En'] | Hoy];
      subst.
    + reflexivity.
    + destruct (V _ Hoy).
    + destruct (V _ Hox).
    + apply (wf_single s W _ _ _ Hox Hoy).
  - intros h Hh. simpl in *. rewrite lookup_insert_ne by lia.
    apply (wf_timers s W). lia.
  - apply (wf_tasks s W).
Qed.

Lemma wf_await s t k :
  wf s -> vacant s (session_of t k) -> session_of t k < nextTask s -> t < nextTask s ->
  wf (await t k s).
Proof.
  intros W V B Ht.
  assert (forall x n, owner (await t k s) x = Some n ->
                      (x = Call t /\ n = session_of t k) \/ owner s x = Some n) as Hcase.
  { intros [h'|t'] n; simpl; [tauto|].
    destruct (decide (t' = t)) as [->|Hne].
    - rewrite lookup_insert_eq. simpl. intros H. inversion H. auto.
    - rewrite lookup_insert_ne by congruence. tauto. }
  split.
  - intros x n Hx. simpl. destruct (Hcase x n Hx) as [[_ ->] | Ho]; [exact B|].
    apply (wf_bound s W _ _ Ho).
  - intros x y n Hx Hy.
    destruct (Hcase x n Hx) as [[Ex En] | Hox], (Hcase y n Hy) as [[Ey En'] | Hoy];
      subst.
    + reflexivity.
    + destruct (V _ Hoy).
    + destruct (V _ Hox).
    + apply (wf_single s W _ _ _ Hox Hoy).
  - apply (wf_timers s W).
  - intros t' Hle. simpl in *. rewrite lookup_insert_ne by lia. now apply (wf_tasks s W).
Qed.

Lemma wf_suspend s k :
  wf s -> vacant s (session_of (nextTask s) k) -> session_of (nextTask s) k <= nextTask s ->
  wf (suspend k s).
Proof.
  intros W V B.
  assert (forall x n, owner (suspend k s) x = Some n ->
                      (x = Call (nextTask s) /\ n = session_of (nextTask s) k)
                      \/ owner s x = Some n) as Hcase.
  { intros [h'|t'] n; simpl; [tauto|].
    destruct (decide (t' = nextTask s)) as [->|Hne].
    - rewrite lookup_insert_eq. simpl. intros H. inversion H. auto.
    - rewrite lookup_insert_ne by congruence. tauto. }
  split.
  - intros x n Hx. simpl. destruct (Hcase x n Hx) as [[_ ->] | Ho]; [lia|].
    pose proof (wf_bound s W _ _ Ho). lia.
  - intros x y n Hx Hy.
    destruct (Hcase x n Hx) as [[Ex En] | Hox], (Hcase y n Hy) as [[Ey En'] | Hoy];
      subst.
    + reflexivity.
    + destruct (V _ Hoy).
    + destruct (V _ Hox).
    + apply (wf_single s W _ _ _ Hox Hoy).
  - apply (wf_timers s W).
  - intros t' Hle. simpl in *. rewrite lookup_insert_ne by lia. apply (wf_tasks s W). lia.
Qed.

Lemma vacant_next s : wf s -> vacant s (nextTask s).
Proof. intros W x Hx. pose proof (wf_bound s W _ _ Hx). lia. Qed.

Lemma wf_onDrop files s : wf s -> wf (onDrop files s).
Proof.
  intros W. destruct files as [|file rest]; [exact W|]. unfold onDrop.
  set (s1 := fetch _ _).
  assert (quiet s s1) as Hq.
  { subst s1. apply (quiet_trans _ (clearPolling s)); [apply quiet_clearPolling|].
    quiet_same. }
  pose proof (wf_quiet _ _ W Hq) as W1.
  apply wf_suspend; [exact W1 | now apply vacant_next | reflexivity].
Qed.

Lemma wf_pollForResults c s :
  wf s -> vacant s (sid c) -> sid c < nextTask s -> wf (pollForResults c s).
Proof.
  intros W V B. unfold pollForResults. destruct (negb (is_current c s)); [exact W|].
  apply wf_suspend.
  - eapply wf_quiet; [exact W | quiet_same].
  - eapply vacant_quiet; [exact V | quiet_same].
  - simpl. lia.
Qed.

Lemma wf_schedule d c s :
  wf s -> vacant s (sid c) -> sid c < nextTask s -> wf (schedule d c s).
Proof.
  intros W V B. unfold schedule.
  eapply wf_quiet; [apply (wf_setTimeout s d c W V B) | quiet_same].
Qed.

Lemma wf_upload_succeeded t d s :
  wf s -> vacant s t -> t < nextTask s -> wf (upload_succeeded t d s).
Proof.
  intros W V B. unfold upload_succeeded.
  destruct (get d "id") as [v|e]; [|eapply wf_quiet; [exact W | apply quiet_upload_catch]].
  destruct (negb (truthy v)); [eapply wf_quiet; [exact W | apply quiet_upload_catch]|].
  apply wf_schedule.
  - eapply wf_quiet; [exact W | quiet_same].
  - eapply vacant_quiet; [exact V | quiet_same].
  - exact B.
Qed.

Lemma wf_poll_body t c d s :
  wf s -> vacant s (sid c) -> sid c < nextTask s -> t < nextTask s ->
  wf (poll_body t c d s).
Proof.
  intros W V B Ht. unfold poll_body.
  destruct (negb (is_current c s)); [exact W|].
  destruct (get d "status") as [st|e];
    [|eapply wf_quiet; [exact W | apply quiet_poll_catch]].
  destruct (is_string st "error").
  { destruct (get d "error");
      [|eapply wf_quiet; [exact W | apply quiet_poll_catch]].
    eapply wf_quiet; [exact W|].
    eapply quiet_trans; [|apply quiet_clearPolling]. quiet_same. }
  destruct (is_string st "processing").
  { destruct (maxPollTime <=? totalPollTime (accumulate c))%Z.
    - apply wf_await; try assumption.
      eapply wf_quiet; [exact W | quiet_same].
    - apply wf_schedule; assumption. }
  destruct (is_string st "completed"); [|exact W].
  eapply wf_quiet; [exact W | apply quiet_completed].
Qed.

Lemma wf_resumed t k o s s' :
  resume t k o s = Some s' ->
  wf s -> vacant s (session_of t k) -> session_of t k < nextTask s -> t < nextTask s ->
  wf s'.
Proof.
  intros H W V B Ht.
  destruct k as [|r| |c|c|c], o as [e|r'|v|[v|e]]; simpl in H; inversion H; subst s'; clear H;
    simpl in V, B.
  all: try (eapply wf_quiet; [exact W|];
            first [apply quiet_upload_catch | apply quiet_upload_failed
                  | apply quiet_poll_catch]).
  - destruct (negb (ok r')); apply wf_await; assumption.
  - now apply wf_upload_succeeded.
  - destruct (negb (ok r')).
    + eapply wf_quiet; [exact W | apply quiet_poll_catch].
    + apply wf_await; assumption.
  - now apply wf_poll_body.
Qed.

Lemma wf_step s e : wf s -> wf (step s e).
Proof.
  intros W. destruct e as [files|h|t o| |]; simpl.
  - now apply wf_onDrop.
  - destruct (timers s !! h) as [[d c]|] eqn:E; [|exact W].
    destruct (wf_fire s h d c W E) as (W1 & V1 & B1).
    now apply wf_pollForResults.
  - destruct (tasks s !! t) as [k|] eqn:E; [|exact W].
    destruct (wf_resume s t k W E) as (W1 & V1 & B1 & Ht & _).
    destruct (resume t k o (with_tasks (delete t) s)) as [s'|] eqn:R; [|exact W].
    simpl. eapply wf_resumed; eassumption.
  - eapply wf_quiet; [exact W | apply quiet_clearPolling].
  - eapply wf_quiet; [exact W | quiet_same].
Qed.

Lemma wf_initial : wf initial.
Proof.
  split.
  - intros [h|t] n; simpl; rewrite lookup_empty; discriminate.
  - intros [h|t] y n; simpl; rewrite lookup_empty; discriminate.
  - intros h _. apply lookup_empty.
  - intros t _. apply lookup_empty.
Qed.

Lemma wf_run trace : forall s, wf s -> wf (run s trace).
Proof.
  induction trace as [|e trace IH]; intros s W; [exact W|].
  apply IH, wf_step, W.
Qed.

Lemma reachable_wf s : reachable s -> wf s.
Proof. intros (trace & ->). apply wf_run, wf_initial. Qed.

Lemma reachable_step s e : reachable s -> reachable (step s e).
Proof.
  intros (trace & ->). exists (trace ++ [e])%list. unfold run. now rewrite foldl_app.
Qed.

Lemma reachable_run s trace : reachable s -> reachable (run s trace).
Proof.
  intros (t0 & ->). exists (t0 ++ trace)%list. unfold run. now rewrite foldl_app.
Qed.

End WellFormed.

(** ** Clearing the poll timer *)

Section Cleanup.
Import Upload.

Lemma cleared_clearPolling s s2 :
  pollTimeoutRef s2 = pollTimeoutRef s -> timers s2 = timers s -> tasks s2 = tasks s ->
  cleared s (clearPolling s2).
Proof.
  intros Hr Ht Hk. unfold cleared.
  destruct (clearPolling_refs s2) as [-> ->].
  rewrite clearPolling_timers, Hr, Ht.
  destruct (clearPolling_rest s2) as (-> & _). auto.
Qed.

Lemma cleared_poll_catch c m s s2 :
  pollTimeoutRef s2 = pollTimeoutRef s -> timers s2 = timers s -> tasks s2 = tasks s ->
  is_current c s2 = true ->
  cleared s (poll_catch c m s2).
Proof.
  intros Hr Ht Hk Hc. unfold poll_catch. rewrite Hc. simpl.
  apply cleared_clearPolling; assumption.
Qed.

Lemma cleared_completed c d s :
  is_current c s = true -> cleared s (completed c d s).
Proof.
  intros Hc. unfold completed. rewrite Hc. simpl.
  destruct (account_stage d); [|now apply cleared_poll_catch].
  destruct (monthly_stage d); [|now apply cleared_poll_catch].
  destruct (analytics_stage d); [|now apply cleared_poll_catch].
  now apply cleared_clearPolling.
Qed.

Lemma cleared_terminal t k o c s s' :
  terminal k o c -> is_current c s = true -> resume t k o s = Some s' -> cleared s s'.
Proof.
  intros T Hc R. destruct T; simpl in R; inversion R; subst s'; clear R.
  - now apply cleared_poll_catch.
  - rewrite H. simpl. now apply cleared_poll_catch.
  - now apply cleared_poll_catch.
  - unfold poll_body. rewrite Hc, H. simpl. now apply cleared_poll_catch.
  - unfold poll_body. rewrite Hc, H. simpl.
    destruct (get d "error"); [|now apply cleared_poll_catch].
    now apply cleared_clearPolling.
  - unfold poll_body. rewrite Hc, H. simpl. now apply cleared_completed.
  - now apply cleared_poll_catch.
  - now apply cleared_poll_catch.
Qed.

Lemma terminal_resumes t k o c s : terminal k o c -> is_Some (resume t k o s).
Proof. intros T. destruct T; simpl; eauto. Qed.

Lemma terminal_closure k o c : terminal k o c -> closure_of k = Some c.
Proof. intros T. destruct T; reflexivity. Qed.

Lemma closure_session t k c : closure_of k = Some c -> session_of t k = sid c.
Proof. destruct k; simpl; intros H; inversion H; reflexivity. Qed.

Lemma polls_owner s x c : polls s x c -> owner s x = Some (sid c).
Proof.
  destruct x as [h|t]; simpl.
  - intros (d & ->). reflexivity.
  - intros (k & -> & Hk). simpl. now rewrite (closure_session t k c Hk).
Qed.


End Cleanup.

Section GuardFacts.
Import Upload.

Lemma marker_kept_refl s : marker_kept s s.
Proof. now left. Qed.

Lemma marker_kept_clearPolling s s2 : marker_kept s (clearPolling s2).
Proof. right. apply clearPolling_refs. Qed.

Lemma marker_kept_poll_catch c m s s2 :
  currentPdfIdRef s2 = currentPdfIdRef s -> marker_kept s (poll_catch c m s2).
Proof.
  intros H. unfold poll_catch. destruct (negb (is_current c s2)); [now left|].
  apply marker_kept_clearPolling.
Qed.

Lemma marker_kept_completed c d s : marker_kept s (completed c d s).
Proof.
  unfold completed. destruct (negb (is_current c s)); [now left|].
  destruct (account_stage d); [|now apply marker_kept_poll_catch].
  destruct (monthly_stage d); [|now apply marker_kept_poll_catch].
  destruct (analytics_stage d); [|now apply marker_kept_poll_catch].
  apply marker_kept_clearPolling.
Qed.

Lemma marker_kept_poll_body t c d s : marker_kept s (poll_body t c d s).
Proof.
  unfold poll_body. destruct (negb (is_current c s)); [now left|].
  destruct (get d "status") as [st|e]; [|now apply marker_kept_poll_catch].
  destruct (is_string st "error").
  { destruct (get d "error"); [|now apply marker_kept_poll_catch].
    apply marker_kept_clearPolling. }
  destruct (is_string st "processing").
  { destruct (maxPollTime <=? totalPollTime (accumulate c))%Z; now left. }
  destruct (is_string st "completed"); [apply marker_kept_completed | now left].
Qed.

Lemma marker_kept_upload_failed err s : marker_kept s (upload_failed err s).
Proof.
  unfold upload_failed. destruct (get err "error"); [now left|].
  apply marker_kept_clearPolling.
Qed.

Lemma marked_kept s s' id : marker_kept s s' -> marked s id = false -> marked s' id = false.
Proof. unfold marked. intros [-> | ->]; auto. Qed.

(** Only the arrival of an upload body with the identifier [id] makes the
    marker designate [id]. *)
Lemma marked_step s e id :
  marked s id = false -> ~ delivers s e id -> marked (step s e) id = false.
Proof.
  intros Hm Hd. destruct e as [files|h|t o| |]; simpl.
  - destruct files; [exact Hm|]. apply (marked_kept s); [|exact Hm].
    right. apply (clearPolling_refs s).
  - destruct (timers s !! h) as [[d c]|]; [|exact Hm].
    unfold pollForResults. destruct (negb _); exact Hm.
  - destruct (tasks s !! t) as [k|] eqn:E; [|exact Hm].
    set (s1 := with_tasks (delete t) s).
    assert (marked s1 id = false) as Hm1 by exact Hm.
    destruct (resume t k o s1) as [s'|] eqn:R; [|exact Hm]. simpl.
    destruct k as [|r| |c|c|c], o as [e|r'|v|[v|e]]; simpl in R; inversion R; subst s';
      clear R.
    all: try (apply (marked_kept s1); [|exact Hm1];
              first [ apply marker_kept_clearPolling
                    | apply marker_kept_upload_failed
                    | now apply marker_kept_poll_catch
                    | apply marker_kept_poll_body ]).
    + destruct (negb (ok r')); exact Hm1.
    + unfold upload_succeeded.
      destruct (get v "id") as [pdfId|e] eqn:G;
        [|apply (marked_kept s1); [apply marker_kept_clearPolling | exact Hm1]].
      destruct (truthy pdfId) eqn:T; simpl;
        [|apply (marked_kept s1); [apply marker_kept_clearPolling | exact Hm1]].
      unfold marked. simpl.
      destruct (strict_eq (ident_of t pdfId) id) eqn:S; [|reflexivity].
      exfalso. apply Hd. simpl. split; [exact E|]. eauto.
    + destruct (negb (ok r')); [|exact Hm1].
      apply (marked_kept s1); [now apply marker_kept_poll_catch | exact Hm1].
  - apply (marked_kept s); [apply marker_kept_clearPolling | exact Hm].
  - exact Hm.
Qed.

Lemma never_delivers_app id before : forall s rest,
  never_delivers id s (before ++ rest)%list ->
  never_delivers id s before /\ never_delivers id (run s before) rest.
Proof.
  induction before as [|e before IH]; intros s rest H; simpl in *; [auto|].
  destruct H as [H1 H2]. destruct (IH _ _ H2). auto.
Qed.

Lemma marked_run id trace : forall s,
  marked s id = false -> never_delivers id s trace -> marked (run s trace) id = false.
Proof.
  induction trace as [|e trace IH]; intros s Hm H; [exact Hm|].
  destruct H as [H1 H2]. apply IH; [|exact H2]. now apply marked_step.
Qed.

Lemma inert_refl s : inert s s.
Proof. repeat split; reflexivity. Qed.

Lemma stale_poll_catch c m s : marked s (pdfId c) = false -> poll_catch c m s = s.
Proof. intros H. unfold poll_catch, is_current. fold (marked s (pdfId c)). now rewrite H. Qed.

(** A poll continuation resumed while the marker does not designate its
    job changes nothing. *)
Lemma stale_poll_inert s e id :
  marked s id = false -> polls_job s e id -> inert s (step s e).
Proof.
  intros Hm Hp. destruct e as [files|h|t o| |]; simpl in Hp; try contradiction.
  - destruct Hp as (c & (d & Hh) & <-). simpl. rewrite Hh.
    unfold pollForResults, is_current. simpl.
    fold (marked s (pdfId c)). rewrite Hm. simpl.
    repeat split; try reflexivity. simpl. apply delete_subseteq.
  - destruct Hp as (c & (k & Hk & Hc) & <-). simpl. rewrite Hk.
    set (s1 := with_tasks (delete t) s).
    assert (marked s1 (pdfId c) = false) as Hm1 by exact Hm.
    assert (inert s s1) as Hi by (repeat split; reflexivity).
    destruct k as [|r| |c'|c'|c']; simpl in Hc; inversion Hc; subst c'; clear Hc.
    all: destruct o as [e|r'|v|[v|e]]; simpl; try apply inert_refl.
    all: rewrite ?(stale_poll_catch c _ s1 Hm1); try exact Hi.
    + destruct (negb (ok r')); rewrite ?(stale_poll_catch c _ s1 Hm1); exact Hi.
    + unfold poll_body, is_current. fold (marked s1 (pdfId c)). rewrite Hm1. exact Hi.
Qed.


End GuardFacts.

(** ** Polling with backoff against a server that keeps answering "processing" *)

Section BackoffFacts.
Import Upload.

Lemma run_app s a b : run s (a ++ b)%list = run (run s a) b.
Proof. unfold run. apply foldl_app. Qed.

Lemma state_eq s s' :
  view s = view s' -> pollTimeoutRef s = pollTimeoutRef s' ->
  currentPdfIdRef s = currentPdfIdRef s' -> timers s = timers s' -> tasks s = tasks s' ->
  nextTimer s = nextTimer s' -> nextTask s = nextTask s' -> requests s = requests s' ->
  s = s'.
Proof. destruct s, s'. simpl. intros. now subst. Qed.

Lemma pdfId_advance c : pdfId (advance c) = pdfId c.
Proof. reflexivity. Qed.

Lemma pdfId_advances n c : pdfId (Nat.iter n advance c) = pdfId c.
Proof. induction n as [|n IH]; [reflexivity|]. exact IH. Qed.

(** The body says "processing": [pollForResults] takes that branch. *)
Lemma poll_body_processing t c d s :
  is_current c s = true -> get d "status" = Normal (JStr "processing") ->
  poll_body t c d s
  = if (maxPollTime <=? totalPollTime (accumulate c))%Z
    then await t (PollStop (accumulate c)) (fetch (PostStop (pdfId c)) s)
    else schedule (pollInterval c) (advance c) s.
Proof. intros Hc Hs. unfold poll_body. rewrite Hc, Hs. reflexivity. Qed.

Lemma step_fire s h d0 c :
  timers s !! h = Some (d0, c) -> is_current c s = true ->
  step s (Fire h)
  = suspend (PollFetch c) (fetch (GetResults (pdfId c)) (with_timers (delete h) s)).
Proof.
  intros Hh Hc. unfold step. rewrite Hh. unfold pollForResults.
  assert (is_current c (with_timers (delete h) s) = true) as -> by exact Hc.
  reflexivity.
Qed.

Lemma step_answered s t c r :
  tasks s !! t = Some (PollFetch c) -> ok r = true ->
  step s (Settle t (GotResponse r)) = await t (PollBody c) (with_tasks (delete t) s).
Proof. intros Ht Hok. unfold step. rewrite Ht. simpl. now rewrite Hok. Qed.

Lemma step_processing s t c d :
  tasks s !! t = Some (PollBody c) -> is_current c s = true ->
  get d "status" = Normal (JStr "processing") ->
  step s (Settle t (GotJson d))
  = if (maxPollTime <=? totalPollTime (accumulate c))%Z
    then await t (PollStop (accumulate c))
           (fetch (PostStop (pdfId c)) (with_tasks (delete t) s))
    else schedule (pollInterval c) (advance c) (with_tasks (delete t) s).
Proof.
  intros Ht Hc Hs. unfold step. rewrite Ht. simpl resume. simpl default.
  now rewrite poll_body_processing.
Qed.

Lemma round_processing r d s h d0 c :
  wf s -> timers s !! h = Some (d0, c) -> is_current c s = true ->
  answers_processing r d -> under_budget c = true ->
  run s (poll_round r d h (nextTask s)) = polled 1 s h c.
Proof.
  intros W Hh Hc [Hok Hst] Hb.
  change (run s (poll_round r d h (nextTask s)))
    with (step (step (step s (Fire h)) (Settle (nextTask s) (GotResponse r)))
               (Settle (nextTask s) (GotJson d))).
  rewrite (step_fire s h d0 c Hh Hc).
  rewrite (step_answered _ (nextTask s) c r); [|apply lookup_insert_eq|exact Hok].
  rewrite (step_processing _ (nextTask s) c d); [|apply lookup_insert_eq|exact Hc|exact Hst].
  unfold under_budget in Hb. apply negb_true_iff in Hb. rewrite Hb.
  apply state_eq; try reflexivity.
  cbn -[delete insert].
  rewrite delete_insert_eq, delete_insert_eq, delete_delete_eq.
  apply delete_id. apply (wf_tasks s W). lia.
Qed.

Lemma polled_step n s h d0 c :
  wf s -> timers s !! h = Some (d0, c) ->
  polled n (polled 1 s h c) (nextTimer s) (advance c) = polled (S n) s h c.
Proof.
  intros W Hh. destruct n as [|m]; [reflexivity|].
  assert (forall (A : Type) (f : A -> A) k x, Nat.iter k f (f x) = Nat.iter (S k) f x)
    as shift by (intros; symmetry; apply Nat.iter_succ_r).
  apply state_eq; cbn -[delete insert Nat.iter replicate];
    change (Nat.iter 1 Pos.succ (nextTimer s)) with (Pos.succ (nextTimer s));
    change (Nat.iter 0 Pos.succ (nextTimer s)) with (nextTimer s);
    rewrite ?shift; try reflexivity.
  - rewrite delete_insert_eq.
    rewrite (delete_id (delete h (timers s)) (nextTimer s)); [reflexivity|].
    rewrite lookup_delete_ne.
    + apply (wf_timers s W). lia.
    + intros ->. rewrite (wf_timers s W (nextTimer s)) in Hh by lia. discriminate.
  - lia.
  - rewrite app_assoc, <- replicate_add. do 2 f_equal. lia.
Qed.

Lemma polled_timer n s h d0 c :
  timers s !! h = Some (d0, c) ->
  exists h' d', timers (polled n s h c) !! h' = Some (d', Nat.iter n advance c)
                /\ h' = match n with 0 => h | S m => Nat.iter m Pos.succ (nextTimer s) end
                /\ d' = match n with 0 => d0 | S m => pollInterval (Nat.iter m advance c) end.
Proof.
  intros Hh. destruct n as [|m]; simpl.
  - eauto.
  - eexists _, _. split; [apply lookup_insert_eq|]. auto.
Qed.

(** [n] polls answered "processing", none of which exhausts the budget. *)
Lemma rounds_processing r d n : forall s h d0 c,
  wf s -> timers s !! h = Some (d0, c) -> is_current c s = true ->
  answers_processing r d ->
  (forall k, k < n -> under_budget (Nat.iter k advance c) = true) ->
  run s (poll_rounds r d n h (nextTimer s) (nextTask s)) = polled n s h c.
Proof.
  induction n as [|n IH]; intros s h d0 c W Hh Hc Ha Hb; [reflexivity|].
  change (poll_rounds r d (S n) h (nextTimer s) (nextTask s))
    with (poll_round r d h (nextTask s)
          ++ poll_rounds r d n (nextTimer s) (Pos.succ (nextTimer s)) (S (nextTask s)))%list.
  rewrite run_app.
  rewrite (round_processing r d s h d0 c W Hh Hc Ha (Hb 0 ltac:(lia))).
  assert (wf (polled 1 s h c)) as W1.
  { rewrite <- (round_processing r d s h d0 c W Hh Hc Ha (Hb 0 ltac:(lia))).
    now apply wf_run. }
  change (Pos.succ (nextTimer s)) with (nextTimer (polled 1 s h c)).
  change (S (nextTask s)) with (nextTask (polled 1 s h c)).
  rewrite (IH (polled 1 s h c) (nextTimer s) (pollInterval c) (advance c)).
  - now apply (polled_step n s h d0 c).
  - exact W1.
  - simpl. apply lookup_insert_eq.
  - exact Hc.
  - exact Ha.
  - intros k Hk. rewrite <- Nat.iter_succ_r. apply Hb. lia.
Qed.
Lemma poll_rounds_snoc r d n : forall h next t,
  poll_rounds r d (S n) h next t
  = (poll_rounds r d n h next t
     ++ poll_round r d (match n with 0 => h | S m => Nat.iter m Pos.succ next end)
          (n + t))%list.
Proof.
  induction n as [|n IH]; intros h next t.
  - reflexivity.
  - change (poll_rounds r d (S (S n)) h next t)
      with (poll_round r d h t ++ poll_rounds r d (S n) next (Pos.succ next) (S t))%list.
    rewrite IH.
    change (poll_rounds r d (S n) h next t)
      with (poll_round r d h t ++ poll_rounds r d n next (Pos.succ next) (S t))%list.
    rewrite <- app_assoc. do 2 f_equal.
    replace (n + S t) with (S n + t) by lia. f_equal.
    destruct n as [|m]; [reflexivity|]. symmetry. apply Nat.iter_succ_r.
Qed.

Lemma interval_grows c :
  pollInterval (advance c) = (pollInterval c * 3 / 2)%Z.
Proof. reflexivity. Qed.

Lemma interval_increases c :
  (2 <= pollInterval c)%Z -> (pollInterval c < pollInterval (advance c))%Z.
Proof.
  intros H. rewrite interval_grows.
  pose proof (Z.div_mod (pollInterval c * 3) 2 ltac:(lia)).
  pose proof (Z.mod_pos_bound (pollInterval c * 3) 2 ltac:(lia)). lia.
Qed.

Lemma intervals_increase c n :
  (2 <= pollInterval c)%Z ->
  (2 <= pollInterval (Nat.iter n advance c))%Z
  /\ (pollInterval (Nat.iter n advance c) < pollInterval (Nat.iter (S n) advance c))%Z.
Proof.
  intros H.
  assert (2 <= pollInterval (Nat.iter n advance c))%Z as Hn.
  { induction n as [|n IH]; [exact H|].
    change (Nat.iter (S n) advance c) with (advance (Nat.iter n advance c)).
    pose proof (interval_increases _ IH). lia. }
  split; [exact Hn|]. now apply interval_increases.
Qed.

(** The poll whose "processing" answer exhausts the budget, and the
    settlement of the cancellation request it sends. *)
Lemma timeout_round r d stop s h d0 c :
  wf s -> timers s !! h = Some (d0, c) -> is_current c s = true ->
  answers_processing r d -> under_budget c = false ->
  (exists e, stop = Rejected e) \/ (exists r', stop = GotResponse r') ->
  let s1 := run s (poll_round r d h (nextTask s)) in
  let s' := step s1 (Settle (nextTask s) stop) in
  (requests s1 = PostStop (pdfId c) :: GetResults (pdfId c) :: requests s
   /\ tasks s1 !! nextTask s = Some (PollStop (accumulate c))
   /\ view s1 = view s
   /\ timers s1 = delete h (timers s))
  /\ error (view s') = JStr timeout_message
  /\ isAnalyzing (view s') = false
  /\ pollTimeoutRef s' = None
  /\ currentPdfIdRef s' = None
  /\ timers s' = match pollTimeoutRef s with
                 | Some h' => delete h' (delete h (timers s))
                 | None => delete h (timers s)
                 end
  /\ tasks s' = tasks s
  /\ requests s' = requests s1.
Proof.
  intros W Hh Hc [Hok Hst] Hb Hstop s1 s'.
  assert (s1 = await (nextTask s) (PollStop (accumulate c))
                 (fetch (PostStop (pdfId c))
                    (with_tasks (delete (nextTask s))
                       (await (nextTask s) (PollBody c)
                          (with_tasks (delete (nextTask s))
                             (suspend (PollFetch c)
                                (fetch (GetResults (pdfId c))
                                   (with_timers (delete h) s)))))))) as E1.
  { subst s1.
    change (run s (poll_round r d h (nextTask s)))
      with (step (step (step s (Fire h)) (Settle (nextTask s) (GotResponse r)))
                 (Settle (nextTask s) (GotJson d))).
    rewrite (step_fire s h d0 c Hh Hc).
    rewrite (step_answered _ (nextTask s) c r); [|apply lookup_insert_eq|exact Hok].
    rewrite (step_processing _ (nextTask s) c d);
      [|apply lookup_insert_eq|exact Hc|exact Hst].
    unfold under_budget in Hb. apply negb_false_iff in Hb. now rewrite Hb. }
  assert (tasks s1 !! nextTask s = Some (PollStop (accumulate c))) as Hk
    by (rewrite E1; apply lookup_insert_eq).
  split.
  { rewrite E1. repeat split; try reflexivity. apply lookup_insert_eq. }
  assert (s' = poll_catch (accumulate c) "Processing timeout. Please try again later."
                 (with_tasks (delete (nextTask s)) s1)) as E2.
  { subst s'. unfold step. rewrite Hk.
    destruct Hstop as [(e & ->) | (r' & ->)]; reflexivity. }
  rewrite E2. unfold poll_catch.
  assert (is_current (accumulate c) (with_tasks (delete (nextTask s)) s1) = true) as ->.
  { rewrite E1. exact Hc. }
  simpl negb. cbv iota.
  set (s2 := setIsAnalyzing false _).
  rewrite clearPolling_view, clearPolling_timers.
  destruct (clearPolling_refs s2) as [-> ->].
  destruct (clearPolling_rest s2) as (-> & _ & _ & ->).
  subst s2. rewrite E1. cbn -[delete insert].
  repeat split; try reflexivity.
  repeat (rewrite delete_insert_eq || rewrite delete_delete_eq).
  apply delete_id. apply (wf_tasks s W). lia.
Qed.

Lemma uploaded_reachable : reachable uploaded.
Proof. eexists. reflexivity. Qed.

Lemma starting_budget n id k :
  k < 11 -> under_budget (Nat.iter k advance (starting n id)) = true.
Proof. intros H. do 11 (destruct k as [|k]; [reflexivity|]). lia. Qed.

(** C2, as amended.  A session that starts with the initial interval and
    total, polled by a server that always answers "processing", makes
    exactly twelve polls.  At each answer the total grows by the current
    value of [pollInterval]; at the twelfth it stands at 15449539, which
    has reached [maxPollTime]: the cancellation request is sent and the
    view is still untouched.  However that request settles (rejected or
    answered), the timeout error is reported, analyzing ends, the handle
    ref and the marker are [null], no timeout of the session is pending,
    no call is suspended and no further request is sent. *)
Theorem always_processing_times_out (s : State) (h : positive) (d0 : Z) (n : nat)
    (id : Ident) (r : Response) (d : JsVal) (stop : Settled) :
  reachable s ->
  timers s !! h = Some (d0, starting n id) ->
  is_current (starting n id) s = true ->
  answers_processing r d ->
  (exists e, stop = Rejected e) \/ (exists r', stop = GotResponse r') ->
  let s12 := run s (poll_rounds r d 12 h (nextTimer s) (nextTask s)) in
  let s' := step s12 (Settle (11 + nextTask s) stop) in
  (requests s12 = (PostStop id :: replicate 12 (GetResults id) ++ requests s)%list
   /\ (exists c, tasks s12 !! (11 + nextTask s) = Some (PollStop c)
                 /\ totalPollTime c = 15449539%Z
                 /\ (maxPollTime <= totalPollTime c)%Z)
   /\ view s12 = view s)
  /\ error (view s') = JStr timeout_message
  /\ isAnalyzing (view s') = false
  /\ pollTimeoutRef s' = None
  /\ currentPdfIdRef s' = None
  /\ timers s' = delete h (timers s)
  /\ tasks s' = tasks s
  /\ requests s' = requests s12.
Proof.
  intros Hreach Hh Hc Ha Hstop s12 s'.
  pose proof (reachable_wf s Hreach) as W.
  set (c := starting n id) in *.
  pose proof (rounds_processing r d 11 s h d0 c W Hh Hc Ha (starting_budget n id)) as E11.
  assert (wf (polled 11 s h c)) as W11 by (rewrite <- E11; now apply wf_run).
  set (h11 := Nat.iter 10 Pos.succ (nextTimer s)).
  assert (s12 = run (polled 11 s h c) (poll_round r d h11 (nextTask (polled 11 s h c))))
    as E12.
  { subst s12. rewrite (poll_rounds_snoc r d 11), run_app, E11. reflexivity. }
  assert (timers (polled 11 s h c) !! h11
          = Some (pollInterval (Nat.iter 10 advance c), Nat.iter 11 advance c)) as Hh11
    by apply lookup_insert_eq.
  destruct (timeout_round r d stop (polled 11 s h c) h11 _ _ W11 Hh11 Hc Ha eq_refl Hstop)
    as ((R1 & R2 & R3 & R4) & R5 & R6 & R7 & R8 & R9 & R10 & R11).
  rewrite <- E12 in R1, R2, R3, R4, R5, R6, R7, R8, R9, R10, R11.
  change (nextTask (polled 11 s h c)) with (11 + nextTask s) in *.
  fold s' in R5, R6, R7, R8, R9, R10, R11.
  split; [split; [|split]|].
  - rewrite R1. reflexivity.
  - eexists. split; [exact R2|]. split; [reflexivity | discriminate].
  - exact R3.
  - repeat split; try assumption.
    rewrite R9. cbn -[delete insert Nat.iter]. fold h11.
    rewrite delete_delete_eq, delete_insert_eq.
    apply delete_id. rewrite lookup_delete_ne.
    + apply (wf_timers s W). unfold h11. simpl. lia.
    + intros ->. rewrite (wf_timers s W h11) in Hh; [discriminate|].
      unfold h11. simpl. lia.
Qed.

(** C3, as amended.  After each "processing" answer that leaves the total
    under the budget, the next poll is scheduled after the interval
    current at that answer, and the interval is then replaced by
    [Math.floor(interval * 1.5)] for the following round; the new interval
    is strictly larger when intervals are at least 2 ms (as they are from
    60000 on).  So each delay is the previous one times 1.5, rounded
    down. *)
Theorem backoff_schedule (s : State) (h : positive) (d0 : Z) (c : Session)
    (r : Response) (d : JsVal) (n : nat) :
  reachable s ->
  timers s !! h = Some (d0, c) ->
  is_current c s = true ->
  answers_processing r d ->
  (forall k, k <= n -> under_budget (Nat.iter k advance c) = true) ->
  let s' := run s (poll_rounds r d (S n) h (nextTimer s) (nextTask s)) in
  exists h' delay c',
    pollTimeoutRef s' = Some h'
    /\ timers s' !! h' = Some (delay, c')
    /\ delay = pollInterval (Nat.iter n advance c)
    /\ c' = Nat.iter (S n) advance c
    /\ pollInterval c' = Qfloor (inject_Z delay * backoffMultiplier)
    /\ pollInterval c' = (delay * 3 / 2)%Z
    /\ ((2 <= pollInterval c)%Z -> (delay < pollInterval c')%Z)
    /\ view s' = view s.
Proof.
  intros Hreach Hh Hc Ha Hb s'.
  pose proof (reachable_wf s Hreach) as W.
  assert (s' = polled (S n) s h c) as ->.
  { subst s'. apply (rounds_processing r d (S n) s h d0 c W Hh Hc Ha).
    intros k Hk. apply Hb. lia. }
  eexists _, _, _. split; [reflexivity|]. split; [apply lookup_insert_eq|].
  split; [reflexivity|]. split; [reflexivity|]. split; [reflexivity|].
  split; [reflexivity|]. split; [|reflexivity].
  intros H2. now apply intervals_increase.
Qed.

End BackoffFacts.

(** ** Concrete runs *)

Section ScenarioFacts.
Import Upload.



Lemma never_delivers_cons id s e rest :
  ~ delivers s e id -> never_delivers id (step s e) rest -> never_delivers id s (e :: rest).
Proof. intros H1 H2. split; assumption. Qed.

Lemma inert_by_parts s s' :
  view s' = view s -> pollTimeoutRef s' = pollTimeoutRef s ->
  currentPdfIdRef s' = currentPdfIdRef s -> timers s' ⊆ timers s ->
  requests s' = requests s -> inert s s'.
Proof. unfold inert. auto. Qed.

Ltac no_delivery :=
  repeat (apply never_delivers_cons;
          [ unfold delivers, created, first_result; cbv beta iota;
            try (intros H; exact H) |]);
  try exact I.


Ltac vm := vm_compute; reflexivity.

Lemma reachable_first_poll_in_flight : reachable first_poll_in_flight.
Proof. apply reachable_run, uploaded_reachable. Qed.

Lemma reachable_first_poll_answered : reachable first_poll_answered.
Proof. apply reachable_run, reachable_first_poll_in_flight. Qed.

Lemma reachable_both_uploading : reachable both_uploading.
Proof. eexists. reflexivity. Qed.

Lemma not_inert_results s s' :
  showResults (view s) = false -> showResults (view s') = true -> ~ inert s s'.
Proof. intros H1 H2 (Hv & _). rewrite Hv, H1 in H2. discriminate H2. Qed.




Lemma always_processing_times_out_witness :
  reachable uploaded
  /\ timers uploaded !! 1%positive = Some (initialPollInterval, starting 0 (job 7))
  /\ is_current (starting 0 (job 7)) uploaded = true
  /\ answers_processing ok200 still_processing
  /\ error (view (step (run uploaded
                          (poll_rounds ok200 still_processing 12 1%positive
                             (nextTimer uploaded) (nextTask uploaded)))
                       (Settle (11 + nextTask uploaded) (Rejected "Failed to fetch"))))
     = JStr timeout_message.
Proof.
  assert (timers uploaded !! 1%positive = Some (initialPollInterval, starting 0 (job 7)))
    as H1 by vm.
  assert (is_current (starting 0 (job 7)) uploaded = true) as H2 by vm.
  assert (answers_processing ok200 still_processing) as H3 by (split; reflexivity).
  split; [exact uploaded_reachable|]. split; [exact H1|]. split; [exact H2|].
  split; [exact H3|].
  pose proof (always_processing_times_out uploaded 1%positive initialPollInterval 0
                (job 7) ok200 still_processing (Rejected "Failed to fetch")
                uploaded_reachable H1 H2 H3
                (or_introl (ex_intro _ "Failed to fetch" eq_refl))) as H.
  cbv zeta in H. destruct H as (_ & He & _). exact He.
Defined.

(** C2 as stated fails on how the total is kept.  After two "processing"
    answers the time waited is 120000 ms (two delays of 60000) while the
    total stands at 150000; and the twelfth answer exhausts the budget
    when 10319694 ms have been waited, less than the 10800000 allowed. *)
Lemma total_is_not_the_time_waited :
  waited uploaded (poll_rounds ok200 still_processing 2 1%positive 2%positive 1) = 120000%Z
  /\ (exists c, timers (run uploaded
                          (poll_rounds ok200 still_processing 2 1%positive 2%positive 1))
                !! 3%positive = Some (90000%Z, c)
                /\ totalPollTime c = 150000%Z)
  /\ waited uploaded (poll_rounds ok200 still_processing 12 1%positive 2%positive 1)
     = 10319694%Z
  /\ (10319694 < maxPollTime)%Z
  /\ (exists c, tasks (run uploaded
                          (poll_rounds ok200 still_processing 12 1%positive 2%positive 1))
                !! 12 = Some (PollStop c)
                /\ totalPollTime c = 15449539%Z).
Proof.
  split; [vm|]. split; [eexists; split; [vm | reflexivity]|].
  split; [vm|]. split; [reflexivity|].
  eexists; split; [vm | reflexivity].
Qed.

Lemma backoff_schedule_witness :
  reachable uploaded
  /\ timers uploaded !! 1%positive = Some (initialPollInterval, starting 0 (job 7))
  /\ is_current (starting 0 (job 7)) uploaded = true
  /\ answers_processing ok200 still_processing
  /\ exists h' c',
       timers (run uploaded
                 (poll_rounds ok200 still_processing 6 1%positive
                    (nextTimer uploaded) (nextTask uploaded))) !! h'
       = Some (455625%Z, c')
       /\ pollInterval c' = 683437%Z.
Proof.
  assert (timers uploaded !! 1%positive = Some (initialPollInterval, starting 0 (job 7)))
    as H1 by vm.
  assert (is_current (starting 0 (job 7)) uploaded = true) as H2 by vm.
  assert (answers_processing ok200 still_processing) as H3 by (split; reflexivity).
  split; [exact uploaded_reachable|]. split; [exact H1|]. split; [exact H2|].
  split; [exact H3|].
  pose proof (backoff_schedule uploaded 1%positive initialPollInterval
                (starting 0 (job 7)) ok200 still_processing 5
                uploaded_reachable H1 H2 H3
                (fun k Hk => starting_budget 0 (job 7) k ltac:(lia))) as H.
  cbv zeta in H. destruct H as (h' & delay & c' & _ & Ht & Hd & _ & _ & Hi & _).
  assert (delay = 455625%Z) as E by (rewrite Hd; reflexivity).
  rewrite E in Ht, Hi. exists h', c'. split; [exact Ht | rewrite Hi; reflexivity].
Defined.

(** C3 as stated fails on the factor: after the sixth "processing" answer
    the poll is scheduled 455625 ms ahead, after the seventh 683437 ms
    ahead, which is not 1.5 times 455625 but that product rounded down. *)
Lemma seventh_delay_is_rounded_down :
  (exists c, timers (run uploaded
                       (poll_rounds ok200 still_processing 6 1%positive 2%positive 1))
             !! 7%positive = Some (455625%Z, c))
  /\ (exists c, timers (run uploaded
                          (poll_rounds ok200 still_processing 7 1%positive 2%positive 1))
                !! 8%positive = Some (683437%Z, c))
  /\ ~ (inject_Z 683437 == inject_Z 455625 * backoffMultiplier)%Q.
Proof.
  split; [eexists; vm|]. split; [eexists; vm|].
  unfold Qeq. simpl. discriminate.
Qed.

(** The upload path keeps no lockout: after a 429 answer whose error text
    says "5 minutes" the message is shown, and the next drop is uploaded at
    once. *)
Lemma upload_429_sets_no_lockout :
  error (view (run uploading [Settle 0 (GotResponse too_many_uploads);
                              Settle 0 (GotJson locked_5)]))
  = JStr "Too many failed attempts. Please try again in 5 minutes."
  /\ requests (run uploading [Settle 0 (GotResponse too_many_uploads);
                              Settle 0 (GotJson locked_5);
                              Drop [other_statement]])
     = [PostUpload other_statement; PostUpload statement].
Proof. split; vm. Qed.

End ScenarioFacts.

Section PasscodeUseFacts.
Import Passcode.

Lemma join_cells (l : list ascii) (m : nat) :
  join (map cell_of l ++ replicate m (Some ""))%list = string_of_list_ascii l.
Proof.
  induction l as [|c l IH]; simpl.
  - induction m as [|m IHm]; simpl; [reflexivity|].
    unfold join in *. simpl. rewrite IHm. apply append_nil.
  - unfold join in *. simpl. rewrite IH. reflexivity.
Qed.

Lemma filled_cells (l : list ascii) : forallb filled (map cell_of l) = true.
Proof. induction l; simpl; auto. Qed.

Lemma length_string_of_list (l : list ascii) :
  String.length (string_of_list_ascii l) = List.length l.
Proof. induction l; simpl; auto. Qed.

Lemma typing_from (n : nat) (rest : list ascii) : forall done : list ascii,
  n = List.length done + List.length rest ->
  forallb is_digit rest = true ->
  interact n (map cell_of done ++ replicate (List.length rest) (Some ""))%list
    (typing (List.length done) rest)
  = (map cell_of (done ++ rest)%list,
     match rest with
     | [] => []
     | _ :: _ => [string_of_list_ascii (done ++ rest)%list]
     end).
Proof.
  induction rest as [|c rest IH]; intros done Hn Hd.
  - simpl. rewrite !app_nil_r. reflexivity.
  - simpl in Hd. apply andb_prop in Hd as [Hc Hd].
    cbn [typing]. rewrite interact_cons.
    assert (handle n false
              (map cell_of done ++ replicate (List.length (c :: rest)) (Some ""))%list
              (Change (List.length done) (String c ""))
            = ((map cell_of (done ++ [c]) ++ replicate (List.length rest) (Some ""))%list,
               match rest with
               | [] => Some (string_of_list_ascii (done ++ [c])%list)
               | _ :: _ => None
               end)) as Hstep.
    { cbn [handle]. unfold handleChange.
      assert (one_digit (String c "") = true) as -> by exact Hc.
      cbn [negb andb].
      change (negb (String.eqb (String c "") "") && false) with false. cbv iota.
      assert (array_set (List.length done) (String c "")
                (map cell_of done ++ replicate (List.length (c :: rest)) (Some ""))%list
              = (map cell_of (done ++ [c]) ++ replicate (List.length rest) (Some ""))%list)
        as ->.
      { unfold array_set. rewrite decide_True.
        - rewrite insert_app_r_alt by (rewrite length_map; lia).
          rewrite length_map, Nat.sub_diag. simpl.
          rewrite map_app. simpl. rewrite <- app_assoc. reflexivity.
        - rewrite length_app, length_map, length_replicate. simpl. lia. }
      rewrite join_cells, length_string_of_list, forallb_app, filled_cells.
      destruct rest as [|c' rest].
      + simpl. rewrite length_app. simpl.
        assert ((List.length done + 1 =? n)%nat = true) as ->
          by (apply Nat.eqb_eq; simpl in Hn; lia).
        reflexivity.
      + reflexivity. }
    rewrite Hstep. cbn [fst snd].
    replace (S (List.length done)) with (List.length (done ++ [c])%list)
      by (rewrite length_app; simpl; lia).
    rewrite (IH (done ++ [c])%list);
      [| rewrite length_app; simpl in *; lia | exact Hd].
    rewrite <- app_assoc. cbn [app fst snd].
    destruct rest; reflexivity.
Qed.

Lemma length_ascii_list (code : string) :
  List.length (list_ascii_of_string code) = String.length code.
Proof. induction code; simpl; auto. Qed.

Lemma all_digits_forallb (code : string) :
  all_digits code = forallb is_digit (list_ascii_of_string code).
Proof. induction code; simpl; congruence. Qed.

(** X1.  Typing a code of [length] decimal digits into a fresh component,
    one digit per input from left to right, fills the cells with those
    digits and calls [onComplete] exactly once, with the code, when the
    last digit is typed. *)
Theorem typing_a_code_completes_once (code : string) :
  code <> "" ->
  all_digits code = true ->
  interact (String.length code) (initial (String.length code))
    (typing 0 (list_ascii_of_string code))
  = (split code, [code]).
Proof.
  intros Hne Hd.
  pose proof (typing_from (String.length code) (list_ascii_of_string code) []) as H.
  cbn [List.length map app Nat.add] in H.
  rewrite length_ascii_list in H.
  unfold initial. rewrite H; [| reflexivity | now rewrite <- all_digits_forallb].
  unfold split. f_equal.
  destruct code as [|c code]; [congruence|].
  cbn [list_ascii_of_string]. f_equal.
  exact (string_of_list_ascii_of_string (String c code)).
Qed.

Lemma typing_a_code_completes_once_witness :
  interact 6 (initial 6) (typing 0 (list_ascii_of_string "471108"))
  = (split "471108", ["471108"]).
Proof.
  exact (typing_a_code_completes_once "471108" ltac:(discriminate) eq_refl).
Defined.

(** X2.  A digit typed into an empty cell is taken back by Backspace in
    that cell: the cells are as they were before the digit, and Backspace
    never calls [onComplete]. *)
Theorem backspace_undoes_a_digit (length : nat) (values : Cells) (index : nat)
    (d : string) :
  values !! index = Some (Some "") ->
  one_digit d = true ->
  handleKeyDown false (fst (handleChange length false values index d)) index "Backspace"
  = (values, None).
Proof.
  intros Hcell Hd.
  assert (index < List.length values) as Hi by (eapply lookup_lt_Some, Hcell).
  destruct (one_digit_inv d Hd) as (c & -> & Hc).
  assert (fst (handleChange length false values index (String c ""))
          = <[index := Some (String c "")]> values) as ->.
  { unfold handleChange. rewrite Hd. cbn [negb andb].
    change (negb (String.eqb (String c "") "") && false) with false. cbv iota.
    rewrite array_set_in_range by exact Hi.
    destruct (_ && _); reflexivity. }
  unfold handleKeyDown.
  change (String.eqb "Backspace" "Backspace") with true. cbv iota.
  assert (holds_text (<[index := Some (String c "")]> values) index = true) as ->.
  { unfold holds_text. rewrite list_lookup_insert_eq by exact Hi. reflexivity. }
  rewrite array_set_in_range by (rewrite length_insert; exact Hi).
  rewrite list_insert_insert_eq. rewrite list_insert_id by exact Hcell. reflexivity.
Qed.

Lemma backspace_undoes_a_digit_witness :
  handleKeyDown false
    (fst (handleChange 4 false [Some "1"; Some ""; Some ""; Some ""] 1 "9")) 1 "Backspace"
  = ([Some "1"; Some ""; Some ""; Some ""], None).
Proof.
  exact (backspace_undoes_a_digit 4 [Some "1"; Some ""; Some ""; Some ""] 1 "9"
           eq_refl eq_refl).
Defined.

Lemma split_lookup (p : string) (i : nat) :
  split p !! i = cell_of <$> String.get i p.
Proof.
  revert i. induction p as [|c p IH]; intros [|i]; simpl; try reflexivity.
  apply IH.
Qed.

Lemma get_in_range (p : string) (i : nat) :
  i < String.length p -> exists c, String.get i p = Some c.
Proof.
  revert i. induction p as [|c p IH]; intros [|i] H; simpl in *; try lia; eauto.
  apply IH. lia.
Qed.

Lemma get_Some_lt (p : string) (i : nat) (c : ascii) :
  String.get i p = Some c -> i < String.length p.
Proof.
  revert i. induction p as [|a p IH]; intros [|i] H; simpl in *; try discriminate; try lia.
  apply IH in H. lia.
Qed.

Lemma substring_length_min (n : nat) (s : string) :
  String.length (substring 0 n s) = Nat.min n (String.length s).
Proof.
  revert n. induction s as [|c s IH]; intros [|n]; simpl; try reflexivity.
  now rewrite IH.
Qed.

(** X3.  An accepted paste replaces the whole array, whatever it held: the
    digits of the clipboard text, cut to [length] characters, fill the
    cells from the left, the cells after them are emptied, joining the
    cells gives the pasted digits back, and [onComplete] is called (with
    them) exactly when the clipboard held at least [length] characters. *)
Theorem paste_fills_from_the_left (length : nat) (values : Cells) (text : string) :
  let pastedData := substring 0 length text in
  digits_only pastedData = true ->
  let cells := fst (handlePaste length false values text) in
  List.length cells = length
  /\ join cells = pastedData
  /\ (forall i c, String.get i pastedData = Some c -> cells !! i = Some (cell_of c))
  /\ (forall i, String.length pastedData <= i < length -> cells !! i = Some (Some ""))
  /\ (forall others : Cells,
        handlePaste length false others text = handlePaste length false values text)
  /\ (length <= String.length text ->
      snd (handlePaste length false values text) = Some pastedData)
  /\ (String.length text < length -> snd (handlePaste length false values text) = None).
Proof.
  intros p Hp cells.
  assert (String.length p <= length) as Hle by apply substring_length.
  assert (cells = (split p ++ replicate (length - String.length p) (Some ""))%list) as Hc.
  { subst cells. unfold handlePaste. fold p. rewrite Hp. destruct (_ =? _)%nat; reflexivity. }
  split; [|split; [|split; [|split; [|split; [|split]]]]].
  - rewrite Hc, length_app, split_length, length_replicate. lia.
  - rewrite Hc. unfold split.
    change (fun c : ascii => Some (String c "")) with cell_of.
    rewrite join_cells. apply string_of_list_ascii_of_string.
  - intros i c Hg. rewrite Hc.
    assert (i < String.length p) as Hi by (eapply get_Some_lt, Hg).
    rewrite lookup_app_l by (rewrite split_length; exact Hi).
    rewrite split_lookup, Hg. reflexivity.
  - intros i [Hlo Hhi]. rewrite Hc.
    rewrite lookup_app_r by (rewrite split_length; exact Hlo).
    rewrite split_length. apply lookup_replicate_2. lia.
  - intros others. unfold handlePaste. fold p. rewrite Hp. reflexivity.
  - intros Hlen. unfold handlePaste. fold p. rewrite Hp.
    assert ((String.length p =? length)%nat = true) as ->.
    { apply Nat.eqb_eq. unfold p. rewrite substring_length_min. lia. }
    reflexivity.
  - intros Hlen. unfold handlePaste. fold p. rewrite Hp.
    assert ((String.length p =? length)%nat = false) as ->.
    { apply Nat.eqb_neq. unfold p. rewrite substring_length_min. lia. }
    reflexivity.
Qed.

Lemma paste_fills_from_the_left_witness :
  digits_only (substring 0 6 "4711") = true
  /\ fst (handlePaste 6 false (initial 6) "4711")
     = [Some "4"; Some "7"; Some "1"; Some "1"; Some ""; Some ""]
  /\ join (fst (handlePaste 6 false (initial 6) "4711")) = "4711"
  /\ snd (handlePaste 6 false (initial 6) "4711") = None.
Proof.
  assert (digits_only (substring 0 6 "4711") = true) as H by reflexivity.
  split; [exact H|]. split; [reflexivity|].
  destruct (paste_fills_from_the_left 6 (initial 6) "4711" H)
    as (_ & Hj & _ & _ & _ & _ & Hn).
  split; [exact Hj | apply Hn; simpl; lia].
Defined.

End PasscodeUseFacts.

Section LoginUseFacts.
Import Login.

Lemma take_drop_while p s : take_while p s +:+ drop_while p s = s.
Proof.
  induction s as [|c s IH]; simpl; [reflexivity|].
  destruct (p c); [|reflexivity]. rewrite append_cons. now rewrite IH.
Qed.

Lemma take_while_all p s : forall c, In c (list_ascii_of_string (take_while p s)) -> p c = true.
Proof.
  induction s as [|a s IH]; simpl; [contradiction|].
  destruct (p a) eqn:E; simpl; [|contradiction].
  intros c [<-|H]; auto.
Qed.

Lemma take_while_digits s : Passcode.all_digits (take_while Passcode.is_digit s) = true.
Proof.
  induction s as [|a s IH]; simpl; [reflexivity|].
  destruct (Passcode.is_digit a) eqn:E; simpl; [|reflexivity]. now rewrite E.
Qed.

Lemma take_while_spaces s : all_space (take_while is_space s) = true.
Proof.
  induction s as [|a s IH]; simpl; [reflexivity|].
  destruct (is_space a) eqn:E; simpl; [|reflexivity]. now rewrite E.
Qed.

Lemma prefix_split w : forall s, String.prefix w s = true -> exists post, s = w +:+ post.
Proof.
  induction w as [|a w IH]; intros s H.
  - exists s. reflexivity.
  - destruct s as [|b s]; simpl in H; [discriminate|].
    destruct (ascii_dec a b) as [<-|]; [|discriminate].
    destruct (IH s H) as (post & ->). exists post. reflexivity.
Qed.

Lemma append_assoc (a b c : string) : (a +:+ b) +:+ c = a +:+ (b +:+ c).
Proof. induction a as [|x a IH]; [reflexivity|]. rewrite !append_cons. now rewrite IH. Qed.

Lemma length_append (a b : string) :
  String.length (a +:+ b) = String.length a + String.length b.
Proof. induction a as [|x a IH]; [reflexivity|]. rewrite append_cons. simpl. now rewrite IH. Qed.

Lemma match_here_sound word s digits :
  match_here word s = Some digits ->
  digits <> "" /\ Passcode.all_digits digits = true
  /\ exists spaces post,
       s = digits +:+ spaces +:+ word +:+ post
       /\ spaces <> "" /\ all_space spaces = true.
Proof.
  unfold match_here.
  set (ds := take_while Passcode.is_digit s).
  set (after_digits := drop_while Passcode.is_digit s).
  set (after_spaces := drop_while is_space after_digits).
  destruct (negb (String.eqb ds "")) eqn:E1; [|discriminate].
  destruct (String.length after_spaces <? String.length after_digits)%nat eqn:E2;
    [|discriminate].
  destruct (String.prefix word after_spaces) eqn:E3; [|discriminate].
  simpl. intros H. inversion H. subst digits. clear H.
  split.
  { intros Hd. rewrite Hd in E1. discriminate. }
  split; [apply take_while_digits|].
  destruct (prefix_split _ _ E3) as (post & Hpost).
  exists (take_while is_space after_digits), post.
  split; [|split].
  - rewrite <- Hpost. unfold after_spaces. rewrite take_drop_while.
    unfold ds, after_digits. now rewrite take_drop_while.
  - intros Hs. apply Nat.ltb_lt in E2.
    pose proof (take_drop_while is_space after_digits) as Ht.
    rewrite Hs, append_nil in Ht. fold after_spaces in Ht. rewrite Ht in E2. lia.
  - apply take_while_spaces.
Qed.

Lemma parseInt_step (l : list ascii) : forall acc : Z,
  (0 <= acc)%Z -> forallb Passcode.is_digit l = true ->
  (0 <= fold_left (fun acc c => acc * 10 + (Z.of_nat (nat_of_ascii c) - 48)) l acc)%Z.
Proof.
  induction l as [|c l IH]; intros acc Hacc Hd; simpl; [exact Hacc|].
  simpl in Hd. apply andb_prop in Hd as [Hc Hd].
  apply IH; [|exact Hd].
  unfold Passcode.is_digit in Hc. apply andb_prop in Hc as [Hlo Hhi].
  apply Nat.leb_le in Hlo. lia.
Qed.

Lemma all_digits_list (s : string) :
  Passcode.all_digits s = forallb Passcode.is_digit (list_ascii_of_string s).
Proof. induction s; simpl; congruence. Qed.

Lemma parseInt_nonneg digits : Passcode.all_digits digits = true -> (0 <= parseInt digits)%Z.
Proof.
  intros H. unfold parseInt. apply parseInt_step; [lia|]. now rewrite <- all_digits_list.
Qed.



Lemma uint_digits d : Passcode.all_digits (NilEmpty.string_of_uint d) = true.
Proof. induction d; simpl; auto. Qed.

Lemma decimal_digits n : Passcode.all_digits (decimal n) = true.
Proof.
  unfold decimal, NilZero.string_of_uint.
  destruct (N.to_uint n); try reflexivity; apply (uint_digits (_ _)).
Qed.

Lemma decimal_not_empty n : decimal n <> "".
Proof.
  unfold decimal, NilZero.string_of_uint. destruct (N.to_uint n); discriminate.
Qed.

Lemma parse_uint_acc d : forall acc : positive,
  fold_left (fun acc c => acc * 10 + (Z.of_nat (nat_of_ascii c) - 48))%Z
    (list_ascii_of_string (NilEmpty.string_of_uint d)) (Z.pos acc)
  = Z.pos (Pos.of_uint_acc d acc).
Proof.
  induction d; intros acc; cbn [NilEmpty.string_of_uint list_ascii_of_string fold_left
                                Pos.of_uint_acc];
    [reflexivity | rewrite <- IHd; f_equal; vm_compute nat_of_ascii; lia ..].
Qed.

Lemma parse_uint d :
  fold_left (fun acc c => acc * 10 + (Z.of_nat (nat_of_ascii c) - 48))%Z
    (list_ascii_of_string (NilEmpty.string_of_uint d)) 0%Z
  = Z.of_N (Pos.of_uint d).
Proof.
  induction d; cbn [NilEmpty.string_of_uint list_ascii_of_string fold_left Pos.of_uint];
    [reflexivity | exact IHd | apply (parse_uint_acc d) ..].
Qed.

(** [parseInt] reads back the decimal rendering of a number. *)
Lemma parseInt_decimal n : parseInt (decimal n) = Z.of_N n.
Proof.
  unfold parseInt, decimal, NilZero.string_of_uint.
  rewrite <- (DecimalN.Unsigned.of_to n) at 2. unfold N.of_uint.
  destruct (N.to_uint n) eqn:E; try apply parse_uint. reflexivity.
Qed.

Lemma first_match_skip word pre rest :
  digit_free pre = true -> first_match word (pre +:+ rest) = first_match word rest.
Proof.
  induction pre as [|c pre IH]; intros H; [reflexivity|].
  simpl in H. apply andb_prop in H as [Hc Hpre]. apply negb_true_iff in Hc.
  rewrite append_cons. simpl first_match.
  rewrite (match_here_no_digit word c _ Hc). now apply IH.
Qed.

Lemma take_while_digits_stop ds rest :
  Passcode.all_digits ds = true ->
  take_while Passcode.is_digit (ds +:+ String " " rest) = ds
  /\ drop_while Passcode.is_digit (ds +:+ String " " rest) = String " " rest.
Proof.
  induction ds as [|c ds IH]; intros H.
  - rewrite append_nil. split; reflexivity.
  - simpl in H. apply andb_prop in H as [Hc Hd]. rewrite append_cons. simpl.
    rewrite Hc. destruct (IH Hd) as [-> ->]. split; reflexivity.
Qed.

Lemma prefix_append w post : String.prefix w (w +:+ post) = true.
Proof.
  induction w as [|a w IH]; [destruct post; reflexivity|].
  rewrite append_cons. simpl. destruct (ascii_dec a a); [exact IH | congruence].
Qed.

(** A count announced before a word that does not begin with white space
    is what the expression captures. *)
Lemma match_here_announced ds w0 w post :
  Passcode.all_digits ds = true -> ds <> "" -> is_space w0 = false ->
  match_here (String w0 w) (ds +:+ String " " (String w0 w +:+ post)) = Some ds.
Proof.
  intros Hd Hne Hw. unfold match_here.
  destruct (take_while_digits_stop ds (String w0 w +:+ post) Hd) as [-> ->].
  assert (negb (String.eqb ds "") = true) as ->.
  { apply negb_true_iff, String.eqb_neq, Hne. }
  assert (drop_while is_space (String " " (String w0 w +:+ post)) = String w0 w +:+ post)
    as ->.
  { rewrite append_cons. simpl. now rewrite Hw. }
  rewrite prefix_append.
  assert ((String.length (String w0 w +:+ post)
           <? String.length (String " " (String w0 w +:+ post)))%nat = true) as ->
    by (apply Nat.ltb_lt; simpl; lia).
  reflexivity.
Qed.

Lemma first_match_here word s digits :
  match_here word s = Some digits -> first_match word s = Some digits.
Proof.
  intros H. destruct s as [|c s]; [discriminate H|].
  simpl first_match. now rewrite H.
Qed.

Lemma first_match_announced n w0 w pre post :
  digit_free pre = true -> is_space w0 = false ->
  first_match (String w0 w) (pre +:+ announced n (String w0 w) +:+ post)
  = Some (decimal n).
Proof.
  intros Hpre Hw. rewrite first_match_skip by exact Hpre.
  unfold announced. rewrite !append_assoc, append_cons, append_nil.
  pose proof (match_here_announced (decimal n) w0 w post (decimal_digits n)
                (decimal_not_empty n) Hw) as Hm.
  now apply first_match_here.
Qed.

Lemma minutes_ceiling (n : Z) : (- (- (n * 60000) / 60000) = n)%Z.
Proof.
  replace (- (n * 60000))%Z with ((- n) * 60000)%Z by lia.
  rewrite Z.div_mul by lia. lia.
Qed.

(** X5.  A 429 answer whose error text announces ["<n> minutes"] (the first
    number in the text) locks the page until [n] minutes after
    [Date.now()], for every [n]: the countdown then reads [n] and the input
    is disabled; for [n = 0] the lockout has expired at once, and the next
    render clears it. *)
Theorem lockout_lasts_the_minutes_announced (n : N) (now : Z) (r : Response)
    (data : JsVal) (pre post : string) (s : State) :
  clock_for n now ->
  status r = 429%N ->
  digit_free pre = true ->
  get data "error" = Normal (JStr (pre +:+ announced n "minutes" +:+ post)) ->
  let s' := fst (respond now r data s) in
  lockoutUntil s' = Some (Valid (now + Z.of_N n * 60000))
  /\ error s' = JStr (pre +:+ announced n "minutes" +:+ post)
  /\ loading s' = false
  /\ (n <> 0%N ->
      getRemainingTime now s' = (RMinutes (Z.of_N n), s') /\ input_disabled now s' = true)
  /\ (n = 0%N ->
      getRemainingTime now s' = (RNull, setLockoutUntil None s')
      /\ input_disabled now s' = false).
Proof.
  intros [Hlo Hhi] H429 Hpre Herr s'.
  assert (first_match "minutes" (pre +:+ announced n "minutes" +:+ post)
          = Some (decimal n)) as Hm by (apply first_match_announced; auto).
  subst s'. rewrite (respond_locks now r data _ _ s H429 Herr Hm).
  rewrite parseInt_decimal. cbn [fst].
  assert (new_Date (now + Z.of_N n * 60 * 1000) = Valid (now + Z.of_N n * 60000)) as ->.
  { unfold new_Date. replace (now + Z.of_N n * 60 * 1000)%Z
      with (now + Z.of_N n * 60000)%Z by lia.
    replace (Z.abs _ <=? _)%Z with true; [reflexivity|].
    symmetry. apply Z.leb_le. lia. }
  split; [reflexivity|]. split; [reflexivity|]. split; [reflexivity|].
  split.
  - intros Hn.
    assert (getRemainingTime now
              (setLoading false (setLoading false
                 (setError (JStr (pre +:+ announced n "minutes" +:+ post))
                    (setLockoutUntil (Some (Valid (now + Z.of_N n * 60000))) s))))
            = (RMinutes (Z.of_N n),
               setLoading false (setLoading false
                 (setError (JStr (pre +:+ announced n "minutes" +:+ post))
                    (setLockoutUntil (Some (Valid (now + Z.of_N n * 60000))) s)))))
      as Hg.
    { unfold getRemainingTime. cbn [lockoutUntil setLoading setError setLockoutUntil].
      replace (now + Z.of_N n * 60000 <=? now)%Z with false
        by (symmetry; apply Z.leb_gt; lia).
      rewrite ceil_minutes.
      replace (now + Z.of_N n * 60000 - now)%Z with (Z.of_N n * 60000)%Z by lia.
      now rewrite minutes_ceiling. }
    split; [exact Hg|].
    unfold input_disabled. rewrite Hg. cbn [fst positive_countdown].
    replace (Z.of_N n =? 0)%Z with false by (symmetry; apply Z.eqb_neq; lia).
    apply orb_true_r.
  - intros ->. unfold input_disabled, getRemainingTime.
    cbn [lockoutUntil setLoading setError setLockoutUntil loading fst positive_countdown].
    replace (now + Z.of_N 0 * 60000 <=? now)%Z with true
      by (symmetry; apply Z.leb_le; lia).
    split; reflexivity.
Qed.

Lemma lockout_lasts_the_minutes_announced_witness :
  clock_for 30 1700000000000
  /\ lockoutUntil
       (fst (respond 1700000000000 too_many_requests
               (JObj [("error", JStr ("Locked: try again in " +:+ announced 30 "minutes" +:+ "."))])
               (submit initial)))
     = Some (Valid (1700000000000 + 30 * 60000)).
Proof.
  assert (clock_for 30 1700000000000) as Hc by (unfold clock_for; lia).
  split; [exact Hc|].
  exact (proj1 (lockout_lasts_the_minutes_announced 30 1700000000000 too_many_requests
                  (JObj [("error", JStr ("Locked: try again in " +:+ announced 30 "minutes" +:+ "."))])
                  "Locked: try again in " "." (submit initial)
                  Hc eq_refl eq_refl eq_refl)).
Defined.

Lemma remaining_valid s limit now :
  lockoutUntil s = Some (Valid limit) -> (now < limit)%Z ->
  getRemainingTime now s = (RMinutes (- (- (limit - now) / 60000)), s).
Proof.
  intros H Hlt. unfold getRemainingTime. rewrite H.
  replace (limit <=? now)%Z with false by (symmetry; apply Z.leb_gt; lia).
  now rewrite ceil_minutes.
Qed.

(** X6.  While a lockout runs, the countdown is the remaining time rounded
    up to whole minutes: it is at least 1, never under-reports the time
    left, over-reports it by less than a minute, never grows as time
    passes, and keeps the input disabled.  Once the clock has reached the
    timestamp the render-time check returns [null] and clears the lockout;
    at any time and in any state it leaves the lockout exactly as the
    once-a-second [checkLockout] does. *)
Theorem countdown_rounds_up (s : State) (now : Z) :
  snd (getRemainingTime now s) = checkLockout now s
  /\ forall limit,
       lockoutUntil s = Some (Valid limit) ->
       ((now < limit)%Z ->
        exists m, getRemainingTime now s = (RMinutes m, s)
                  /\ (1 <= m)%Z
                  /\ (60000 * (m - 1) < limit - now <= 60000 * m)%Z
                  /\ input_disabled now s = true
                  /\ forall later m',
                       (now <= later)%Z ->
                       fst (getRemainingTime later s) = RMinutes m' -> (m' <= m)%Z)
       /\ ((limit <= now)%Z ->
           getRemainingTime now s = (RNull, setLockoutUntil None s)
           /\ input_disabled now s = loading s).
Proof.
  split.
  - unfold getRemainingTime, checkLockout.
    destruct (lockoutUntil s) as [[limit|]|]; try reflexivity.
    destruct (limit <=? now)%Z; reflexivity.
  - intros limit H. split.
    + intros Hlt. exists (- (- (limit - now) / 60000))%Z.
      pose proof (Z.div_mod (- (limit - now)) 60000 ltac:(lia)) as Hdm.
      pose proof (Z.mod_pos_bound (- (limit - now)) 60000 ltac:(lia)) as Hb.
      split; [now apply remaining_valid|]. split; [lia|]. split; [lia|]. split.
      * unfold input_disabled. rewrite (remaining_valid s limit now H Hlt).
        cbn [fst positive_countdown].
        replace (_ =? 0)%Z with false by (symmetry; apply Z.eqb_neq; lia).
        apply orb_true_r.
      * intros later m' Hle Hm'.
        destruct (Z.lt_ge_cases later limit) as [Hl|Hl].
        -- rewrite (remaining_valid s limit later H Hl) in Hm'. cbn [fst] in Hm'.
           inversion Hm'. subst m'.
           assert (- (limit - now) / 60000 <= - (limit - later) / 60000)%Z
             by (apply Z.div_le_mono; lia).
           lia.
        -- unfold getRemainingTime in Hm'. rewrite H in Hm'.
           replace (limit <=? later)%Z with true in Hm'
             by (symmetry; apply Z.leb_le; lia).
           discriminate Hm'.
    + intros Hge. unfold input_disabled, getRemainingTime. rewrite H.
      replace (limit <=? now)%Z with true by (symmetry; apply Z.leb_le; lia).
      split; [reflexivity|]. cbn [fst positive_countdown]. apply orb_false_r.
Qed.

(** X7.  A lockout whose end lies beyond the range of [Date] (an announced
    count of minutes that takes [Date.now()] past 8.64e15 ms) is stored as
    an invalid date: the countdown is [NaN] at every later time, the input
    is not disabled by it, and neither the render-time check nor
    [checkLockout] ever clears it. *)
Theorem lockout_out_of_range_never_clears (n : N) (now : Z) (r : Response)
    (data : JsVal) (pre post : string) (s : State) :
  (0 <= now)%Z ->
  (8640000000000000 < now + Z.of_N n * 60000)%Z ->
  status r = 429%N ->
  digit_free pre = true ->
  get data "error" = Normal (JStr (pre +:+ announced n "minutes" +:+ post)) ->
  let s' := fst (respond now r data s) in
  lockoutUntil s' = Some InvalidDate
  /\ forall later,
       getRemainingTime later s' = (RNaN, s')
       /\ checkLockout later s' = s'
       /\ input_disabled later s' = false.
Proof.
  intros Hlo Hhi H429 Hpre Herr s'.
  assert (first_match "minutes" (pre +:+ announced n "minutes" +:+ post)
          = Some (decimal n)) as Hm by (apply first_match_announced; auto).
  subst s'. rewrite (respond_locks now r data _ _ s H429 Herr Hm).
  rewrite parseInt_decimal. cbn [fst].
  assert (new_Date (now + Z.of_N n * 60 * 1000) = InvalidDate) as ->.
  { unfold new_Date. replace (Z.abs _ <=? _)%Z with false; [reflexivity|].
    symmetry. apply Z.leb_gt. lia. }
  split; [reflexivity|]. intros later. split; [reflexivity|]. split; reflexivity.
Qed.

Lemma lockout_out_of_range_never_clears_witness :
  lockoutUntil
    (fst (respond 1700000000000 too_many_requests
            (JObj [("error", JStr ("Wait " +:+ announced 999999999999 "minutes" +:+ ""))])
            (submit initial)))
  = Some InvalidDate.
Proof.
  exact (proj1 (lockout_out_of_range_never_clears 999999999999 1700000000000
                  too_many_requests
                  (JObj [("error", JStr ("Wait " +:+ announced 999999999999 "minutes" +:+ ""))])
                  "Wait " "" (submit initial)
                  ltac:(lia) ltac:(lia) eq_refl eq_refl eq_refl)).
Defined.

Lemma includes_prefix needle text :
  String.prefix needle text = true -> includes needle text = true.
Proof.
  intros H. destruct text as [|c text].
  - destruct needle; [reflexivity | discriminate H].
  - cbn [includes]. rewrite H. reflexivity.
Qed.

Lemma includes_inside needle pre post :
  includes needle (pre +:+ needle +:+ post) = true.
Proof.
  induction pre as [|c pre IH].
  - rewrite append_nil. apply includes_prefix, prefix_append.
  - rewrite append_cons. simpl. rewrite IH. apply orb_true_r.
Qed.

(** X8.  What a failed login shows.  For a non-2xx answer [onLoginSuccess]
    is not called and loading ends; when the body is [null], or its
    [error] is a number, a boolean or an object, the handler faults inside
    its [try] and the message is the network-error one, lockout and
    remaining attempts untouched; when [error] is absent, [null] or [''],
    the message is 'Invalid passcode'; otherwise it is the server's text. *)
Theorem login_failure_message (now : Z) (r : Response) (data : JsVal) (s : State) :
  ok r = false ->
  let s' := fst (respond now r data s) in
  snd (respond now r data s) = false
  /\ loading s' = false
  /\ (data = JNull \/ data = JUndefined ->
      s' = setLoading false (setError (JStr "Network error. Please try again.") s))
  /\ (forall err,
        get data "error" = Normal err ->
        (exists q, err = JNum q) \/ (exists b, err = JBool b) \/ (exists f, err = JObj f) ->
        s' = setLoading false (setError (JStr "Network error. Please try again.") s))
  /\ (forall err,
        get data "error" = Normal err ->
        err = JUndefined \/ err = JNull \/ err = JStr "" ->
        s' = setLoading false (setLoading false (setError (JStr "Invalid passcode") s)))
  /\ (forall text,
        get data "error" = Normal (JStr text) -> text <> "" ->
        error s' = JStr text).
Proof.
  intros Hok s'. subst s'. unfold respond. rewrite Hok. cbn [negb].
  split; [destruct (_ ≫= _); reflexivity|].
  split; [destruct (_ ≫= _); reflexivity|].
  split; [|split; [|split]].
  - intros [-> | ->]; unfold read_limits; destruct (status r =? 429)%N; reflexivity.
  - intros err He Hty. unfold read_limits. rewrite He.
    destruct (status r =? 429)%N;
      destruct Hty as [[q ->] | [[b ->] | [f ->]]]; reflexivity.
  - intros err He Hty. unfold read_limits. rewrite He.
    destruct (status r =? 429)%N;
      destruct Hty as [-> | [-> | ->]]; cbn; rewrite ?He; reflexivity.
  - intros text He Hne. unfold read_limits. rewrite He.
    assert (js_or (JStr text) (JStr "Invalid passcode") = JStr text) as Hor.
    { unfold js_or. simpl.
      replace (String.eqb text "") with false; [reflexivity|].
      symmetry. now apply String.eqb_neq. }
    destruct (status r =? 429)%N; cbn [mbind completion_bind opt_match opt_includes].
    + destruct (first_match "minutes" text); cbn -[js_or]; rewrite ?He; cbn -[js_or];
        rewrite Hor; reflexivity.
    + destruct (includes "attempts remaining" text); cbn -[js_or].
      * destruct (first_match "attempts" text); cbn -[js_or]; rewrite ?He; cbn -[js_or];
          rewrite Hor; reflexivity.
      * rewrite ?He. cbn -[js_or]. rewrite Hor. reflexivity.
Qed.

Lemma login_failure_message_witness :
  fst (respond 0 {| status := 401; statusText := "Unauthorized" |} JNull (submit initial))
  = setLoading false (setError (JStr "Network error. Please try again.") (submit initial)).
Proof.
  destruct (login_failure_message 0 {| status := 401; statusText := "Unauthorized" |}
              JNull (submit initial) eq_refl) as (_ & _ & H & _).
  apply H. left. reflexivity.
Defined.


End LoginUseFacts.

(* ===================================================================== *)
(** * Properties of the passcode reset form                                *)
(* ===================================================================== *)

Section ResetFacts.
Import Reset.

Lemma strip_digits value : Passcode.all_digits (strip_non_digits value) = true.
Proof.
  induction value as [|c value IH]; simpl; [reflexivity|].
  destruct (Passcode.is_digit c) eqn:E; simpl; [now rewrite E|exact IH].
Qed.

Lemma strip_all_digits value :
  Passcode.all_digits value = true -> strip_non_digits value = value.
Proof.
  induction value as [|c value IH]; simpl; [reflexivity|].
  intros H. apply andb_prop in H as [Hc Hd]. rewrite Hc. now rewrite IH.
Qed.

Lemma substring_digits n value :
  Passcode.all_digits value = true -> Passcode.all_digits (substring 0 n value) = true.
Proof.
  revert n. induction value as [|c value IH]; intros [|n] H; simpl; try reflexivity.
  simpl in H. apply andb_prop in H as [Hc Hd]. rewrite Hc. now apply IH.
Qed.

Lemma substring_all n value : String.length value <= n -> substring 0 n value = value.
Proof.
  revert n. induction value as [|c value IH]; intros [|n] H; simpl in *;
    try reflexivity; try lia.
  rewrite IH; [reflexivity | lia].
Qed.

(** X10.  What the two passcode inputs store: of whatever is typed or
    pasted into them only the decimal digits, and of those the first six.
    The stored value is a run of at most six digits; it is six digits long
    exactly when the input held at least six digits; storing is idempotent
    and leaves a value of at most six digits as it is. *)
Theorem passcode_input_keeps_six_digits (value : string) :
  Passcode.all_digits (passcode_of_input value) = true
  /\ String.length (passcode_of_input value)
     = Nat.min 6 (String.length (strip_non_digits value))
  /\ passcode_of_input (passcode_of_input value) = passcode_of_input value
  /\ (Passcode.all_digits value = true -> String.length value <= 6 ->
      passcode_of_input value = value).
Proof.
  unfold passcode_of_input.
  assert (Passcode.all_digits (substring 0 6 (strip_non_digits value)) = true) as Hd
    by apply substring_digits, strip_digits.
  split; [exact Hd|]. split; [apply substring_length_min|]. split.
  - rewrite (strip_all_digits _ Hd). apply substring_all, substring_length.
  - intros Hv Hl. rewrite (strip_all_digits _ Hv). now apply substring_all.
Qed.

Lemma code_ok_test code :
  negb (String.length code =? 6)%nat || negb (Passcode.digits_only code) = false
  <-> code_ok 6 code.
Proof.
  unfold code_ok, Passcode.digits_only. split.
  - intros H. apply orb_false_elim in H as [H1 H2].
    apply negb_false_iff in H1, H2. apply Nat.eqb_eq in H1.
    apply andb_prop in H2 as [_ H2]. auto.
  - intros [H1 H2]. rewrite H2, H1. simpl.
    destruct code; [discriminate H1 | reflexivity].
Qed.

Lemma handleSubmit_valid s :
  submittable s ->
  handleSubmit s
  = (setLoading true (setError (JStr "") s),
     Some {| body_username := username s; body_password := password s;
             new_passcode := newPasscode s; confirm_passcode := confirmPasscode s |}).
Proof.
  intros (Hu & Hp & Hc & Hm). unfold handleSubmit.
  cbn [username password newPasscode confirmPasscode setError].
  apply String.eqb_neq in Hu, Hp. rewrite Hu, Hp. cbn [orb].
  apply code_ok_test in Hc. rewrite Hc.
  apply String.eqb_eq in Hm. rewrite Hm. reflexivity.
Qed.

Lemma handleSubmit_refused s :
  ~ submittable s ->
  exists message,
    handleSubmit s = (setError (JStr message) s, None)
    /\ (username s = "" \/ password s = "" ->
        message = "Username and password are required")
    /\ (username s <> "" -> password s <> "" -> ~ code_ok 6 (newPasscode s) ->
        message = "New passcode must be exactly 6 digits")
    /\ (username s <> "" -> password s <> "" -> code_ok 6 (newPasscode s) ->
        message = "Passcodes do not match").
Proof.
  intros Hn. unfold handleSubmit.
  cbn [username password newPasscode confirmPasscode setError].
  destruct (String.eqb_spec (username s) "") as [Hu|Hu].
  { eexists. split; [reflexivity|]. split; [reflexivity|]. split; intros; contradiction. }
  destruct (String.eqb_spec (password s) "") as [Hp|Hp].
  { eexists. split; [reflexivity|]. split; [reflexivity|]. split; intros; contradiction. }
  cbn [orb].
  destruct (negb (String.length (newPasscode s) =? 6)%nat
            || negb (Passcode.digits_only (newPasscode s))) eqn:Ec.
  { assert (~ code_ok 6 (newPasscode s)) as Hc.
    { intros H. apply code_ok_test in H. congruence. }
    eexists. split; [reflexivity|].
    split; [intros [H|H]; contradiction|]. split; [reflexivity|].
    intros _ _ H. contradiction. }
  apply code_ok_test in Ec.
  destruct (String.eqb_spec (newPasscode s) (confirmPasscode s)) as [Hm|Hm]; cbn [negb].
  - exfalso. apply Hn. unfold submittable. auto.
  - eexists. split; [reflexivity|].
    split; [intros [H|H]; contradiction|]. split; [intros _ _ H; contradiction|].
    reflexivity.
Qed.

Lemma submittable_dec s : submittable s \/ ~ submittable s.
Proof.
  unfold submittable, code_ok.
  destruct (String.eqb_spec (username s) ""); [right; tauto|].
  destruct (String.eqb_spec (password s) ""); [right; tauto|].
  destruct (Nat.eq_dec (String.length (newPasscode s)) 6); [|right; tauto].
  destruct (Passcode.all_digits (newPasscode s)) eqn:E;
    [|right; intros (_ & _ & (_ & H) & _); discriminate H].
  destruct (String.eqb_spec (newPasscode s) (confirmPasscode s)); [left|right]; tauto.
Qed.

(** X11.  [handleSubmit] sends the reset request exactly when the user
    name and the password are not empty, the new passcode is six decimal
    digits and the confirmation equals it; the body then carries the four
    fields as entered and loading starts.  Otherwise nothing is sent,
    nothing but the error changes, and the message names the first failed
    test: the credentials, then the passcode's form, then the
    confirmation. *)
Theorem reset_is_sent_only_when_valid (s : State) :
  (submittable s <-> is_Some (snd (handleSubmit s)))
  /\ (submittable s ->
      handleSubmit s
      = (setLoading true (setError (JStr "") s),
         Some {| body_username := username s; body_password := password s;
                 new_passcode := newPasscode s;
                 confirm_passcode := confirmPasscode s |}))
  /\ (~ submittable s ->
      exists message,
        handleSubmit s = (setError (JStr message) s, None)
        /\ (username s = "" \/ password s = "" ->
            message = "Username and password are required")
        /\ (username s <> "" -> password s <> "" -> ~ code_ok 6 (newPasscode s) ->
            message = "New passcode must be exactly 6 digits")
        /\ (username s <> "" -> password s <> "" -> code_ok 6 (newPasscode s) ->
            message = "Passcodes do not match")).
Proof.
  split; [|split].
  - split.
    + intros H. rewrite (handleSubmit_valid s H). eexists. reflexivity.
    + intros [b Hb]. destruct (submittable_dec s) as [H|H]; [exact H|].
      destruct (handleSubmit_refused s H) as (m & Hm & _).
      rewrite Hm in Hb. discriminate Hb.
  - apply handleSubmit_valid.
  - apply handleSubmit_refused.
Qed.

(** X12.  Through the form's own inputs the digit test of [handleSubmit]
    cannot fail: with the credentials filled in, and the two passcodes
    entered through their [onChange] handlers, the request is sent exactly
    when the first input held at least six digits and the first six digits
    of both inputs agree (whatever else was typed between them); with
    fewer than six digits the message is the one about six digits. *)
Theorem typed_passcodes_are_submitted (s : State) (typedNew typedConfirm : string) :
  username s <> "" ->
  password s <> "" ->
  let form := changeConfirmPasscode typedConfirm (changeNewPasscode typedNew s) in
  (is_Some (snd (handleSubmit form))
   <-> 6 <= String.length (strip_non_digits typedNew)
       /\ passcode_of_input typedNew = passcode_of_input typedConfirm)
  /\ (String.length (strip_non_digits typedNew) < 6 ->
      handleSubmit form
      = (setError (JStr "New passcode must be exactly 6 digits") form, None))
  /\ (forall b, snd (handleSubmit form) = Some b ->
      new_passcode b = passcode_of_input typedNew
      /\ code_ok 6 (new_passcode b)).
Proof.
  intros Hu Hp form.
  assert (Passcode.all_digits (passcode_of_input typedNew) = true) as Hd
    by apply substring_digits, strip_digits.
  assert (String.length (passcode_of_input typedNew)
          = Nat.min 6 (String.length (strip_non_digits typedNew))) as Hl
    by apply substring_length_min.
  assert (newPasscode form = passcode_of_input typedNew) as Hn by reflexivity.
  assert (confirmPasscode form = passcode_of_input typedConfirm) as Hc by reflexivity.
  assert (username form = username s) as Hu' by reflexivity.
  assert (password form = password s) as Hp' by reflexivity.
  assert (code_ok 6 (newPasscode form)
          <-> 6 <= String.length (strip_non_digits typedNew)) as Hcode.
  { rewrite Hn. unfold code_ok. rewrite Hl. split; [lia|]. intros H. split; [lia | exact Hd]. }
  assert (submittable form
          <-> 6 <= String.length (strip_non_digits typedNew)
              /\ passcode_of_input typedNew = passcode_of_input typedConfirm) as Hsub.
  { unfold submittable. rewrite Hu', Hp', Hc, Hcode, Hn. tauto. }
  split; [|split].
  - rewrite <- Hsub. split.
    + intros [b Hb]. destruct (submittable_dec form) as [H|H]; [exact H|].
      destruct (handleSubmit_refused form H) as (m & Hm & _).
      rewrite Hm in Hb. discriminate Hb.
    + intros H. rewrite (handleSubmit_valid form H). eexists. reflexivity.
  - intros Hlt.
    assert (~ code_ok 6 (newPasscode form)) as Hbad by (rewrite Hcode; lia).
    destruct (handleSubmit_refused form) as (m & Hm & _ & H6 & _).
    { intros (_ & _ & H & _). contradiction. }
    rewrite Hm. rewrite (H6 ltac:(congruence) ltac:(congruence) Hbad). reflexivity.
  - intros b Hb.
    assert (submittable form) as Hs.
    { destruct (submittable_dec form) as [H|H]; [exact H|].
      destruct (handleSubmit_refused form H) as (m & Hm & _).
      rewrite Hm in Hb. discriminate Hb. }
    rewrite (handleSubmit_valid form Hs) in Hb. cbn [snd] in Hb. inversion Hb.
    cbn [new_passcode].
    split; [exact Hn|]. destruct Hs as (_ & _ & H & _). exact H.
Qed.

Lemma typed_passcodes_are_submitted_witness :
  snd (handleSubmit
         (changeConfirmPasscode "123456"
            (changeNewPasscode "12-34-56 (new)"
               (changePassword "secret" (changeUsername "admin" initial)))))
  = Some {| body_username := "admin"; body_password := "secret";
            new_passcode := "123456"; confirm_passcode := "123456" |}.
Proof.
  destruct (typed_passcodes_are_submitted
              (changePassword "secret" (changeUsername "admin" initial))
              "12-34-56 (new)" "123456" ltac:(discriminate) ltac:(discriminate))
    as (H & _ & _).
  destruct (proj2 H) as (b & Hb); [split; [simpl; lia | reflexivity]|].
  rewrite Hb. revert Hb. vm_compute. intros Hb. inversion Hb. reflexivity.
Defined.


Lemma reset_locks now r data text digits s :
  status r = 429%N ->
  get data "error" = Normal (JStr text) ->
  Login.first_match "minutes" text = Some digits ->
  respond now r data s
  = (setLoading false (setLoading false (setError (js_or (JStr text) (JStr "Failed to reset passcode"))
       (setLockoutUntil
          (Some (Login.new_Date (now + Login.parseInt digits * 60 * 1000))) s))),
     false).
Proof.
  intros H429 He Hm. unfold respond, read_lockout.
  rewrite (status_429_not_ok r H429). apply N.eqb_eq in H429. rewrite H429, He.
  cbn [negb mbind completion_bind Login.opt_match]. rewrite Hm.
  cbn [mbind completion_bind mret completion_ret]. reflexivity.
Qed.

Lemma new_Date_of_whole (t : Z) : new_Date_of (inject_Z t) = Login.new_Date t.
Proof.
  unfold new_Date_of, Login.new_Date.
  assert (Qle_bool (Qabs (inject_Z t)) 8640000000000000
          = (Z.abs t <=? 8640000000000000)%Z) as ->.
  { unfold Qle_bool, Qabs, inject_Z. simpl. now rewrite Z.mul_1_r. }
  simpl. now rewrite Z.quot_1_r.
Qed.

(** X14.  The lockout seeded from the status endpoint when the modal
    opens.  Nothing is seeded unless both [creds_locked] and
    [creds_lockout_minutes] are truthy (a body that is [null] faults and is
    ignored); a whole number [n] of minutes seeds the timestamp that a 429
    answer announcing ["<n> minutes"] sets, so the countdown starts at [n]
    and the form is disabled. *)
Theorem status_seeds_the_lockout (now : Z) (data : JsVal) (s : State) :
  (data = JNull \/ data = JUndefined -> checkBackendLockout now data s = Some s)
  /\ (forall locked, get data "creds_locked" = Normal locked -> truthy locked = false ->
      checkBackendLockout now data s = Some s)
  /\ (forall minutes,
        get data "creds_lockout_minutes" = Normal minutes -> truthy minutes = false ->
        checkBackendLockout now data s = Some s)
  /\ (forall locked n r pre post,
        get data "creds_locked" = Normal locked -> truthy locked = true ->
        get data "creds_lockout_minutes" = Normal (JNum (inject_Z (Z.of_N n))) ->
        n <> 0%N -> clock_for n now ->
        status r = 429%N -> digit_free pre = true ->
        exists s',
          checkBackendLockout now data s = Some s'
          /\ lockoutUntil s' = Some (Login.Valid (now + Z.of_N n * 60000))
          /\ lockoutUntil s'
             = lockoutUntil
                 (fst (respond now r
                         (JObj [("error",
                                 JStr (pre +:+ announced n "minutes" +:+ post))]) s))
          /\ getRemainingTime now s' = (Login.RMinutes (Z.of_N n), s')
          /\ form_disabled now s' = true).
Proof.
  split; [|split; [|split]].
  - intros [-> | ->]; reflexivity.
  - intros locked Hl Hf. unfold checkBackendLockout. now rewrite Hl, Hf.
  - intros minutes Hm Hf. unfold checkBackendLockout.
    destruct (get data "creds_locked") as [locked|e]; [|reflexivity].
    destruct (negb (truthy locked)); [reflexivity|].
    now rewrite Hm, Hf.
  - intros locked n r pre post Hl Ht Hm Hn [Hlo Hhi] H429 Hpre.
    assert (truthy (JNum (inject_Z (Z.of_N n))) = true) as Htm.
    { unfold truthy, Qeq_bool, inject_Z. simpl. rewrite Z.mul_1_r.
      apply negb_true_iff, Z.eqb_neq. lia. }
    assert ((inject_Z now + inject_Z (Z.of_N n) * 60 * 1000)%Q
            = inject_Z (now + Z.of_N n * 60 * 1000)) as Hq.
    { unfold inject_Z, Qplus, Qmult. simpl. f_equal. lia. }
    assert (Login.new_Date (now + Z.of_N n * 60 * 1000)
            = Login.Valid (now + Z.of_N n * 60000)) as Hd.
    { unfold Login.new_Date. replace (now + Z.of_N n * 60 * 1000)%Z
        with (now + Z.of_N n * 60000)%Z by lia.
      replace (Z.abs _ <=? _)%Z with true; [reflexivity|].
      symmetry. apply Z.leb_le. lia. }
    eexists. split.
    { unfold checkBackendLockout. rewrite Hl, Ht, Hm, Htm. cbn [negb].
      rewrite Hq, new_Date_of_whole, Hd. reflexivity. }
    split; [reflexivity|]. split.
    + rewrite (reset_locks now r
                 (JObj [("error", JStr (pre +:+ announced n "minutes" +:+ post))])
                 (pre +:+ announced n "minutes" +:+ post) (decimal n) s H429 eq_refl
                 (first_match_announced n "m" "inutes" pre post Hpre eq_refl)).
      rewrite parseInt_decimal, Hd. reflexivity.
    + assert (getRemainingTime now
                (setLockoutUntil (Some (Login.Valid (now + Z.of_N n * 60000))) s)
              = (Login.RMinutes (Z.of_N n),
                 setLockoutUntil (Some (Login.Valid (now + Z.of_N n * 60000))) s)) as Hg.
      { unfold getRemainingTime. cbn [lockoutUntil setLockoutUntil].
        replace (now + Z.of_N n * 60000 <=? now)%Z with false
          by (symmetry; apply Z.leb_gt; lia).
        rewrite ceil_minutes.
        replace (now + Z.of_N n * 60000 - now)%Z with (Z.of_N n * 60000)%Z by lia.
        now rewrite minutes_ceiling. }
      split; [exact Hg|]. unfold form_disabled. rewrite Hg.
      cbn [fst Login.positive_countdown].
      replace (Z.of_N n =? 0)%Z with false by (symmetry; apply Z.eqb_neq; lia).
      apply orb_true_r.
Qed.

End ResetFacts.

(* ===================================================================== *)
(** * Further properties of the upload-and-poll controller                 *)
(* ===================================================================== *)

Section ViewFacts.
Import Upload.

(** An update that ends analyzing, shows no new results and forgets no
    stored data keeps the view consistent. *)
Lemma consistent_ended v v' :
  isAnalyzing v' = false ->
  (showResults v' = true -> showResults v = true) ->
  (is_Some (accountInfo v) -> is_Some (accountInfo v')) ->
  (is_Some (analytics v) -> is_Some (analytics v')) ->
  consistent v -> consistent v'.
Proof.
  intros Ha Hs Hi Hn [_ C]. split.
  - rewrite Ha. discriminate.
  - intros H. destruct (C (Hs H)). auto.
Qed.

Lemma consistent_upload_catch m s :
  consistent (view s) -> consistent (view (upload_catch m s)).
Proof.
  unfold upload_catch. rewrite clearPolling_view.
  apply consistent_ended; auto.
Qed.

Lemma consistent_upload_failed err s :
  consistent (view s) -> consistent (view (upload_failed err s)).
Proof.
  unfold upload_failed. destruct (get err "error"); [|apply consistent_upload_catch].
  apply consistent_ended; auto.
Qed.

Lemma consistent_poll_catch c m s :
  consistent (view s) -> consistent (view (poll_catch c m s)).
Proof.
  unfold poll_catch. destruct (negb (is_current c s)); [auto|].
  rewrite clearPolling_view. apply consistent_ended; auto.
Qed.

(** So does one that only stores data. *)
Lemma consistent_stored v v' :
  isAnalyzing v' = isAnalyzing v -> showResults v' = showResults v ->
  error v' = error v ->
  (is_Some (accountInfo v) -> is_Some (accountInfo v')) ->
  (is_Some (analytics v) -> is_Some (analytics v')) ->
  consistent v -> consistent v'.
Proof.
  intros Ha Hs He Hi Hn [C1 C2]. split.
  - rewrite Ha, Hs, He. exact C1.
  - rewrite Hs. intros H. destruct (C2 H). auto.
Qed.

Lemma consistent_completed c d s :
  consistent (view s) -> consistent (view (completed c d s)).
Proof.
  intros C. unfold completed. destruct (negb (is_current c s)); [exact C|].
  destruct (account_stage d) as [info|e]; [|now apply consistent_poll_catch].
  assert (consistent (view (setAccountInfo (Some info) s))) as C1.
  { revert C. apply consistent_stored; cbn; eauto. }
  destruct (monthly_stage d) as [rows|e]; [|now apply consistent_poll_catch].
  destruct (analytics_stage d) as [mapped|e].
  2: { apply consistent_poll_catch. revert C1. apply consistent_stored; cbn; eauto. }
  rewrite clearPolling_view. cbn. split; [discriminate|]. intros _. split; eauto.
Qed.

Lemma consistent_poll_body t c d s :
  consistent (view s) -> consistent (view (poll_body t c d s)).
Proof.
  intros C. unfold poll_body. destruct (negb (is_current c s)); [exact C|].
  destruct (get d "status") as [st|e]; [|now apply consistent_poll_catch].
  destruct (is_string st "error").
  { destruct (get d "error"); [|now apply consistent_poll_catch].
    rewrite clearPolling_view. revert C. apply consistent_ended; auto. }
  destruct (is_string st "processing").
  { destruct (_ <=? _)%Z; exact C. }
  destruct (is_string st "completed"); [|exact C].
  now apply consistent_completed.
Qed.

Lemma consistent_step s e : consistent (view s) -> consistent (view (step s e)).
Proof.
  intros C. destruct e as [files|h|t o| |]; cbn [step].
  - destruct files as [|file rest]; [exact C|].
    split; cbn -[clearPolling]; [auto | discriminate].
  - destruct (timers s !! h) as [[d c]|]; [|exact C].
    unfold pollForResults. destruct (negb _); exact C.
  - destruct (tasks s !! t) as [k|]; [|exact C].
    set (s1 := with_tasks (delete t) s).
    assert (consistent (view s1)) as C1 by exact C.
    destruct (resume t k o s1) as [s'|] eqn:R; [|exact C]. simpl.
    destruct k as [|r| |c|c|c], o as [e|r'|v|[v|e]]; simpl in R; inversion R; subst s';
      clear R.
    all: try first [ now apply consistent_upload_catch
                   | now apply consistent_upload_failed
                   | now apply consistent_poll_catch
                   | now apply consistent_poll_body ].
    + destruct (negb (ok r')); exact C1.
    + unfold upload_succeeded.
      destruct (get v "id") as [pdfId|e]; [|now apply consistent_upload_catch].
      destruct (negb (truthy pdfId)); [now apply consistent_upload_catch | exact C1].
    + destruct (negb (ok r')); [now apply consistent_poll_catch | exact C1].
  - now rewrite clearPolling_view.
  - destruct C as [C _]. split; cbn; [|discriminate].
    intros H. split; [reflexivity | apply C, H].
Qed.

(** X15.  In every state the application can reach, the view is
    consistent: while [isAnalyzing] is set, [showResults] is not and no
    error is shown; and while [showResults] is set, the account
    information and the analytics are stored. *)
Theorem view_is_consistent (s : State) :
  reachable s ->
  (isAnalyzing (view s) = true ->
   showResults (view s) = false /\ error (view s) = JNull)
  /\ (showResults (view s) = true ->
      isAnalyzing (view s) = false
      /\ is_Some (accountInfo (view s)) /\ is_Some (analytics (view s))).
Proof.
  intros [trace ->].
  assert (consistent (view (run initial trace))) as [C1 C2].
  { unfold run. generalize initial, (conj (fun H => match Bool.diff_false_true H with end)
                                           (fun H => match Bool.diff_false_true H with end)
                                      : consistent (view initial)).
    induction trace as [|e trace IH]; intros s C; [exact C|].
    simpl. apply IH, consistent_step, C. }
  split; [exact C1|]. intros H. destruct (C2 H) as [Hi Hn].
  split; [|split; assumption].
  destruct (isAnalyzing (view (run initial trace))) eqn:E; [|reflexivity].
  destruct (C1 eq_refl) as [H' _]. congruence.
Qed.

Lemma view_is_consistent_witness :
  reachable uploaded
  /\ isAnalyzing (view uploaded) = true
  /\ showResults (view uploaded) = false /\ error (view uploaded) = JNull.
Proof.
  split; [exact uploaded_reachable|]. split; [reflexivity|].
  exact (proj1 (view_is_consistent uploaded uploaded_reachable) eq_refl).
Defined.

End ViewFacts.

Section ScheduleFacts.
Import Upload.

Lemma scheduled_quiet s s' : quiet s s' -> scheduled s -> scheduled s'.
Proof.
  intros (Ht & Hk & _) (S1 & S2 & S3). split; [|split].
  - intros h d c H. eapply S1, lookup_weaken; eassumption.
  - intros t c. rewrite Hk. apply S2.
  - intros t c. rewrite Hk. apply S3.
Qed.

Lemma scheduled_same s s' :
  timers s' = timers s -> tasks s' = tasks s -> scheduled s -> scheduled s'.
Proof. intros Ht Hk. unfold scheduled. now rewrite Ht, Hk. Qed.

Lemma scheduled_resumed s t :
  scheduled s -> scheduled (with_tasks (delete t) s).
Proof.
  intros (S1 & S2 & S3). split; [exact S1|]. split.
  - intros t' c [H|H]; cbn in H; apply lookup_delete_Some in H as [_ H]; eapply S2; eauto.
  - intros t' c H. cbn in H. apply lookup_delete_Some in H as [_ H]. eapply S3; eauto.
Qed.

Lemma scheduled_await_upload s t k :
  closure_of k = None -> scheduled s -> scheduled (await t k s).
Proof.
  intros Hk (S1 & S2 & S3). split; [exact S1|]. split.
  - intros t' c [H|H]; cbn in H; apply lookup_insert_Some in H as [[_ ->]|[_ H]];
      try discriminate Hk; eapply S2; eauto.
  - intros t' c H. cbn in H. apply lookup_insert_Some in H as [[_ ->]|[_ H]];
      try discriminate Hk. eapply S3; eauto.
Qed.

Lemma scheduled_await_body s t c :
  on_schedule c -> scheduled s -> scheduled (await t (PollBody c) s).
Proof.
  intros Hc (S1 & S2 & S3). split; [exact S1|]. split.
  - intros t' c' [H|H]; cbn in H; apply lookup_insert_Some in H as [[_ E]|[_ H]];
      try discriminate E; try (inversion E; subst; exact Hc); eapply S2; eauto.
  - intros t' c' H. cbn in H. apply lookup_insert_Some in H as [[_ E]|[_ H]];
      try discriminate E. eapply S3; eauto.
Qed.

Lemma scheduled_await_stop s t c :
  stopping c -> scheduled s -> scheduled (await t (PollStop c) s).
Proof.
  intros Hc (S1 & S2 & S3). split; [exact S1|]. split.
  - intros t' c' [H|H]; cbn in H; apply lookup_insert_Some in H as [[_ E]|[_ H]];
      try discriminate E; eapply S2; eauto.
  - intros t' c' H. cbn in H. apply lookup_insert_Some in H as [[_ E]|[_ H]].
    + inversion E. subst. exact Hc.
    + eapply S3; eauto.
Qed.

Lemma scheduled_suspend_upload s :
  scheduled s -> scheduled (suspend UploadFetch s).
Proof.
  intros (S1 & S2 & S3). split; [exact S1|]. split.
  - intros t' c [H|H]; cbn in H; apply lookup_insert_Some in H as [[_ E]|[_ H]];
      try discriminate E; eapply S2; eauto.
  - intros t' c H. cbn in H. apply lookup_insert_Some in H as [[_ E]|[_ H]];
      try discriminate E. eapply S3; eauto.
Qed.

Lemma scheduled_suspend_fetch s c :
  on_schedule c -> scheduled s -> scheduled (suspend (PollFetch c) s).
Proof.
  intros Hc (S1 & S2 & S3). split; [exact S1|]. split.
  - intros t' c' [H|H]; cbn in H; apply lookup_insert_Some in H as [[_ E]|[_ H]];
      try discriminate E; try (inversion E; subst; exact Hc); eapply S2; eauto.
  - intros t' c' H. cbn in H. apply lookup_insert_Some in H as [[_ E]|[_ H]];
      try discriminate E. eapply S3; eauto.
Qed.

Lemma scheduled_schedule d c s :
  timed d c -> scheduled s -> scheduled (schedule d c s).
Proof.
  intros Hc (S1 & S2 & S3). split; [|split; [exact S2 | exact S3]].
  intros h d' c' H. cbn in H. apply lookup_insert_Some in H as [[_ E]|[_ H]].
  - inversion E. subst. exact Hc.
  - eapply S1; eauto.
Qed.

Lemma timed_on_schedule d c : timed d c -> on_schedule c.
Proof.
  intros [[_ H] | (k & Hk & _ & H)]; [exists 0 | exists (S k)]; split; auto; lia.
Qed.

(** The step of the table: what a "processing" answer makes of a closure
    on schedule. *)
Lemma processing_on_schedule c :
  on_schedule c ->
  if (maxPollTime <=? totalPollTime (accumulate c))%Z
  then stopping (accumulate c)
  else timed (pollInterval (accumulate c)) (grow (accumulate c)).
Proof.
  intros (k & Hk & E).
  assert (pollInterval c = fst (closure_after k)) as Ei by now rewrite <- E.
  assert (totalPollTime c = snd (closure_after k)) as Et by now rewrite <- E.
  unfold accumulate, grow. cbn [pollInterval totalPollTime].
  rewrite Ei, Et.
  do 11 (destruct k as [|k];
         [ replace (maxPollTime <=? _)%Z with false by (vm_compute; reflexivity);
           cbv iota; right; eexists; split; [|split; [reflexivity|]];
           [lia | cbn [pollInterval totalPollTime]; vm_compute; reflexivity] |]).
  destruct k as [|k]; [|lia].
  change (maxPollTime <=? snd (closure_after 11) + fst (closure_after 11))%Z with true.
  cbv iota. exists c. split; [exact E|]. unfold accumulate. now rewrite Ei, Et.
Qed.

Lemma scheduled_poll_body t c d s :
  on_schedule c -> scheduled s -> scheduled (poll_body t c d s).
Proof.
  intros Hc S. unfold poll_body. destruct (negb (is_current c s)); [exact S|].
  destruct (get d "status") as [st|e];
    [|eapply scheduled_quiet; [apply quiet_poll_catch | exact S]].
  destruct (is_string st "error").
  { destruct (get d "error");
      [|eapply scheduled_quiet; [apply quiet_poll_catch | exact S]].
    eapply scheduled_quiet; [|exact S].
    eapply quiet_trans; [|apply quiet_clearPolling]. repeat split; reflexivity. }
  destruct (is_string st "processing").
  { pose proof (processing_on_schedule c Hc) as P.
    destruct (maxPollTime <=? totalPollTime (accumulate c))%Z.
    - apply scheduled_await_stop; [exact P|].
      revert S. apply scheduled_same; reflexivity.
    - now apply scheduled_schedule. }
  destruct (is_string st "completed"); [|exact S].
  eapply scheduled_quiet; [apply quiet_completed | exact S].
Qed.

Lemma scheduled_step s e : scheduled s -> scheduled (step s e).
Proof.
  intros S. destruct e as [files|h|t o| |]; cbn [step].
  - destruct files as [|file rest]; [exact S|]. unfold onDrop.
    apply scheduled_suspend_upload.
    eapply scheduled_quiet; [|exact S].
    eapply quiet_trans; [apply quiet_clearPolling|]. repeat split; reflexivity.
  - destruct (timers s !! h) as [[d c]|] eqn:E; [|exact S].
    assert (on_schedule c) as Hc by (eapply timed_on_schedule, (proj1 S), E).
    assert (scheduled (with_timers (delete h) s)) as S1.
    { eapply scheduled_quiet; [|exact S]. repeat split; try reflexivity.
      apply delete_subseteq. }
    unfold pollForResults. destruct (negb _); [exact S1|].
    apply scheduled_suspend_fetch; [exact Hc|].
    revert S1. apply scheduled_same; reflexivity.
  - destruct (tasks s !! t) as [k|] eqn:E; [|exact S].
    pose proof (scheduled_resumed s t S) as S1.
    set (s1 := with_tasks (delete t) s) in *.
    destruct (resume t k o s1) as [s'|] eqn:R; [|exact S]. cbn [default].
    destruct k as [|r| |c|c|c], o as [e|r'|v|[v|e]]; simpl in R; inversion R; subst s';
      clear R.
    all: try (eapply scheduled_quiet; [|exact S1];
              first [apply quiet_upload_catch | apply quiet_upload_failed
                    | apply quiet_poll_catch]).
    + destruct (negb (ok r')); now apply scheduled_await_upload.
    + unfold upload_succeeded.
      destruct (get v "id") as [pdfId|e];
        [|eapply scheduled_quiet; [apply quiet_upload_catch | exact S1]].
      destruct (negb (truthy pdfId));
        [eapply scheduled_quiet; [apply quiet_upload_catch | exact S1]|].
      apply scheduled_schedule; [left; split; reflexivity|].
      revert S1. apply scheduled_same; reflexivity.
    + assert (on_schedule c) as Hc by (eapply (proj1 (proj2 S)); left; exact E).
      destruct (negb (ok r')).
      * eapply scheduled_quiet; [apply quiet_poll_catch | exact S1].
      * now apply scheduled_await_body.
    + assert (on_schedule c) as Hc by (eapply (proj1 (proj2 S)); right; exact E).
      now apply scheduled_poll_body.
  - eapply scheduled_quiet; [apply quiet_clearPolling | exact S].
  - revert S. apply scheduled_same; reflexivity.
Qed.

Lemma scheduled_initial : scheduled initial.
Proof.
  split; [|split]; cbn.
  - intros h d c H. rewrite lookup_empty in H. discriminate.
  - intros t c [H|H]; rewrite lookup_empty in H; discriminate.
  - intros t c H. rewrite lookup_empty in H. discriminate.
Qed.

Lemma reachable_scheduled s : reachable s -> scheduled s.
Proof.
  intros [trace ->]. unfold run. generalize initial, scheduled_initial.
  induction trace as [|e trace IH]; intros s S; [exact S|].
  simpl. apply IH, scheduled_step, S.
Qed.

Ltac table E :=
  match type of E with
  | _ = closure_after ?k =>
      let v := eval vm_compute in (closure_after k) in
      change (closure_after k) with v in E
  end.

(** X16.  Whatever the server answers and however uploads interleave, a
    pending poll is always on the backoff schedule: its closure is that of
    a session after at most eleven "processing" answers, so its delay lies
    between 60000 ms and 3459897 ms and is not longer than the interval the
    session now holds, and its accumulated total is below the budget; and
    a session waits for the stop request only after a twelfth "processing"
    answer, with a total of 15449539. *)
Theorem polls_stay_on_schedule (s : State) :
  reachable s ->
  (forall h d c,
      timers s !! h = Some (d, c) ->
      (exists k, k < 12 /\ (pollInterval c, totalPollTime c) = closure_after k)
      /\ (60000 <= d <= 3459897)%Z
      /\ (d <= pollInterval c <= 5189845)%Z
      /\ (0 <= totalPollTime c < maxPollTime)%Z)
  /\ (forall t c,
        tasks s !! t = Some (PollStop c) ->
        totalPollTime c = 15449539%Z /\ (maxPollTime <= totalPollTime c)%Z).
Proof.
  intros Hreach. destruct (reachable_scheduled s Hreach) as (S1 & _ & S3). split.
  - intros h d c H. pose proof (S1 h d c H) as T.
    split; [exact (timed_on_schedule d c T)|].
    destruct T as [[-> E] | (k & Hk & -> & E)].
    + table E. inversion E as [[Ei Et]]. rewrite Ei, Et.
      unfold initialPollInterval, maxPollTime. lia.
    + do 11 (destruct k as [|k];
             [table E; inversion E as [[Ei Et]]; rewrite Ei, Et;
              match goal with
              | |- context [fst (closure_after ?k)] =>
                  let v := eval vm_compute in (fst (closure_after k)) in
                  change (fst (closure_after k)) with v
              end;
              unfold maxPollTime; lia |]).
      lia.
  - intros t c H. destruct (S3 t c H) as (c0 & E & ->).
    table E. inversion E as [[Ei Et]].
    unfold accumulate. cbn [totalPollTime]. rewrite Ei, Et.
    unfold maxPollTime. split; [reflexivity | lia].
Qed.

Lemma polls_stay_on_schedule_witness :
  reachable uploaded
  /\ timers uploaded !! 1%positive = Some (initialPollInterval, starting 0 (job 7))
  /\ (60000 <= initialPollInterval <= 3459897)%Z.
Proof.
  assert (timers uploaded !! 1%positive = Some (initialPollInterval, starting 0 (job 7)))
    as H by (vm_compute; reflexivity).
  split; [exact uploaded_reachable|]. split; [exact H|].
  exact (proj1 (proj2 (proj1 (polls_stay_on_schedule uploaded uploaded_reachable) _ _ _ H))).
Defined.

End ScheduleFacts.

Section PollOutcomes.
Import Upload.

Lemma step_settle s t k o s' :
  tasks s !! t = Some k -> resume t k o (with_tasks (delete t) s) = Some s' ->
  step s (Settle t o) = s'.
Proof. intros Hk R. cbn [step]. rewrite Hk, R. reflexivity. Qed.

Lemma is_current_resumed c s t : is_current c (with_tasks (delete t) s) = is_current c s.
Proof. reflexivity. Qed.

(** X17.  A poll answered with a status that is none of "error",
    "processing" and "completed" (or with no status) does nothing at all:
    nothing on screen changes, no error is reported, no poll is scheduled,
    no request is sent and the marker stays; the session is left without a
    pending timeout or call, so it never polls again. *)
Theorem unknown_status_strands_the_session (s : State) (t : nat) (c : Session)
    (d st : JsVal) :
  reachable s ->
  tasks s !! t = Some (PollBody c) ->
  is_current c s = true ->
  get d "status" = Normal st ->
  is_string st "error" = false ->
  is_string st "processing" = false ->
  is_string st "completed" = false ->
  let s' := step s (Settle t (GotJson d)) in
  view s' = view s
  /\ pollTimeoutRef s' = pollTimeoutRef s
  /\ currentPdfIdRef s' = currentPdfIdRef s
  /\ timers s' = timers s
  /\ tasks s' = delete t (tasks s)
  /\ requests s' = requests s
  /\ vacant s' (sid c).
Proof.
  intros Hreach Hk Hc Hs He Hp Hd s'.
  assert (s' = with_tasks (delete t) s) as ->.
  { subst s'. apply (step_settle s t (PollBody c)); [exact Hk|].
    cbn [resume]. unfold poll_body. rewrite is_current_resumed, Hc, Hs, He, Hp, Hd.
    reflexivity. }
  repeat split; try reflexivity.
  destruct (wf_resume s t (PollBody c) (reachable_wf s Hreach) Hk) as (_ & V & _).
  exact V.
Qed.

Lemma unknown_status_strands_the_session_witness :
  reachable first_poll_answered
  /\ tasks first_poll_answered !! 1 = Some (PollBody (starting 0 (job 7)))
  /\ view (step first_poll_answered (Settle 1 (GotJson (JObj [("status", JStr "queued")]))))
     = view first_poll_answered
  /\ isAnalyzing (view first_poll_answered) = true
  /\ vacant (step first_poll_answered (Settle 1 (GotJson (JObj [("status", JStr "queued")]))))
       0.
Proof.
  assert (tasks first_poll_answered !! 1 = Some (PollBody (starting 0 (job 7)))) as H1
    by (vm_compute; reflexivity).
  assert (is_current (starting 0 (job 7)) first_poll_answered = true) as H2
    by (vm_compute; reflexivity).
  pose proof (unknown_status_strands_the_session first_poll_answered 1
                (starting 0 (job 7)) (JObj [("status", JStr "queued")]) (JStr "queued")
                reachable_first_poll_answered H1 H2 eq_refl eq_refl eq_refl eq_refl) as H.
  cbv zeta in H. destruct H as (Hv & _ & _ & _ & _ & _ & Hvac).
  split; [exact reachable_first_poll_answered|]. split; [exact H1|].
  split; [exact Hv|]. split; [vm_compute; reflexivity | exact Hvac].
Defined.



Lemma status_read_object d text :
  get d "status" = Normal (JStr text) -> exists top, d = JObj top.
Proof. destruct d; simpl; intros H; try discriminate H. eauto. Qed.

Lemma account_stage_object top : exists info, account_stage (JObj top) = Normal info.
Proof.
  unfold account_stage. simpl get.
  set (ai := default JUndefined (own "account_info" top)).
  destruct (mapAccountInfo_defaults (js_or ai (JObj [])) (js_or_object_present ai))
    as (info & Hinfo & _).
  exists info. cbn. now rewrite Hinfo.
Qed.

Lemma analytics_stage_object top : exists mapped, analytics_stage (JObj top) = Normal mapped.
Proof.
  unfold analytics_stage.
  destruct (analytics_field_object top "average_fluctuation") as (v1 & E1 & _).
  destruct (analytics_field_object top "net_cash_flow_stability") as (v2 & E2 & _).
  destruct (analytics_field_object top "total_foreign_transactions") as (v3 & E3 & _).
  destruct (analytics_field_object top "total_foreign_amount") as (v4 & E4 & _).
  destruct (analytics_field_object top "overdraft_frequency") as (v5 & E5 & _).
  destruct (analytics_field_object top "overdraft_total_days") as (v6 & E6 & _).
  destruct (analytics_field_object top "sum_total_inflow") as (v7 & E7 & _).
  destruct (analytics_field_object top "sum_total_outflow") as (v8 & E8 & _).
  destruct (analytics_field_object top "avg_total_inflow") as (v9 & E9 & _).
  destruct (analytics_field_object top "avg_total_outflow") as (v10 & E10 & _).
  rewrite E1, E2, E3, E4, E5, E6, E7, E8, E9, E10. cbn. eauto.
Qed.

Lemma monthly_stage_message d e :
  monthly_stage d = Throw e -> e = "Error processing monthly data".
Proof.
  unfold monthly_stage. destruct (_ ≫= _); intros H; inversion H. reflexivity.
Qed.

(** X19.  How a "completed" answer ends, for the session the marker
    designates.  The account-information stage and the analytics stage
    cannot fail; so either all three stages succeed, and the results are
    stored and shown with analyzing ended, or the monthly stage fails, and
    then the message is 'Error processing monthly data' under the
    status-check prefix (the month is not named), analyzing ends, the
    results view is not switched on, and the account information has
    already been replaced while the monthly rows and the analytics have
    not.  Either way the handle ref and the marker are [null]. *)
Theorem completed_shows_results_or_monthly_error (s : State) (t : nat) (c : Session)
    (d : JsVal) :
  tasks s !! t = Some (PollBody c) ->
  is_current c s = true ->
  get d "status" = Normal (JStr "completed") ->
  let s' := step s (Settle t (GotJson d)) in
  (exists info mapped,
      account_stage d = Normal info
      /\ analytics_stage d = Normal mapped
      /\ accountInfo (view s') = Some info
      /\ ((exists rows,
             monthly_stage d = Normal rows
             /\ monthlyData (view s') = rows
             /\ analytics (view s') = Some mapped
             /\ showResults (view s') = true
             /\ error (view s') = error (view s))
          \/ (monthly_stage d = Throw "Error processing monthly data"
              /\ monthlyData (view s') = monthlyData (view s)
              /\ analytics (view s') = analytics (view s)
              /\ showResults (view s') = showResults (view s)
              /\ error (view s')
                 = JStr "Error checking processing status: Error processing monthly data")))
  /\ isAnalyzing (view s') = false
  /\ pollTimeoutRef s' = None
  /\ currentPdfIdRef s' = None.
Proof.
  intros Hk Hc Hs s'.
  destruct (status_read_object d _ Hs) as (top & ->).
  destruct (account_stage_object top) as (info & Ha).
  destruct (analytics_stage_object top) as (mapped & Hn).
  set (s1 := with_tasks (delete t) s).
  assert (is_current c (setAccountInfo (Some info) s1) = true) as Hc1 by exact Hc.
  assert (is_current c s1 = true) as Hc0 by exact Hc.
  assert (s' = completed c (JObj top) s1) as ->.
  { subst s'. apply (step_settle s t (PollBody c)); [exact Hk|].
    cbn [resume]. unfold poll_body. fold s1. rewrite Hc0, Hs. reflexivity. }
  unfold completed. rewrite Hc0, Ha. cbn [negb].
  destruct (monthly_stage (JObj top)) as [rows|e] eqn:Hm.
  - rewrite Hn. rewrite clearPolling_view.
    split; [|split; [reflexivity | apply clearPolling_refs]].
    exists info, mapped. split; [reflexivity|]. split; [reflexivity|].
    split; [reflexivity|]. left. exists rows. repeat split; reflexivity.
  - rewrite (monthly_stage_message _ _ Hm). unfold poll_catch. rewrite Hc1, Hn. cbn [negb].
    rewrite clearPolling_view.
    split; [|split; [reflexivity | apply clearPolling_refs]].
    exists info, mapped. split; [reflexivity|]. split; [reflexivity|].
    split; [reflexivity|]. right. repeat split; reflexivity.
Qed.

Lemma completed_shows_results_or_monthly_error_witness :
  tasks first_poll_answered !! 1 = Some (PollBody (starting 0 (job 7)))
  /\ is_current (starting 0 (job 7)) first_poll_answered = true
  /\ isAnalyzing
       (view (step first_poll_answered
                (Settle 1 (GotJson (JObj [("status", JStr "completed");
                                          ("monthly_analysis", JObj [("Jan", JNull)])])))))
     = false.
Proof.
  assert (tasks first_poll_answered !! 1 = Some (PollBody (starting 0 (job 7)))) as H1
    by (vm_compute; reflexivity).
  assert (is_current (starting 0 (job 7)) first_poll_answered = true) as H2
    by (vm_compute; reflexivity).
  split; [exact H1|]. split; [exact H2|].
  exact (proj1 (proj2 (completed_shows_results_or_monthly_error first_poll_answered 1
                         (starting 0 (job 7))
                         (JObj [("status", JStr "completed");
                                ("monthly_analysis", JObj [("Jan", JNull)])])
                         H1 H2 eq_refl))).
Defined.

End PollOutcomes.

Section UploadOutcomes.
Import Upload.


Lemma strict_eq_refl t v : truthy v = true -> strict_eq (ident_of t v) (ident_of t v) = true.
Proof.
  destruct v as [| |b|q|x|l|f]; simpl; intros H; try discriminate H.
  - now rewrite H.
  - apply Qeq_bool_iff. reflexivity.
  - apply String.eqb_refl.
  - apply Nat.eqb_refl.
  - apply Nat.eqb_refl.
Qed.

(** X21.  A 2xx upload answer whose body carries a truthy [id] starts the
    poll session: the marker takes the identifier, the first poll is
    scheduled exactly [initialPollInterval] (60000 ms) ahead on a fresh
    handle that the handle ref now holds, with nothing accumulated; the
    view is not touched, the timeouts pending before stay pending, and no
    request is sent until that timeout elapses, when the first
    [GET results] for the identifier leaves. *)
Theorem upload_starts_polling (s : State) (t : nat) (uploadData v : JsVal) :
  reachable s ->
  tasks s !! t = Some UploadText ->
  get uploadData "id" = Normal v ->
  truthy v = true ->
  let id := ident_of t v in
  let s' := step s (Settle t (GotText (Normal uploadData))) in
  let s'' := step s' (Fire (nextTimer s)) in
  currentPdfIdRef s' = Some id
  /\ pollTimeoutRef s' = Some (nextTimer s)
  /\ timers s' = <[nextTimer s := (initialPollInterval, starting t id)]> (timers s)
  /\ timers s !! nextTimer s = None
  /\ tasks s' = delete t (tasks s)
  /\ view s' = view s
  /\ requests s' = requests s
  /\ requests s'' = GetResults id :: requests s
  /\ timers s'' = timers s
  /\ tasks s'' !! nextTask s = Some (PollFetch (starting t id)).
Proof.
  intros Hreach Hk Hid Hv id s' s''.
  pose proof (reachable_wf s Hreach) as W.
  assert (timers s !! nextTimer s = None) as Hfree by (apply (wf_timers s W); lia).
  assert (s' = schedule initialPollInterval (starting t id)
                 (set_currentPdfIdRef (Some id) (with_tasks (delete t) s))) as E.
  { subst s'. apply (step_settle s t UploadText); [exact Hk|].
    cbn [resume]. unfold upload_succeeded. rewrite Hid, Hv. reflexivity. }
  assert (timers s' !! nextTimer s = Some (initialPollInterval, starting t id)) as Ht
    by (rewrite E; apply lookup_insert_eq).
  assert (is_current (starting t id) (with_timers (delete (nextTimer s)) s') = true) as Hc.
  { rewrite E. unfold is_current. cbn. apply strict_eq_refl, Hv. }
  assert (s'' = suspend (PollFetch (starting t id))
                  (fetch (GetResults id) (with_timers (delete (nextTimer s)) s'))) as E2.
  { subst s''. cbn [step]. rewrite Ht. unfold pollForResults. rewrite Hc. reflexivity. }
  rewrite E2, E. cbn -[delete insert].
  repeat split; try reflexivity; try exact Hfree.
  - rewrite delete_insert_eq. apply delete_id, Hfree.
  - apply lookup_insert_eq.
Qed.

Lemma upload_starts_polling_witness :
  reachable upload_answered
  /\ tasks upload_answered !! 0 = Some UploadText
  /\ timers (step upload_answered (Settle 0 (created 7)))
     = <[1%positive := (initialPollInterval, starting 0 (job 7))]> (timers upload_answered)
  /\ requests (run upload_answered [Settle 0 (created 7); Fire 1%positive])
     = [GetResults (job 7); PostUpload statement].
Proof.
  assert (reachable upload_answered) as Hr.
  { unfold upload_answered, uploading. apply reachable_run, reachable_run.
    exists []. reflexivity. }
  assert (tasks upload_answered !! 0 = Some UploadText) as Hk by reflexivity.
  pose proof (upload_starts_polling upload_answered 0
                (JObj [("id", JNum (inject_Z 7))]) (JNum (inject_Z 7))
                Hr Hk eq_refl eq_refl) as H.
  cbv zeta in H. destruct H as (_ & _ & Ht & _ & _ & _ & _ & Hq & _).
  split; [exact Hr|]. split; [exact Hk|]. split; [exact Ht | exact Hq].
Defined.


End UploadOutcomes.

(* ===================================================================== *)
(** * Further properties of the mapping                                    *)
(* ===================================================================== *)

Section RowFacts.

Lemma get_present v k : present v -> exists x, get v k = Normal x.
Proof. intros [H1 H2]. destruct v; simpl; eauto; contradiction. Qed.

Lemma get_missing v k : v = JNull \/ v = JUndefined -> exists e, get v k = Throw e.
Proof. intros [-> | ->]; simpl; eauto. Qed.

Lemma nullish_present v : present (nullish v zero).
Proof. destruct v; simpl; split; discriminate. Qed.

Lemma abs_ok_nullish v : abs_ok (Math_abs (nullish v zero)).
Proof.
  destruct v; cbn -[Qabs]; try apply Qabs_nonneg;
    (split; [split; discriminate | intros q' H; discriminate H]).
Qed.

Lemma sum_ok_nullish a b : sum_ok (js_plus (nullish a zero) (nullish b zero)).
Proof.
  pose proof (nullish_present a) as Pa. pose proof (nullish_present b) as Pb.
  destruct (nullish a zero) eqn:Ea, (nullish b zero) eqn:Eb; simpl; try exact I;
    (split; [exact Pa | split; [exact Pb |]]);
    intros [[p' Hp] [q' Hq]]; discriminate.
Qed.

(** X23.  [mapMonthlyStats] fails exactly when the statistics are [null]
    or [undefined]; a row it returns carries the month it was given, has no
    plain field that is [null] or [undefined], an outflow that is computed
    and not negative whenever [total_debit] is a number, and sums that are
    computed whenever both operands are numbers. *)
Theorem mapped_rows_have_no_missing_fields (month : string) (stats : JsVal) :
  (stats = JNull \/ stats = JUndefined -> exists e, mapMonthlyStats month stats = Throw e)
  /\ (present stats -> exists row, mapMonthlyStats month stats = Normal row)
  /\ forall row,
       mapMonthlyStats month stats = Normal row ->
       present stats
       /\ Monthly.month row = month
       /\ Forall (fun field => present (field row)) copied_fields
       /\ abs_ok (Monthly.outflows row)
       /\ sum_ok (Monthly.foreignTxns row)
       /\ sum_ok (Monthly.foreignAmount row).
Proof.
  split; [|split].
  - intros H. unfold mapMonthlyStats.
    destruct (get_missing stats "opening_balance" H) as (e & ->). eauto.
  - intros H. destruct (mapMonthlyStats_defaults month stats H) as (row & Hr & _). eauto.
  - intros row H.
    assert (present stats) as P.
    { destruct stats; try (split; discriminate); cbn in H; discriminate H. }
    split; [exact P|].
    unfold mapMonthlyStats in H.
    repeat match type of H with
           | context [get stats ?k] =>
               let x := fresh "x" in
               let Hx := fresh "Hx" in
               destruct (get_present stats k P) as (x & Hx); rewrite Hx in H;
               cbn [mbind completion_bind] in H
           end.
    inversion H. cbn [Monthly.month Monthly.outflows Monthly.foreignTxns
                      Monthly.foreignAmount copied_fields].
    split; [reflexivity|]. split.
    + repeat constructor; apply nullish_present.
    + split; [apply abs_ok_nullish|]. split; apply sum_ok_nullish.
Qed.

Lemma no_stats_dec e : no_stats e \/ present (snd e).
Proof.
  unfold no_stats, present. destruct (snd e); auto; right; split; discriminate.
Qed.

Lemma map_entries_rows entries :
  ~ Exists no_stats entries ->
  exists rows,
    map_entries entries = Normal rows
    /\ map Monthly.month rows = map fst entries
    /\ Forall2 (fun e row => mapMonthlyStats (fst e) (snd e) = Normal row) entries rows.
Proof.
  induction entries as [|[month stats] entries IH]; intros H.
  - exists []. repeat split. constructor.
  - destruct (no_stats_dec (month, stats)) as [Hn|Hp].
    { exfalso. apply H. now left. }
    destruct (mapMonthlyStats_defaults month stats Hp) as (row & Hr & Hm & _).
    destruct IH as (rows & Hrows & Hmonths & Hall).
    { intros Hex. apply H. now right. }
    exists (row :: rows). cbn [map_entries]. rewrite Hr, Hrows. cbn.
    split; [reflexivity|]. split; [now rewrite Hm, Hmonths|].
    constructor; [exact Hr | exact Hall].
Qed.

Lemma map_entries_fails entries :
  Exists no_stats entries -> exists e, map_entries entries = Throw e.
Proof.
  induction entries as [|[month stats] entries IH]; intros H.
  - inversion H.
  - cbn [map_entries]. destruct (mapMonthlyStats month stats) as [row|e] eqn:Hr; [|eauto].
    destruct IH as (e & ->); [|cbn; eauto].
    inversion H as [? ? Hn | ? ? Hex]; subst; [|exact Hex].
    destruct Hn as [Hn|Hn]; cbn in Hn; subst stats; cbn in Hr; discriminate Hr.
Qed.

Lemma entries_of_truthy v : truthy v = true -> exists entries, Object_entries v = Normal entries.
Proof. destruct v; simpl; intros H; try discriminate H; eauto. Qed.



(** X25.  The account-information stage of a response object never
    fails.  When [account_info] is anything but an object (absent, [null],
    a number, a string, a boolean, an array) every field takes its default;
    when it is an object, each display field is the source field if that is
    truthy and the default otherwise, so that [null], [false], [0] and ['']
    are replaced like an absent field. *)
Theorem account_info_defaults_unless_object (top : list (string * JsVal))
    (account_info : JsVal) :
  get (JObj top) "account_info" = Normal account_info ->
  ((forall fields, account_info <> JObj fields) ->
   account_stage (JObj top) = Normal blank_account)
  /\ (forall fields,
        account_info = JObj fields ->
        exists info,
          account_stage (JObj top) = Normal info
          /\ Forall (fun '(k, field, dflt) =>
                       field info = match own k fields with
                                    | Some v => if truthy v then v else dflt
                                    | None => dflt
                                    end)
               account_fields).
Proof.
  intros Hg. unfold account_stage. rewrite Hg. cbn [mbind completion_bind]. split.
  - intros Hno. destruct account_info as [| |b|q|x|l|f]; try reflexivity.
    + destruct b; reflexivity.
    + unfold js_or. destruct (truthy (JNum q)); reflexivity.
    + unfold js_or. destruct (truthy (JStr x)); reflexivity.
    + exfalso. now apply (Hno f).
  - intros fields ->. eexists. split; [reflexivity|].
    unfold account_fields. repeat constructor; cbn;
      match goal with |- context [own ?k fields] => destruct (own k fields) end;
      reflexivity.
Qed.

Lemma account_info_defaults_unless_object_witness :
  account_stage (JObj [("status", JStr "completed"); ("account_info", JNull)])
  = Normal blank_account.
Proof.
  apply (account_info_defaults_unless_object
           [("status", JStr "completed"); ("account_info", JNull)] JNull eq_refl).
  intros fields H. discriminate H.
Defined.

End RowFacts.

(* ===================================================================== *)
(** * Properties of the earlier, non-polling upload                        *)
(* ===================================================================== *)

Section LegacyFacts.
Import Upload.

Lemma legacy_settle s t k o s' :
  Legacy.tasks s !! t = Some k -> Legacy.resume t k o (Legacy.resumed t s) = Some s' ->
  Legacy.step s (Settle t o) = s'.
Proof. intros Hk R. cbn [Legacy.step]. rewrite Hk, R. reflexivity. Qed.

(** X26.  The earlier [onDrop] maps the body of the upload answer itself.
    It does not look at a status: every 2xx body that is a JSON object
    whose months all have statistics is shown as results, with the display
    model that the polling version builds from the same object when it is
    "completed".  A body that is [null] fails in the account-information
    stage, which is reported under the prefix of the outer [catch]; and an
    error body that cannot be decoded is reported there too, with the
    decoder's message (the polling version synthesises 'Server error:
    ...' instead). *)
Theorem legacy_upload_outcomes (s : Legacy.State) (t : nat) :
  (forall top rows,
      Legacy.tasks s !! t = Some UploadText ->
      monthly_stage (JObj top) = Normal rows ->
      let s' := Legacy.step s (Settle t (GotText (Normal (JObj top)))) in
      showResults (Legacy.view s') = true
      /\ isAnalyzing (Legacy.view s') = false
      /\ error (Legacy.view s') = error (Legacy.view s)
      /\ monthlyData (Legacy.view s') = rows
      /\ forall (p : State) (c : Session),
           is_current c p = true ->
           accountInfo (Legacy.view s') = accountInfo (view (completed c (JObj top) p))
           /\ monthlyData (Legacy.view s') = monthlyData (view (completed c (JObj top) p))
           /\ analytics (Legacy.view s') = analytics (view (completed c (JObj top) p))
           /\ showResults (view (completed c (JObj top) p)) = true)
  /\ (Legacy.tasks s !! t = Some UploadText ->
      let s' := Legacy.step s (Settle t (GotText (Normal JNull))) in
      error (Legacy.view s')
      = JStr "Network or server error: Error processing account information"
      /\ isAnalyzing (Legacy.view s') = false
      /\ showResults (Legacy.view s') = showResults (Legacy.view s))
  /\ (forall r e,
        Legacy.tasks s !! t = Some (UploadErrorBody r) ->
        let s' := Legacy.step s (Settle t (Rejected e)) in
        error (Legacy.view s') = JStr ("Network or server error: " +:+ e)
        /\ isAnalyzing (Legacy.view s') = false
        /\ Legacy.requests s' = Legacy.requests s).
Proof.
  split; [|split].
  - intros top rows Hk Hm s'.
    destruct (account_stage_object top) as (info & Ha).
    destruct (analytics_stage_object top) as (mapped & Hn).
    assert (s' = Legacy.setShowResults true (Legacy.setIsAnalyzing false
                   (Legacy.setAnalytics (Some mapped)
                      (Legacy.setMonthlyData rows
                         (Legacy.setAccountInfo (Some info) (Legacy.resumed t s))))))
      as ->.
    { subst s'. apply (legacy_settle s t UploadText); [exact Hk|].
      cbn [Legacy.resume]. unfold Legacy.uploaded. rewrite Ha, Hm, Hn. reflexivity. }
    repeat split; try reflexivity;
      unfold completed; rewrite H, Ha, Hm, Hn; cbn [negb];
      rewrite clearPolling_view; reflexivity.
  - intros Hk s'. subst s'.
    rewrite (legacy_settle s t UploadText (GotText (Normal JNull))
               (Legacy.upload_catch "Error processing account information"
                  (Legacy.resumed t s)) Hk eq_refl).
    repeat split; reflexivity.
  - intros r e Hk s'. subst s'.
    rewrite (legacy_settle s t (UploadErrorBody r) (Rejected e)
               (Legacy.upload_catch e (Legacy.resumed t s)) Hk eq_refl).
    repeat split; reflexivity.
Qed.

End LegacyFacts.

(* ===================================================================== *)
(** * Properties of the fixed-point texts                                  *)
(* ===================================================================== *)

Section RenderFacts.
Import Upload Render.

Lemma toFixed_renders v digits : (exists q, toFixed v digits = Normal q) <-> is_number v.
Proof.
  unfold is_number. split.
  - intros [q H]. destruct v; try discriminate H. eauto.
  - intros [q ->]. simpl. eauto.
Qed.

Lemma card_renders v digits suffix literal :
  (exists text,
      (if defined v then q ← toFixed v digits; mret (Fixed q digits suffix)
       else Normal (Literal literal)) = Normal text)
  <-> absent_or_number v.
Proof.
  unfold absent_or_number. split.
  - intros [text H]. destruct v; cbn in H; try discriminate H; eauto.
  - intros [-> | [q ->]]; cbn; eauto.
Qed.

(** X27.  The fixed-point texts of the results view render for numbers
    only.  The two analytics cards show their literal ('0.00%', '0.0000')
    when there are no analytics or the field is [undefined], the
    fixed-point text when it is a number, and fault on anything else
    ([null] included, since the test is [!== undefined]); the fluctuation
    cell of a mapped row renders exactly when the source [fluctuation] is
    absent, [null] or a number. *)
Theorem fixed_texts_render_numbers_only :
  (average_fluctuation_card None = Normal (Literal "0.00%")
   /\ cash_flow_stability_card None = Normal (Literal "0.0000"))
  /\ (forall a,
        ((exists text, average_fluctuation_card (Some a) = Normal text)
         <-> absent_or_number (Analytics.averageFluctuation a))
        /\ ((exists text, cash_flow_stability_card (Some a) = Normal text)
            <-> absent_or_number (Analytics.netCashFlowStability a))
        /\ (Analytics.averageFluctuation a = JUndefined ->
            average_fluctuation_card (Some a) = Normal (Literal "0.00%"))
        /\ (forall q, Analytics.averageFluctuation a = JNum q ->
            average_fluctuation_card (Some a) = Normal (Fixed q 2 "%"))
        /\ (Analytics.averageFluctuation a = JNull ->
            average_fluctuation_card (Some a) = Throw (cannot_read "null" "toFixed")))
  /\ (forall month stats row fluctuation,
        mapMonthlyStats month stats = Normal row ->
        get stats "fluctuation" = Normal fluctuation ->
        ((exists text, fluctuation_cell row = Normal text)
         <-> fluctuation = JUndefined \/ fluctuation = JNull \/ is_number fluctuation)
        /\ (fluctuation = JUndefined \/ fluctuation = JNull ->
            fluctuation_cell row = Normal (Fixed 0 2 "%"))).
Proof.
  split; [split; reflexivity|]. split.
  - intros a. split; [apply card_renders|]. split; [apply card_renders|].
    unfold average_fluctuation_card.
    split; [intros ->; reflexivity|]. split; [intros q ->; reflexivity|].
    intros ->. reflexivity.
  - intros month stats row fl Hrow Hfl.
    assert (Monthly.fluctuation row = nullish fl zero) as Hf.
    { assert (present stats) as P.
      { destruct stats; try (split; discriminate); cbn in Hrow; discriminate Hrow. }
      unfold mapMonthlyStats in Hrow.
      repeat match type of Hrow with
             | context [get stats ?k] =>
                 let x := fresh "x" in
                 let Hx := fresh "Hx" in
                 destruct (get_present stats k P) as (x & Hx); rewrite Hx in Hrow;
                 cbn [mbind completion_bind] in Hrow;
                 try (rewrite Hfl in Hx; inversion Hx; subst x)
             end.
      inversion Hrow. reflexivity. }
    unfold fluctuation_cell. rewrite Hf. split.
    + split.
      * intros [text H]. destruct fl; cbn in H; try discriminate H; auto.
        right. right. eexists. reflexivity.
      * intros [-> | [-> | [q ->]]]; cbn; eauto.
    + intros [-> | ->]; reflexivity.
Qed.

(** X28.  A "completed" answer whose analytics carry [average_fluctuation:
    null] is accepted and switches the results view on (the mapping copies
    the field as it is), and the first fixed-point text the view then
    evaluates faults on it. *)
Theorem null_analytics_field_faults_the_view (s : State) (t : nat) (c : Session)
    (d a : JsVal) (rows : list Monthly.t) :
  tasks s !! t = Some (PollBody c) ->
  is_current c s = true ->
  get d "status" = Normal (JStr "completed") ->
  monthly_stage d = Normal rows ->
  get d "analytics" = Normal a ->
  get a "average_fluctuation" = Normal JNull ->
  let s' := step s (Settle t (GotJson d)) in
  showResults (view s') = true
  /\ error (view s') = error (view s)
  /\ (exists mapped, analytics (view s') = Some mapped
                     /\ Analytics.averageFluctuation mapped = JNull)
  /\ fixed_texts (view s') = Throw (cannot_read "null" "toFixed").
Proof.
  intros Hk Hc Hs Hm Ha Hf s'.
  destruct (status_read_object d _ Hs) as (top & ->).
  destruct (account_stage_object top) as (info & Hi).
  destruct (analytics_stage_object top) as (mapped & Hn).
  assert (Analytics.averageFluctuation mapped = JNull) as Hnull.
  { unfold analytics_stage in Hn.
    assert (analytics_field (JObj top) "average_fluctuation" = Normal JNull) as E.
    { unfold analytics_field. rewrite Ha. cbn [mbind completion_bind].
      unfold opt_get. destruct a; try exact Hf; cbn in Hf; discriminate Hf. }
    rewrite E in Hn. cbn [mbind completion_bind] in Hn.
    repeat match type of Hn with
           | context [analytics_field (JObj top) ?k] =>
               let v := fresh "v" in
               let E := fresh "E" in
               destruct (analytics_field_object top k) as (v & E & _);
               rewrite E in Hn; cbn [mbind completion_bind] in Hn
           end.
    inversion Hn. reflexivity. }
  set (s1 := with_tasks (delete t) s).
  assert (is_current c s1 = true) as Hc0 by exact Hc.
  assert (s' = completed c (JObj top) s1) as ->.
  { subst s'. apply (step_settle s t (PollBody c)); [exact Hk|].
    cbn [resume]. unfold poll_body. fold s1. rewrite Hc0, Hs. reflexivity. }
  unfold completed. rewrite Hc0, Hi, Hm, Hn. cbn [negb].
  rewrite clearPolling_view.
  split; [reflexivity|]. split; [reflexivity|]. split; [eauto|].
  match goal with |- fixed_texts ?v = _ => set (shown := v) end.
  assert (analytics shown = Some mapped) as Hv by reflexivity.
  unfold fixed_texts. rewrite Hv. unfold average_fluctuation_card. rewrite Hnull.
  reflexivity.
Qed.

Lemma null_analytics_field_faults_the_view_witness :
  let d := JObj [("status", JStr "completed");
                 ("analytics", JObj [("average_fluctuation", JNull)])] in
  tasks first_poll_answered !! 1 = Some (PollBody (starting 0 (job 7)))
  /\ showResults (view (step first_poll_answered (Settle 1 (GotJson d)))) = true
  /\ fixed_texts (view (step first_poll_answered (Settle 1 (GotJson d))))
     = Throw (cannot_read "null" "toFixed").
Proof.
  intros d.
  assert (tasks first_poll_answered !! 1 = Some (PollBody (starting 0 (job 7)))) as H1
    by (vm_compute; reflexivity).
  assert (is_current (starting 0 (job 7)) first_poll_answered = true) as H2
    by (vm_compute; reflexivity).
  pose proof (null_analytics_field_faults_the_view first_poll_answered 1
                (starting 0 (job 7)) d (JObj [("average_fluctuation", JNull)]) []
                H1 H2 eq_refl eq_refl eq_refl eq_refl) as H.
  cbv zeta in H. destruct H as (Hs & _ & _ & Hf).
  split; [exact H1|]. split; [exact Hs | exact Hf].
Defined.

End RenderFacts.

(* ===================================================================== *)
(** * Further properties of the passcode entry                             *)
(* ===================================================================== *)

Section PasscodeFocusFacts.
Import Passcode PasscodeFocus.

Lemma findLastIndex_spec (values : Cells) :
  match findLastIndex_filled values with
  | Some i =>
      (exists cell, values !! i = Some cell /\ filled cell = true)
      /\ forall j cell, i < j -> values !! j = Some cell -> filled cell = false
  | None => forall j cell, values !! j = Some cell -> filled cell = false
  end.
Proof.
  induction values as [|c values IH]; cbn [findLastIndex_filled].
  - intros j cell H. discriminate H.
  - destruct (findLastIndex_filled values) as [i|].
    + destruct IH as [(cell & Hc & Hf) IH]. split; [exists cell; auto|].
      intros [|j] cell' Hlt H; [lia|]. apply (IH j); [lia | exact H].
    + destruct (filled c) eqn:E.
      * split; [exists c; auto|]. intros [|j] cell' Hlt H; [lia|]. apply (IH j), H.
      * intros [|j] cell' H; [inversion H; subst; exact E | apply (IH j), H].
Qed.

Lemma focus_rendered length index i : focus length index = Some i -> i = index /\ i < length.
Proof.
  unfold focus. destruct (decide _) as [Hlt|]; intros H; inversion H. subst. auto.
Qed.

(** X29.  Where the focus goes.  No handler and no effect of
    [PasscodeInput] focuses anything but one of the [length] rendered
    inputs.  A digit typed before the last input moves the focus one input
    right, and typed into the last input moves nothing; Backspace in an
    empty input moves it one input left; an accepted paste puts it on the
    last pasted digit.  When [error] is set the focus goes to the last
    filled input, and to the last input when every cell is empty. *)
Theorem focus_stays_on_the_inputs (length : nat) (values : Cells) :
  List.length values = length ->
  (forall disabled index value key text i,
      focus_after_change length disabled index value = Some i
      \/ focus_after_keydown length disabled values index key = Some i
      \/ focus_after_paste length disabled text = Some i
      \/ focus_on_error length values = Some i ->
      i < length)
  /\ (forall index d, one_digit d = true ->
        focus_after_change length false index d
        = if decide (S index < length) then Some (S index) else None)
  /\ (forall index, 0 < index <= length -> holds_text values index = false ->
        focus_after_keydown length false values index "Backspace" = Some (index - 1))
  /\ (forall text, digits_only (substring 0 length text) = true ->
        focus_after_paste length false text
        = Some (String.length (substring 0 length text) - 1))
  /\ (0 < length ->
      exists i,
        focus_on_error length values = Some i
        /\ (forall j cell, i < j -> values !! j = Some cell -> filled cell = false)
        /\ ((exists cell, values !! i = Some cell /\ filled cell = true)
            \/ (i = length - 1
                /\ forall j cell, values !! j = Some cell -> filled cell = false))).
Proof.
  intros Hlen. split; [|split; [|split; [|split]]].
  - intros disabled index value key text i [H | [H | [H | H]]].
    + unfold focus_after_change in H.
      repeat match type of H with
             | (if ?b then _ else _) = _ => destruct b; try discriminate H
             end.
      now apply focus_rendered in H.
    + unfold focus_after_keydown in H.
      repeat match type of H with
             | (if ?b then _ else _) = _ => destruct b; try discriminate H
             end.
      now apply focus_rendered in H.
    + unfold focus_after_paste in H.
      repeat match type of H with
             | (if ?b then _ else _) = _ => destruct b; try discriminate H
             end.
      now apply focus_rendered in H.
    + unfold focus_on_error in H.
      destruct (findLastIndex_filled values); [now apply focus_rendered in H|].
      destruct (decide (0 < length)); [now apply focus_rendered in H | discriminate H].
  - intros index d Hd. unfold focus_after_change. rewrite Hd.
    destruct (one_digit_inv d Hd) as (c & -> & _).
    cbn [negb andb String.eqb]. unfold focus.
    destruct (decide (S index < length)) as [H|H].
    + replace (S index <? length)%nat with true by (symmetry; apply Nat.ltb_lt; lia).
      rewrite decide_True by lia. f_equal. lia.
    + replace (S index <? length)%nat with false by (symmetry; apply Nat.ltb_ge; lia).
      reflexivity.
  - intros index Hi Hh. unfold focus_after_keydown.
    change (String.eqb "Backspace" "Backspace") with true. cbv iota. rewrite Hh.
    replace (0 <? index)%nat with true by (symmetry; apply Nat.ltb_lt; lia).
    unfold focus. rewrite decide_True by lia. reflexivity.
  - intros text Hd. unfold focus_after_paste. rewrite Hd.
    pose proof (substring_length length text) as Hle.
    assert (0 < String.length (substring 0 length text)) as Hpos.
    { destruct (substring 0 length text); [discriminate Hd | simpl; lia]. }
    unfold focus. rewrite decide_True by lia. f_equal. lia.
  - intros Hpos. unfold focus_on_error.
    pose proof (findLastIndex_spec values) as S.
    destruct (findLastIndex_filled values) as [i|].
    + destruct S as [(cell & Hc & Hf) Hafter].
      assert (i < length) as Hi by (rewrite <- Hlen; eapply lookup_lt_Some, Hc).
      exists i. unfold focus. rewrite decide_True by exact Hi.
      split; [reflexivity|]. split; [exact Hafter|]. left. eauto.
    + exists (length - 1). rewrite decide_True by exact Hpos.
      unfold focus. rewrite decide_True by lia.
      split; [reflexivity|]. split; [intros j cell _; apply S|]. right. auto.
Qed.

Lemma focus_stays_on_the_inputs_witness :
  focus_on_error 6 [Some "4"; Some "7"; Some ""; Some ""; Some ""; Some ""] = Some 1
  /\ focus_after_paste 6 false "4711" = Some 3.
Proof.
  destruct (focus_stays_on_the_inputs 6
              [Some "4"; Some "7"; Some ""; Some ""; Some ""; Some ""] eq_refl)
    as (_ & _ & _ & Hp & _).
  split; [reflexivity | exact (Hp "4711" eq_refl)].
Defined.

(** X30.  Editing a complete code submits it again.  While every cell
    holds a digit, typing a digit into any input replaces that cell and
    calls [onComplete] at once with the new code of [length] digits;
    emptying a cell calls nothing. *)
Theorem editing_a_complete_code_submits_again (length : nat) (values : Cells)
    (index : nat) (d : string) :
  cells_ok length values ->
  all_filled values ->
  index < length ->
  one_digit d = true ->
  handleChange length false values index d
  = (<[index := Some d]> values, Some (join (<[index := Some d]> values)))
  /\ code_ok length (join (<[index := Some d]> values))
  /\ handleChange length false values index "" = (<[index := Some ""]> values, None).
Proof.
  intros [Hlen Hcells] Hfull Hi Hd.
  assert (index < List.length values) as Hi' by (rewrite Hlen; exact Hi).
  assert (cells_ok length (<[index := Some d]> values)) as [Hlen' Hcells'].
  { rewrite <- (array_set_in_range index d values Hi').
    apply cells_ok_set; [split; assumption | exact Hi | now apply cell_ok_digit]. }
  assert (all_filled (<[index := Some d]> values)) as Hfull'.
  { unfold all_filled. apply Forall_insert; [exact Hfull|].
    destruct (one_digit_inv d Hd) as (c & -> & _). eexists. split; [reflexivity | discriminate]. }
  destruct (join_filled _ Hcells' Hfull') as [Hjl Hjd].
  split; [|split].
  - unfold handleChange. rewrite Hd. cbn [negb andb].
    replace (negb (String.eqb d "") && false) with false by (now rewrite andb_false_r).
    cbv iota. rewrite (array_set_in_range index d values Hi').
    rewrite (all_filled_forallb _ Hfull'), Hjl, Hlen', Nat.eqb_refl. reflexivity.
  - split; [now rewrite Hjl | exact Hjd].
  - unfold handleChange. cbn [String.eqb negb andb]. cbv iota.
    rewrite (array_set_in_range index "" values Hi').
    replace (forallb filled (<[index := Some ""]> values)) with false; [reflexivity|].
    symmetry. apply not_true_is_false. intros H.
    apply (all_filled_set_empty values index Hi').
    apply filled_all; [|exact H].
    apply Forall_insert; [exact Hcells | apply cell_ok_empty].
Qed.

Lemma editing_a_complete_code_submits_again_witness :
  handleChange 4 false [Some "1"; Some "2"; Some "3"; Some "4"] 3 "5"
  = ([Some "1"; Some "2"; Some "3"; Some "5"], Some "1235").
Proof.
  assert (cells_ok 4 [Some "1"; Some "2"; Some "3"; Some "4"]) as Hc.
  { split; [reflexivity|]. repeat constructor; eexists; split; try reflexivity; auto. }
  assert (all_filled [Some "1"; Some "2"; Some "3"; Some "4"]) as Hf.
  { repeat constructor; eexists; split; try reflexivity; discriminate. }
  exact (proj1 (editing_a_complete_code_submits_again 4
                  [Some "1"; Some "2"; Some "3"; Some "4"] 3 "5"
                  Hc Hf ltac:(lia) eq_refl)).
Defined.

End PasscodeFocusFacts.
